(** * PixelArtScale: the PNG pixel-array codec and the ScaleNx drivers

    A shallow embedding of [pypng/pnglpng.py] (the joint between PyPNG and
    nested-list images) and of the drivers of [ScaleNxGUI.py], followed by
    the properties of the codec and of the batch pipeline.

    Python objects are modelled as follows.
    - An [int] is a [Z]; [range], [len] and subscripting are written out with
      Python's rules (negative subscripts count from the end, a subscript out
      of range raises [IndexError]).
    - An image is a [list (list (list Z))]: rows of pixels of channel samples.
    - The metadata record [info] is a [dict] with string keys: a
      [gmap string value].  A [dict] is a mutable object, so it lives in a
      store of objects and the functions receive a reference to it.
    - The channel count, [Z] in the source, is written [Z_] since [Z] is the
      type of integers here.
    - Exceptions are the [Raise] results of a small state-and-error monad [M];
      what the program does to the outside (files written, GUI state, tasks
      handed to the process pool) is appended to a trace of events. *)

From Stdlib Require Import ZArith String Ascii.
From stdpp Require Import base gmap strings list fin_maps numbers list_numbers.

Local Open Scope Z_scope.
Local Set Warnings "-register-all".

(** ** Python values and exceptions *)

Module Py.

(** The objects that occur as values of the metadata record: PyPNG reports
    ints, bools and sequences of them.  [VOpaque] stands for any other object
    (a float gamma, a bytes object) that the program only stores and passes
    on. *)
Inductive value : Type :=
| VNone
| VBool (b : bool)
| VInt (n : Z)
| VTuple (items : list value)
| VList (items : list value)
| VOpaque (tag : nat).

(** The exceptions of the program.  [Unmodelled] marks an operation on an
    opaque object, which the model does not follow. *)
Inductive exn : Type :=
| IndexError
| KeyError (key : string)
| TypeError
| ValueError (msg : string)
| UnboundLocalError (name : string)
| Unmodelled.

Inductive result (A : Type) : Type :=
| Ok (a : A)
| Raise (e : exn).
Global Arguments Ok {A} a.
Global Arguments Raise {A} e.

Global Instance result_ret : MRet result := fun A a => Ok a.
Global Instance result_bind : MBind result := fun A B f c =>
  match c with
  | Ok a => f a
  | Raise e => Raise e
  end.

(** [len(l)] *)
Definition len {A} (l : list A) : Z := Z.of_nat (length l).

(** [range(n)]: empty when [n <= 0]. *)
Definition range (n : Z) : list Z := seqZ 0 n.

(** [l[i]] on a list or tuple. *)
Definition getitem {A} (l : list A) (i : Z) : result A :=
  let j := if 0 <=? i then i else len l + i in
  if 0 <=? j
  then match l !! Z.to_nat j with
       | Some a => Ok a
       | None => Raise IndexError
       end
  else Raise IndexError.

(** [[f(i) for i in l]], stopping at the first exception. *)
Fixpoint comprehension {A B} (f : A -> result B) (l : list A) : result (list B) :=
  match l with
  | [] => Ok []
  | a :: l' =>
      b ← f a;
      bs ← comprehension f l';
      mret (b :: bs)
  end.

(** [(f(i) for i in l)] handed to a consumer that asks for its items one
    by one, to the end: the items that it gets before the first exception,
    and that exception, if there is one. *)
Fixpoint drawn {A B} (f : A -> result B) (l : list A)
  : list B * option exn :=
  match l with
  | [] => ([], None)
  | a :: l' =>
      match f a with
      | Ok b => let '(bs, stop) := drawn f l' in (b :: bs, stop)
      | Raise e => ([], Some e)
      end
  end.

(** A [bool] is an [int] in Python: [True] counts as 1 where a number is
    expected. *)
Definition as_int (v : value) : result Z :=
  match v with
  | VInt n => Ok n
  | VBool b => Ok (Z.b2z b)
  | VOpaque _ => Raise Unmodelled
  | _ => Raise TypeError
  end.

(** [v == n] for an int [n]; comparing never raises. *)
Definition eq_int (v : value) (n : Z) : bool :=
  match v with
  | VInt m => m =? n
  | VBool b => Z.b2z b =? n
  | _ => false
  end.

(** [v[i]] on a value. *)
Definition subscript (v : value) (i : Z) : result value :=
  match v with
  | VTuple items | VList items => getitem items i
  | VOpaque _ => Raise Unmodelled
  | _ => Raise TypeError
  end.

(** [n * v] for an int [n]: a product of numbers, or a sequence repeated. *)
Definition int_mul (n : Z) (v : value) : result value :=
  match v with
  | VInt m => Ok (VInt (n * m))
  | VBool b => Ok (VInt (n * Z.b2z b))
  | VTuple items => Ok (VTuple (mjoin (replicate (Z.to_nat n) items)))
  | VList items => Ok (VList (mjoin (replicate (Z.to_nat n) items)))
  | VNone => Raise TypeError
  | VOpaque _ => Raise Unmodelled
  end.

End Py.
Import Py.

(** ** The store of dict objects and the trace of effects *)

Abbreviation dict := (gmap string value).
Abbreviation loc := nat.
Abbreviation image := (list (list (list Z))).

(** The two task functions the batch driver hands to the pool. *)
Inductive target : Type :=
| Scale_file_png
| Scale_file_pnm.

Inductive event : Type :=
(* the file of the writer is opened for writing *)
| Open_wb (fname : string)
(* the writer, built from width, height and the record, writes the rows,
   which it draws from the generator one by one *)
| Writer_write (fname : string) (width height : Z) (kwargs : dict)
    (rows : list (list Z))
(* the same call left by an exception of the generator, after the writer
   has drawn the rows before it *)
| Writer_raised (fname : string) (width height : Z) (kwargs : dict)
    (rows : list (list Z)) (e : exn)
(* the PNM writer list2pnm is called *)
| List2pnm (fname : string) (img : image) (maxcolors : Z)
(* the three states of the window *)
| UIWaiting
| UIBusy
| UINormal
(* multiprocessing.Pool *)
| Pool_create
| Apply_async (fn : target) (runningfilename : string) (size : Z) (sfx : bool)
| Pool_close
| Pool_join.

Record world : Type := World {
  heap : gmap loc dict;
  trace : list event
}.

Definition M (A : Type) : Type := world -> result A * world.

Global Instance M_ret : MRet M := fun A a w => (Ok a, w).
Global Instance M_bind : MBind M := fun A B f c w =>
  match c w with
  | (Ok a, w') => f a w'
  | (Raise e, w') => (Raise e, w')
  end.

Definition raise {A} (e : exn) : M A := fun w => (Raise e, w).

Definition lift {A} (r : result A) : M A := fun w => (r, w).

Definition emit (e : event) : M unit := fun w =>
  (Ok tt, World (heap w) (trace w ++ [e])).

(** The dict object behind a reference. *)
Definition deref (l : loc) : M dict := fun w =>
  match heap w !! l with
  | Some d => (Ok d, w)
  | None => (Raise TypeError, w)
  end.

Definition update (l : loc) (f : dict -> dict) : M unit := fun w =>
  match heap w !! l with
  | Some d => (Ok tt, World (<[l := f d]> (heap w)) (trace w))
  | None => (Raise TypeError, w)
  end.

(** A new dict object: [{}] or a dict built by a library. *)
Definition alloc (d : dict) : M loc := fun w =>
  let l := fresh (dom (heap w)) in
  (Ok l, World (<[l := d]> (heap w)) (trace w)).

(** [info[k]] *)
Definition dict_get (l : loc) (k : string) : M value :=
  d ← deref l;
  match d !! k with
  | Some v => mret v
  | None => raise (KeyError k)
  end.

(** [k in info] *)
Definition dict_contains (l : loc) (k : string) : M bool :=
  d ← deref l;
  mret (bool_decide (is_Some (d !! k))).

(** [info[k] = v] *)
Definition dict_set (l : loc) (k : string) (v : value) : M unit :=
  update l (fun d => <[k := v]> d).

(** [del info[k]] *)
Definition dict_del (l : loc) (k : string) : M unit :=
  d ← deref l;
  match d !! k with
  | Some _ => update l (fun d => delete k d)
  | None => raise (KeyError k)
  end.

(** ** pypng/pnglpng.py *)

Module pnglpng.

Section Codec.

(** [png.Reader(in_filename).asDirect()] of PyPNG, which is not part of
    the codec: the width, the height, the rows and the metadata that the
    library reads from the named file. *)
Variable Reader_asDirect :
  string -> result (Z * Z * list (list Z) * dict).

(** The dict that the reader returns is a new object of the store.  The
    variable [maxcolors] is bound by one of three tests, or not at all; the
    plane count is used as a number, which is what PyPNG reports. *)
Definition png2list (in_filename : string)
  : M (Z * Z * Z * Z * image * loc) :=
  '(X, Y, pixels, chunks) ← lift (Reader_asDirect in_filename);
  info ← alloc chunks;
  planes ← dict_get info "planes";
  let maxcolors : option Z := None in
  bitdepth ← dict_get info "bitdepth";
  let maxcolors := if eq_int bitdepth 1 then Some 1 else maxcolors in
  bitdepth ← dict_get info "bitdepth";
  let maxcolors := if eq_int bitdepth 8 then Some 255 else maxcolors in
  bitdepth ← dict_get info "bitdepth";
  let maxcolors := if eq_int bitdepth 16 then Some 65535 else maxcolors in
  let imagedata := pixels in
  Z_ ← lift (as_int planes);
  list_3d ← lift (
    comprehension (fun y =>
      comprehension (fun x =>
        comprehension (fun z =>
          (row ← getitem imagedata y;
           getitem row (x * Z_ + z)) : result Z)
        (range Z_))
      (range X))
    (range Y));
  match maxcolors with
  | Some maxcolors => mret (X, Y, Z_, maxcolors, list_3d, info)
  | None => raise (UnboundLocalError "maxcolors")
  end.

End Codec.

(** The item of the generator [flatten_2d] of [list2png] for row [y]: the
    list that is built when the consumer asks for it. *)
Definition flatten_2d_row (X Z_ : Z) (list_3d : image) (y : Z)
  : result (list Z) :=
  pixels ← comprehension (fun x =>
    comprehension (fun z =>
      (row ← getitem list_3d y;
       pixel ← getitem row x;
       getitem pixel z) : result Z)
    (range Z_))
  (range X);
  mret (mjoin (M:=list) pixels).

(** The generator drawn to its end: one flat row per image row. *)
Definition flatten_2d (X Y Z_ : Z) (list_3d : image)
  : result (list (list Z)) :=
  comprehension (flatten_2d_row X Z_ list_3d) (range Y).

(** [info] is the caller's dict object; the writer receives its items as
    keyword arguments, so the event keeps the record as it is at that
    point.  The rows are not built beforehand: [writer.write] is handed the
    generator and draws the rows from it while it writes, so that an
    exception of a row leaves the call after the rows before it. *)
Definition list2png (out_filename : string) (list_3d : image) (info : loc)
  : M unit :=
  let Y := len list_3d in
  row0 ← lift (getitem list_3d 0);
  let X := len row0 in
  row0 ← lift (getitem list_3d 0);
  pixel0 ← lift (getitem row0 0);
  let Z_ := len pixel0 in
  let Z_ := Z.min Z_ 4 in
  dict_set info "size" (VTuple [VInt X; VInt Y]);;
  dict_set info "planes" (VInt Z_);;
  has_palette ← dict_contains info "palette";
  (if has_palette : bool then dict_del info "palette" else mret tt);;
  has_background ← dict_contains info "background";
  (if has_background : bool then dict_del info "background" else mret tt);;
  (if Z_ mod 2 =? 1
   then dict_set info "alpha" (VBool false)
   else dict_set info "alpha" (VBool true));;
  (if Z_ <? 3
   then dict_set info "greyscale" (VBool true)
   else dict_set info "greyscale" (VBool false));;
  kwargs ← deref info;
  emit (Open_wb out_filename);;
  match drawn (flatten_2d_row X Z_ list_3d) (range Y) with
  | (rows, None) => emit (Writer_write out_filename X Y kwargs rows)
  | (rows, Some e) =>
      emit (Writer_raised out_filename X Y kwargs rows e);;
      raise e
  end.

Definition create_image (X Y Z_ : Z) : image :=
  (fun y => (fun x => (fun z => 0) <$> range Z_) <$> range X) <$> range Y.

End pnglpng.

(** ** ScaleNxGUI.py *)

Module ScaleNxGUI.

(** *** [pathlib]: the name and the suffix of a path

    [Path(p).name] is what follows the last separator, and
    [Path(p).suffix] is the part of the name from its last dot on, empty
    when there is no dot, when the only dot opens the name or when the dot
    closes it. *)

Fixpoint has_char (c : ascii) (s : string) : bool :=
  match s with
  | EmptyString => false
  | String c' s' => if Ascii.eqb c' c then true else has_char c s'
  end.

Fixpoint name (p : string) : string :=
  match p with
  | EmptyString => EmptyString
  | String c p' =>
      if has_char "/" p' then name p'
      else if Ascii.eqb c "/" then p' else p
  end.

(** [s[s.rfind('.'):]] when [s] has a dot. *)
Fixpoint from_last_dot (s : string) : option string :=
  match s with
  | EmptyString => None
  | String c s' =>
      match from_last_dot s' with
      | Some t => Some t
      | None => if Ascii.eqb c "." then Some s else None
      end
  end.

Definition suffix (p : string) : string :=
  match name p with
  | EmptyString => EmptyString
  | String _ rest =>
      match from_last_dot rest with
      | Some t => if (String.length t =? 1)%nat then EmptyString else t
      | None => EmptyString
      end
  end.

(** [path.rglob('*.*')]: of the entries below the chosen folder, listed in
    the order of the traversal, those whose name has a dot. *)
Definition rglob (tree : list string) : list string :=
  filter (fun p => has_char "." (name p) = true) tree.

(** [for x in l: body(x)] *)
Fixpoint for_each {A} (l : list A) (body : A -> M unit) : M unit :=
  match l with
  | [] => mret tt
  | x :: l' => body x;; for_each l' body
  end.

(** The [filetypes] of the dialog that opens the source file of [FileNx],
    each pattern string split at its blanks. *)
Definition open_filetypes : list (string * list string) :=
  [ ("Supported formats", [".png"; ".ppm"; ".pgm"; ".pbm"]);
    ("PNG", [".png"]);
    ("PNM", [".ppm"; ".pgm"; ".pbm"]) ]%string.

(** A file can be picked in the dialog when one of the filters lists its
    suffix. *)
Definition dialog_offers (filetypes : list (string * list string))
    (p : string) : bool :=
  existsb (fun ft => bool_decide (suffix p ∈ ft.2)) filetypes.

Section Drivers.

(** The collaborators of the drivers: PyPNG's reader, the PNM reader
    [pnmlpnm.pnm2list], and the four scalers of [scalenx] and
    [scalenxsfx]. *)
Variable Reader_asDirect :
  string -> result (Z * Z * list (list Z) * dict).
Variable pnm2list : string -> result (Z * Z * Z * Z * image).
Variable scalenx_scale2x scalenx_scale3x : image -> result image.
Variable scalenxsfx_scale2x scalenxsfx_scale3x : image -> result image.

(** "Choosing working scaler from the list of imported scalers": the
    variable stays unbound when [size] is neither 2 nor 3. *)
Definition chosen_scaler (size : Z) (sfx : bool)
  : option (image -> result image) :=
  let chosen := None in
  if sfx then
    let chosen := if size =? 2 then Some scalenxsfx_scale2x else chosen in
    let chosen := if size =? 3 then Some scalenxsfx_scale3x else chosen in
    chosen
  else
    let chosen := if size =? 2 then Some scalenx_scale2x else chosen in
    let chosen := if size =? 3 then Some scalenx_scale3x else chosen in
    chosen.

Definition call_scaler (size : Z) (sfx : bool) (image3d : image)
  : M image :=
  match chosen_scaler size sfx with
  | Some scaler => lift (scaler image3d)
  | None => raise (UnboundLocalError "chosen_scaler")
  end.

(** "Fixing resolution to match original print size" and "Explicitly
    setting compression": lines 135-155 of [FileNx], which are lines
    217-238 of [scale_file_png]. *)
Definition fix_resolution (size : Z) (info : loc) : M unit :=
  has_physical ← dict_contains info "physical";
  '(x_pixels_per_unit, y_pixels_per_unit, unit_is_meter) ←
    (if has_physical : bool
     then
       res ← dict_get info "physical";
       x ← lift (subscript res 0);
       y ← lift (subscript res 1);
       u ← lift (subscript res 2);
       mret (x, y, u)
     else mret (VInt 3780, VInt 3780, VBool true));
  x_pixels_per_unit ← lift (int_mul size x_pixels_per_unit);
  y_pixels_per_unit ← lift (int_mul size y_pixels_per_unit);
  dict_set info "physical"
    (VList [x_pixels_per_unit; y_pixels_per_unit; unit_is_meter]);;
  dict_set info "compression" (VInt 9).

Definition scale_file_png (runningfilename : string) (size : Z)
    (sfx : bool) : M unit :=
  let oldfile := runningfilename in
  let newfile := oldfile in
  '(X, Y, Z_, maxcolors, image3d, info) ←
    pnglpng.png2list Reader_asDirect oldfile;
  scaled_image ← call_scaler size sfx image3d;
  fix_resolution size info;;
  pnglpng.list2png newfile scaled_image info.

Definition scale_file_pnm (runningfilename : string) (size : Z)
    (sfx : bool) : M unit :=
  let oldfile := runningfilename in
  let newfile := oldfile in
  '(X, Y, Z_, maxcolors, image3d) ← lift (pnm2list oldfile);
  scaled_image ← call_scaler size sfx image3d;
  emit (List2pnm newfile scaled_image maxcolors).

(** [FileNx], with the answers of its two file dialogs as arguments. *)
Definition FileNx (size : Z) (sfx : bool)
    (sourcefilename resultfilename : string) : M unit :=
  emit UIWaiting;;
  if bool_decide (sourcefilename = EmptyString)
  then emit UINormal
  else
    emit UIBusy;;
    '(X, Y, Z_, maxcolors, image3d, info) ←
      (if bool_decide (suffix sourcefilename = ".png")
       then pnglpng.png2list Reader_asDirect sourcefilename
       else if bool_decide (suffix sourcefilename ∈ [".ppm"; ".pgm"; ".pbm"])
       then
         '(X, Y, Z_, maxcolors, image3d) ← lift (pnm2list sourcefilename);
         info ← alloc ∅;
         (if maxcolors >? 255
          then dict_set info "bitdepth" (VInt 16)
          else dict_set info "bitdepth" (VInt 8));;
         mret (X, Y, Z_, maxcolors, image3d, info)
       else raise (ValueError "Extension not recognized"));
    scaled_image ← call_scaler size sfx image3d;
    fix_resolution size info;;
    emit UIWaiting;;
    if bool_decide (resultfilename = EmptyString)
    then emit UINormal
    else
      emit UIBusy;;
      (if bool_decide (suffix resultfilename = ".png")
       then pnglpng.list2png resultfilename scaled_image info
       else if bool_decide (suffix resultfilename ∈ [".ppm"; ".pgm"])
       then emit (List2pnm resultfilename scaled_image maxcolors)
       else mret tt);;
      emit UINormal.

(** [FolderNx], with the answer of its folder dialog and the entries
    below that folder as arguments. *)
Definition FolderNx (size : Z) (sfx : bool) (sourcedir : string)
    (tree : list string) : M unit :=
  emit UIWaiting;;
  if bool_decide (sourcedir = EmptyString)
  then emit UINormal
  else
    emit UIBusy;;
    emit Pool_create;;
    for_each (rglob tree) (fun runningfilename =>
      (if bool_decide (suffix runningfilename = ".png")
       then emit (Apply_async Scale_file_png runningfilename size sfx)
       else mret tt);;
      (if bool_decide (suffix runningfilename ∈ [".ppm"; ".pgm"])
       then emit (Apply_async Scale_file_pnm runningfilename size sfx)
       else mret tt));;
    emit Pool_close;;
    emit Pool_join;;
    emit UINormal.

End Drivers.

End ScaleNxGUI.

(** ** The process pool

    [multiprocessing.Pool] at the boundary that [FolderNx] uses, following
    its documentation: [apply_async] queues a task and returns at once, the
    worker processes finish the queued tasks, in any order and each with any
    outcome; [close] forbids further submissions; [join], which must follow
    [close], blocks until no task is left. *)

Module WorkerPool.

Record task : Type := Task {
  task_fn : target;
  task_file : string;
  task_size : Z;
  task_sfx : bool
}.

Record pool : Type := Pool {
  queued : list task;
  finished : list (task * result unit);
  closed : bool
}.

(** One call of the driver, taken in the order of its trace.  The events
    that do not concern the pool leave it as it is. *)
Inductive pool_call : event -> option pool -> option pool -> Prop :=
| call_create s :
    pool_call Pool_create s (Some (Pool [] [] false))
| call_apply_async fn file size sfx p :
    closed p = false ->
    pool_call (Apply_async fn file size sfx) (Some p)
      (Some (Pool (queued p ++ [Task fn file size sfx]) (finished p)
               (closed p)))
| call_close p :
    pool_call Pool_close (Some p)
      (Some (Pool (queued p) (finished p) true))
| call_join p :
    closed p = true ->
    queued p = [] ->
    pool_call Pool_join (Some p) (Some p)
| call_open_wb fname s : pool_call (Open_wb fname) s s
| call_writer_write fname X Y kwargs rows s :
    pool_call (Writer_write fname X Y kwargs rows) s s
| call_writer_raised fname X Y kwargs rows e s :
    pool_call (Writer_raised fname X Y kwargs rows e) s s
| call_list2pnm fname img maxcolors s :
    pool_call (List2pnm fname img maxcolors) s s
| call_uiwaiting s : pool_call UIWaiting s s
| call_uibusy s : pool_call UIBusy s s
| call_uinormal s : pool_call UINormal s s.

(** A run of the driver's calls against the pool, the workers finishing
    queued tasks in between. *)
Inductive pool_run : list event -> option pool -> option pool -> Prop :=
| run_return s :
    pool_run [] s s
| run_worker tr p before t after outcome s' :
    queued p = before ++ t :: after ->
    pool_run tr
      (Some (Pool (before ++ after) (finished p ++ [(t, outcome)])
               (closed p))) s' ->
    pool_run tr (Some p) s'
| run_call e tr s s1 s' :
    pool_call e s s1 ->
    pool_run tr s1 s' ->
    pool_run (e :: tr) s s'.

(** The tasks that a trace submits. *)
Fixpoint submitted (tr : list event) : list task :=
  match tr with
  | [] => []
  | Apply_async fn file size sfx :: tr' =>
      Task fn file size sfx :: submitted tr'
  | _ :: tr' => submitted tr'
  end.

(** The files that a trace writes. *)
Fixpoint written (tr : list event) : list string :=
  match tr with
  | [] => []
  | Open_wb fname :: tr' => fname :: written tr'
  | Writer_write fname _ _ _ _ :: tr' => fname :: written tr'
  | Writer_raised fname _ _ _ _ _ :: tr' => fname :: written tr'
  | List2pnm fname _ _ :: tr' => fname :: written tr'
  | _ :: tr' => written tr'
  end.

End WorkerPool.

(** ** Vocabulary of the statements *)

(** An image of [Y] rows of [X] pixels of [Z_] samples each. *)
Definition rectangular (list_3d : image) (Y X Z_ : Z) : Prop :=
  len list_3d = Y /\
  Forall (fun row =>
    len row = X /\ Forall (fun pixel : list Z => len pixel = Z_) row) list_3d.

(** The first [n] channels of every pixel. *)
Definition first_channels (n : Z) (list_3d : image) : image :=
  (fun row : list (list Z) => take (Z.to_nat n) <$> row) <$> list_3d.

(** Every row as one flat sequence of samples, pixel after pixel. *)
Definition flat_rows (list_3d : image) : list (list Z) :=
  (fun row : list (list Z) => mjoin row) <$> list_3d.

(** The metadata of an image of width [X], height [Y] and [Z_] planes, on
    top of the record [d]. *)
Definition derived_info (X Y Z_ : Z) (d : dict) : dict :=
  <["greyscale" := VBool (Z_ <? 3)]>
    (<["alpha" := VBool (negb (Z_ mod 2 =? 1))]>
       (delete "background"
          (delete "palette"
             (<["planes" := VInt Z_]>
                (<["size" := VTuple [VInt X; VInt Y]]> d))))).

(** The largest sample of a bit depth, for the three depths of the codec. *)
Definition maxcolors_of (bitdepth : Z) : option Z :=
  if bitdepth =? 1 then Some 1
  else if bitdepth =? 8 then Some 255
  else if bitdepth =? 16 then Some 65535
  else None.

(** The sample at flat offset [i] of row [y] of the rows of a reader. *)
Definition flat_sample (pixels : list (list Z)) (y i : Z) : Z :=
  (pixels !!! Z.to_nat y) !!! Z.to_nat i.

(** Rows of [X * Z_] samples cut into [X] pixels of [Z_] samples. *)
Definition partition (X Y Z_ : Z) (pixels : list (list Z)) : image :=
  (fun y =>
     (fun x => (fun z => flat_sample pixels y (x * Z_ + z)) <$> range Z_)
       <$> range X)
    <$> range Y.

(** What a reader returns for an image of [Y] rows, [X] pixels a row and
    [Z_] samples a pixel. *)
Definition scanlines (pixels : list (list Z)) (Y X Z_ : Z) : Prop :=
  len pixels = Y /\ Forall (fun row : list Z => len row = X * Z_) pixels.

(** The files that the batch driver hands to the pool, and the task function
    each one goes to. *)
Definition eligible (p : string) : bool :=
  bool_decide (ScaleNxGUI.suffix p ∈ [".png"; ".ppm"; ".pgm"]).

Definition codec_of (p : string) : target :=
  if bool_decide (ScaleNxGUI.suffix p = ".png")
  then Scale_file_png else Scale_file_pnm.

(** An entry below the chosen folder: its path, and whether it is a regular
    file or a directory.  [rglob] yields the entries of both kinds, and
    [FolderNx] reads the path only. *)
Record entry : Type := Entry {
  entry_path : string;
  entry_is_file : bool
}.

(** An eligible file: a regular file with one of the suffixes that the batch
    run sends to a codec path. *)
Definition eligible_file (e : entry) : bool :=
  entry_is_file e && eligible (entry_path e).


(** The resolution scaling law: the physical record of the output for a
    rescale factor [N], from the physical record of the input, if any. *)
Definition resolution_law (N : Z) (physical : option value) : option value :=
  match physical with
  | Some (VTuple [VInt x0; VInt y0; u]) | Some (VList [VInt x0; VInt y0; u]) =>
      Some (VList [VInt (N * x0); VInt (N * y0); u])
  | Some _ => None
  | None => Some (VList [VInt (N * 3780); VInt (N * 3780); VBool true])
  end.

(** ** Sample data *)

Definition sample_image : image :=
  [ [ [1; 2; 3]; [4; 5; 6] ];
    [ [7; 8; 9]; [10; 11; 12] ] ].

Definition five_channels : image :=
  [ [ [1; 2; 3; 4; 5]; [6; 7; 8; 9; 10] ] ].

Definition sample_meta : dict :=
  <["palette" := VList [VTuple [VInt 0; VInt 0; VInt 0]]]>
    (<["background" := VTuple [VInt 0]]>
       (<["size" := VTuple [VInt 1; VInt 1]]>
          (<["planes" := VInt 1]> {["bitdepth" := VInt 8]}))).

(** A reader that finds a 2 x 2 image of 8 bits a sample in every file. *)
Definition sample_reader (rows : list (list Z)) (planes : Z) (_ : string)
  : result (Z * Z * list (list Z) * dict) :=
  Ok (2, 2, rows, <["planes" := VInt planes]> {["bitdepth" := VInt 8]}).

(** The same, with a physical record and a compression level. *)
Definition sample_reader_physical (_ : string)
  : result (Z * Z * list (list Z) * dict) :=
  Ok (2, 2, flat_rows sample_image,
      <["physical" := VTuple [VInt 2835; VInt 2835; VBool true]]>
        (<["compression" := VInt 1]>
           (<["planes" := VInt 3]> {["bitdepth" := VInt 8]}))).

(** A scaler that repeats every pixel and every row [n] times. *)
Definition sample_scaler (n : nat) (img : image) : result image :=
  Ok (mjoin ((fun row : list (list Z) =>
                replicate n (mjoin ((fun pixel => replicate n pixel) <$> row)))
               <$> img)).

(** A PNM reader that finds a 2 x 2 bitmap in every file. *)
Definition sample_pnm (_ : string) : result (Z * Z * Z * Z * image) :=
  Ok (2, 2, 1, 1, [ [ [0]; [1] ]; [ [1]; [0] ] ]).

Definition no_pnm (_ : string) : result (Z * Z * Z * Z * image) :=
  Raise (ValueError "not a PNM file").

(** The sample image scaled by [sample_scaler 2]. *)
Definition sample_scaled : image :=
  Eval vm_compute in
    match sample_scaler 2 sample_image with
    | Ok img => img
    | Raise _ => []
    end.

(** The tasks of a batch run over [tree], one for each eligible entry, in
    the order of the traversal. *)
Definition batch_tasks (size : Z) (sfx : bool) (tree : list string)
  : list WorkerPool.task :=
  (fun p => WorkerPool.Task (codec_of p) p size sfx)
    <$> filter (fun p => eligible p = true) tree.

Definition submit (t : WorkerPool.task) : event :=
  Apply_async (WorkerPool.task_fn t) (WorkerPool.task_file t)
    (WorkerPool.task_size t) (WorkerPool.task_sfx t).

(** The tasks that a pool knows of: finished or still queued. *)
Definition all_tasks (p : WorkerPool.pool) : list WorkerPool.task :=
  (fst <$> WorkerPool.finished p) ++ WorkerPool.queued p.

Definition sample_tree : list string :=
  [ "art/a.png"; "art/notes.txt"; "art/b.ppm"; "art/sub/c.pgm";
    "art/sub/d.png"; "art/e.png"; "art/mask.pbm"; "art/README" ].

(** A folder with files of both families, files that the batch run passes
    over, and a directory whose name ends like a PNG file. *)
Definition sample_folder : list entry :=
  [ Entry "art/a.png" true; Entry "art/notes.txt" true;
    Entry "art/b.ppm" true; Entry "art/album.png" false;
    Entry "art/album.png/c.pgm" true; Entry "art/SHOT.PNG" true;
    Entry "art/mask.pbm" true; Entry "art/README" true ].

(** Two eligible files and a directory. *)
Definition folder_with_directory : list entry :=
  [ Entry "art/a.png" true; Entry "art/pics.png" false;
    Entry "art/pics.png/b.ppm" true ].

(** What a worker of the pool runs for a task: the task function on the
    arguments of the submission. *)
Definition run_task
    (Reader_asDirect : string -> result (Z * Z * list (list Z) * dict))
    (pnm2list : string -> result (Z * Z * Z * Z * image))
    (scale2x scale3x scale2xsfx scale3xsfx : image -> result image)
    (t : WorkerPool.task) : M unit :=
  match WorkerPool.task_fn t with
  | Scale_file_png =>
      ScaleNxGUI.scale_file_png Reader_asDirect
        scale2x scale3x scale2xsfx scale3xsfx
        (WorkerPool.task_file t) (WorkerPool.task_size t)
        (WorkerPool.task_sfx t)
  | Scale_file_pnm =>
      ScaleNxGUI.scale_file_pnm pnm2list
        scale2x scale3x scale2xsfx scale3xsfx
        (WorkerPool.task_file t) (WorkerPool.task_size t)
        (WorkerPool.task_sfx t)
  end.

(** A computation that writes no file other than those of [files],
    whether it returns or raises. *)
Definition writes_only {A} (files : list string) (c : M A) : Prop :=
  forall w, exists evs,
    trace (c w).2 = trace w ++ evs /\
    Forall (fun f => f ∈ files) (WorkerPool.written evs).

(** ** Further vocabulary *)

(** The first [X] pixels of every row, and the first [n] channels of each
    of them. *)
Definition clip (X n : Z) (list_3d : image) : image :=
  (fun row : list (list Z) =>
     take (Z.to_nat n) <$> take (Z.to_nat X) row) <$> list_3d.

(** A computation that leaves the store and the trace as they are. *)
Definition reads_only {A} (c : M A) : Prop := forall w, (c w).2 = w.

(** The main body of [ScaleNxGUI.py]: the buttons of the window and the
    command that each of them is given. *)
Module MainBody.

Inductive button : Type :=
| butt01 | butt02 | butt03 | butt04
| butt11 | butt12 | butt13 | butt14
| butt99.

Inductive command : Type :=
| Call_FileNx (size : Z) (sfx : bool)
| Call_FolderNx (size : Z) (sfx : bool)
| Call_DisMiss.

Definition command_of (b : button) : command :=
  match b with
  | butt01 => Call_FileNx 2 false
  | butt02 => Call_FileNx 3 false
  | butt03 => Call_FolderNx 2 false
  | butt04 => Call_FolderNx 3 false
  | butt11 => Call_FileNx 2 true
  | butt12 => Call_FileNx 3 true
  | butt13 => Call_FolderNx 2 true
  | butt14 => Call_FolderNx 3 true
  | butt99 => Call_DisMiss
  end.

End MainBody.

(** ** Further sample data *)

(** The second row lacks a pixel. *)
Definition short_row_image : image :=
  [ [ [1; 2; 3]; [4; 5; 6] ];
    [ [7; 8; 9] ] ].

(** The second row has a pixel too many, and a pixel with a channel too
    many. *)
Definition long_row_image : image :=
  [ [ [1; 2; 3]; [4; 5; 6] ];
    [ [7; 8; 9; 0]; [10; 11; 12]; [13; 14; 15] ] ].

(** A reader that fails on every file. *)
Definition failing_reader (_ : string)
  : result (Z * Z * list (list Z) * dict) :=
  Raise (ValueError "not a PNG file").

(** Every row has at least [X] pixels, and each of its first [X] pixels
    has at least [n] channels. *)
Definition covers (X n : Z) (list_3d : image) : Prop :=
  Forall (fun row : list (list Z) =>
    X <= len row /\
    Forall (fun pixel : list Z => n <= len pixel) (take (Z.to_nat X) row))
    list_3d.

(** A reader that finds the sample image with a physical record of two
    items only. *)
Definition short_physical : dict :=
  <["physical" := VTuple [VInt 2835; VInt 2835]]>
    (<["planes" := VInt 3]> {["bitdepth" := VInt 8]}).

(** The bitmap of [sample_pnm] scaled by [sample_scaler 3]. *)
Definition sample_bitmap_scaled : image :=
  Eval vm_compute in
    match sample_scaler 3 [ [ [0]; [1] ]; [ [1]; [0] ] ] with
    | Ok img => img
    | Raise _ => []
    end.

(** ** The window

    The widgets that the three state functions of [ScaleNxGUI.py] walk
    over: the children of the two frames, each with its Tk class and its
    state, and the configuration of the information line. *)
Module Window.

Record widget : Type := Widget {
  w_name : string;
  w_class : string;
  w_state : string
}.

Record line : Type := Line {
  txt : string;
  fg : string;
  bg : string
}.

Record window : Type := Build {
  frame_left : list widget;
  frame_right : list widget;
  info_string : line
}.

Definition info_normal : line :=
  Line "ScaleNx ver. 25.03.01.01 at your command" "grey" "light grey".
Definition info_waiting : line :=
  Line "Waiting for input" "green" "light grey".
Definition info_busy : line :=
  Line "BUSY, PLEASE WAIT" "red" "yellow".

(** [if widget.winfo_class() in ('Label', 'Button'):
    widget.config(state=...)] *)
Definition config_state (state : string) (w : widget) : widget :=
  if bool_decide (w_class w ∈ ["Label"; "Button"])
  then Widget (w_name w) (w_class w) state
  else w.

Definition UINormal (g : window) : window :=
  Build (config_state "normal" <$> frame_left g)
    (config_state "normal" <$> frame_right g)
    info_normal.

Definition UIWaiting (g : window) : window :=
  Build (config_state "disabled" <$> frame_left g)
    (config_state "disabled" <$> frame_right g)
    info_waiting.

Definition UIBusy (g : window) : window :=
  Build (config_state "disabled" <$> frame_left g)
    (config_state "disabled" <$> frame_right g)
    info_busy.

(** The window as the main body builds it. *)
Definition main_window : window :=
  Build
    [ Widget "label00" "Label" "normal"; Widget "label01" "Label" "normal";
      Widget "butt01" "Button" "normal"; Widget "butt02" "Button" "normal";
      Widget "label02" "Label" "normal";
      Widget "butt03" "Button" "normal"; Widget "butt04" "Button" "normal" ]
    [ Widget "label10" "Label" "normal"; Widget "label11" "Label" "normal";
      Widget "butt11" "Button" "normal"; Widget "butt12" "Button" "normal";
      Widget "label12" "Label" "normal";
      Widget "butt13" "Button" "normal"; Widget "butt14" "Button" "normal" ]
    info_normal.

End Window.

(** The window after the events of a command, in their order. *)
Definition window_event (e : event) (g : Window.window) : Window.window :=
  match e with
  | UINormal => Window.UINormal g
  | UIWaiting => Window.UIWaiting g
  | UIBusy => Window.UIBusy g
  | _ => g
  end.

Definition window_after (tr : list event) (g : Window.window)
  : Window.window :=
  foldl (fun g e => window_event e g) g tr.

(** The labels and the buttons of [ws] are in the state [state]. *)
Definition all_in_state (state : string) (ws : list Window.widget) : Prop :=
  forall w, w ∈ ws ->
    Window.w_class w ∈ ["Label"; "Button"] -> Window.w_state w = state.

(** The window at rest: labels and buttons enabled, the normal line. *)
Definition at_rest (g : Window.window) : Prop :=
  all_in_state "normal" (Window.frame_left g) /\
  all_in_state "normal" (Window.frame_right g) /\
  Window.info_string g = Window.info_normal.
(** * Properties *)

(** ** Comprehensions, ranges and subscripts *)

Section Comprehension.

Context {A B : Type}.

Lemma getitem_of_nat (l : list A) (i : nat) (a : A) :
  l !! i = Some a -> getitem l (Z.of_nat i) = Ok a.
Proof.
  intros H. unfold getitem. cbv zeta.
  rewrite !(proj2 (Z.leb_le 0 (Z.of_nat i))) by lia.
  rewrite Nat2Z.id, H. reflexivity.
Qed.

Lemma getitem_nonneg (l : list A) (i : Z) :
  0 <= i ->
  getitem l i =
    match l !! Z.to_nat i with Some a => Ok a | None => Raise IndexError end.
Proof.
  intros H. unfold getitem. cbv zeta.
  rewrite !(proj2 (Z.leb_le 0 i)) by lia. reflexivity.
Qed.

Lemma comprehension_map (f : A -> result B) (g : A -> B) (l : list A) :
  (forall a, a ∈ l -> f a = Ok (g a)) ->
  comprehension f l = Ok (g <$> l).
Proof.
  induction l as [|a l IH]; intros Hf; [reflexivity|].
  cbn [comprehension]. rewrite (Hf a) by left.
  cbn. rewrite IH by (intros; apply Hf; by right). reflexivity.
Qed.

Lemma comprehension_seqZ (f : Z -> result B) (l : list B) (m : Z) :
  (forall (i : nat) b, l !! i = Some b -> f (m + Z.of_nat i) = Ok b) ->
  comprehension f (seqZ m (len l)) = Ok l.
Proof.
  revert m. induction l as [|b l IH]; intros m Hf; [reflexivity|].
  unfold len. cbn [length]. rewrite Nat2Z.inj_succ, seqZ_cons by lia.
  cbn [comprehension].
  specialize (Hf 0%nat b eq_refl) as H0. rewrite Z.add_0_r in H0.
  rewrite H0. cbn. rewrite Z.pred_succ. fold (len l).
  rewrite IH; [reflexivity|].
  intros i b' Hi. specialize (Hf (S i) b' Hi).
  rewrite <- Hf. f_equal. lia.
Qed.

(** A comprehension over [range(n)] that reads the [n] items of a list. *)
Lemma comprehension_range (f : Z -> result B) (l : list B) (n : Z) :
  n = len l ->
  (forall (i : nat) b, l !! i = Some b -> f (Z.of_nat i) = Ok b) ->
  comprehension f (range n) = Ok l.
Proof.
  intros -> Hf. unfold range. apply comprehension_seqZ.
  intros i b Hi. rewrite Z.add_0_l. by apply Hf.
Qed.

(** A generator that can be drawn to its end has handed over all its
    items. *)
Lemma drawn_Ok (f : A -> result B) (l : list A) (bs : list B) :
  comprehension f l = Ok bs -> drawn f l = (bs, None).
Proof.
  revert bs. induction l as [|a l IH]; intros bs.
  { cbn. by intros [= <-]. }
  cbn [comprehension drawn]. destruct (f a) as [b|e]; [|discriminate].
  cbn. destruct (comprehension f l) as [bs'|e]; [|discriminate].
  intros [= <-]. by rewrite (IH bs' eq_refl).
Qed.

End Comprehension.

(** ** Running the monad *)

Lemma bind_Ok {A B} (c : M A) (f : A -> M B) w a w' :
  c w = (Ok a, w') -> (c ≫= f) w = f a w'.
Proof. intros H. unfold mbind, M_bind. by rewrite H. Qed.

Lemma bind_Raise {A B} (c : M A) (f : A -> M B) w e w' :
  c w = (Raise e, w') -> (c ≫= f) w = (Raise e, w').
Proof. intros H. unfold mbind, M_bind. by rewrite H. Qed.

Lemma deref_run l d h t :
  deref l (World (<[l := d]> h) t) = (Ok d, World (<[l := d]> h) t).
Proof. unfold deref. cbn [heap]. by rewrite lookup_insert_eq. Qed.

Lemma update_run l f d h t :
  update l f (World (<[l := d]> h) t) = (Ok tt, World (<[l := f d]> h) t).
Proof.
  unfold update. cbn [heap trace].
  by rewrite lookup_insert_eq, insert_insert_eq.
Qed.

Lemma dict_set_run l k v d h t :
  dict_set l k v (World (<[l := d]> h) t)
  = (Ok tt, World (<[l := <[k := v]> d]> h) t).
Proof. apply update_run. Qed.

Lemma dict_contains_run l k d h t :
  dict_contains l k (World (<[l := d]> h) t)
  = (Ok (bool_decide (is_Some (d !! k))), World (<[l := d]> h) t).
Proof.
  unfold dict_contains. by rewrite (bind_Ok _ _ _ _ _ (deref_run _ _ _ _)).
Qed.

Lemma dict_get_run l k v d h t :
  d !! k = Some v ->
  dict_get l k (World (<[l := d]> h) t) = (Ok v, World (<[l := d]> h) t).
Proof.
  intros Hk. unfold dict_get.
  rewrite (bind_Ok _ _ _ _ _ (deref_run _ _ _ _)). by rewrite Hk.
Qed.

(** [if k in info: del info[k]] leaves the record without [k]. *)
Lemma discard_run l k d h t :
  (if bool_decide (is_Some (d !! k)) then dict_del l k else mret tt)
    (World (<[l := d]> h) t)
  = (Ok tt, World (<[l := delete k d]> h) t).
Proof.
  case_bool_decide as Hk.
  - unfold dict_del. rewrite (bind_Ok _ _ _ _ _ (deref_run _ _ _ _)).
    destruct Hk as [v Hv]. rewrite Hv. apply update_run.
  - rewrite delete_id; [reflexivity|].
    by apply eq_None_not_Some.
Qed.

Lemma emit_run e h t : emit e (World h t) = (Ok tt, World h (t ++ [e])).
Proof. reflexivity. Qed.

Lemma lift_run {A} (r : result A) w : lift r w = (r, w).
Proof. reflexivity. Qed.

(** ** The encoder *)

Lemma rectangular_cons row list_3d Y X Z_ :
  rectangular (row :: list_3d) Y X Z_ ->
  len row = X /\ Forall (fun pixel : list Z => len pixel = Z_) row.
Proof. intros [_ H]. by inversion H. Qed.

Lemma rectangular_row list_3d Y X Z_ (y : nat) row :
  rectangular list_3d Y X Z_ ->
  list_3d !! y = Some row ->
  len row = X /\ Forall (fun pixel : list Z => len pixel = Z_) row.
Proof.
  intros [_ H] Hy. rewrite Forall_lookup in H. exact (H y row Hy).
Qed.

Lemma flatten_2d_rectangular list_3d Y X Z_ n :
  rectangular list_3d Y X Z_ ->
  0 <= n <= Z_ ->
  pnglpng.flatten_2d X Y n list_3d
  = Ok (flat_rows (first_channels n list_3d)).
Proof.
  intros Hrect Hn.
  unfold pnglpng.flatten_2d, pnglpng.flatten_2d_row, flat_rows, first_channels.
  apply comprehension_range.
  { unfold len. rewrite !length_fmap. symmetry. apply Hrect. }
  intros y flat Hy. rewrite !list_lookup_fmap in Hy.
  destruct (list_3d !! y) as [row|] eqn:Hrow; [|discriminate].
  injection Hy as <-.
  destruct (rectangular_row _ _ _ _ _ _ Hrect Hrow) as [HX HZ].
  rewrite (comprehension_range _ (take (Z.to_nat n) <$> row)); [reflexivity| |].
  { unfold len. rewrite length_fmap. symmetry. exact HX. }
  intros x pixel' Hx. rewrite list_lookup_fmap in Hx.
  destruct (row !! x) as [pixel|] eqn:Hpixel; [|discriminate].
  injection Hx as <-.
  rewrite Forall_lookup in HZ. specialize (HZ x pixel Hpixel).
  apply comprehension_range.
  { unfold len in *. rewrite length_take, Nat.min_l by lia. lia. }
  intros z sample Hz. apply lookup_take_Some in Hz as [Hz _].
  rewrite (getitem_of_nat _ _ _ Hrow). cbn.
  rewrite (getitem_of_nat _ _ _ Hpixel). cbn.
  by apply getitem_of_nat.
Qed.

Lemma set_flag_run (b : bool) l k d h t :
  (if b then dict_set l k (VBool true) else dict_set l k (VBool false))
    (World (<[l := d]> h) t)
  = (Ok tt, World (<[l := <[k := VBool b]> d]> h) t).
Proof. destruct b; apply dict_set_run. Qed.

Lemma clear_flag_run (b : bool) l k d h t :
  (if b then dict_set l k (VBool false) else dict_set l k (VBool true))
    (World (<[l := d]> h) t)
  = (Ok tt, World (<[l := <[k := VBool (negb b)]> d]> h) t).
Proof. destruct b; apply dict_set_run. Qed.

Lemma list2png_run out_filename list_3d info Y X Z_ d h t :
  rectangular list_3d Y X Z_ ->
  0 < Y -> 0 < X ->
  h !! info = Some d ->
  let kwargs := derived_info X Y (Z.min Z_ 4) d in
  pnglpng.list2png out_filename list_3d info (World h t)
  = (Ok tt,
     World (<[info := kwargs]> h)
       (t ++ [Open_wb out_filename;
              Writer_write out_filename X Y kwargs
                (flat_rows (first_channels (Z.min Z_ 4) list_3d))])).
Proof.
  intros Hrect HY HX Hd kwargs.
  destruct list_3d as [|row0 rest].
  { destruct Hrect as [H _]. unfold len in H. cbn in H. lia. }
  destruct (rectangular_cons _ _ _ _ _ Hrect) as [HlenX Hpix].
  destruct row0 as [|pixel0 pixels]; [unfold len in HlenX; cbn in HlenX; lia|].
  assert (len pixel0 = Z_) as HlenZ by (by inversion Hpix).
  pose proof (flatten_2d_rectangular _ _ _ _ (Z.min Z_ 4) Hrect) as Hflat.
  destruct Hrect as [HlenY _].
  set (list_3d := (pixel0 :: pixels) :: rest) in *.
  rewrite <- (insert_id h info d Hd) at 1.
  unfold pnglpng.list2png. cbv zeta.
  change (getitem list_3d 0) with (Ok (pixel0 :: pixels)).
  rewrite !(bind_Ok _ _ _ _ _ (lift_run _ _)).
  change (getitem (pixel0 :: pixels) 0) with (Ok pixel0).
  rewrite !(bind_Ok _ _ _ _ _ (lift_run _ _)).
  rewrite HlenX, HlenZ, HlenY.
  rewrite (bind_Ok _ _ _ _ _ (dict_set_run _ _ _ _ _ _)).
  rewrite (bind_Ok _ _ _ _ _ (dict_set_run _ _ _ _ _ _)).
  rewrite (bind_Ok _ _ _ _ _ (dict_contains_run _ _ _ _ _)).
  rewrite (bind_Ok _ _ _ _ _ (discard_run _ _ _ _ _)).
  rewrite (bind_Ok _ _ _ _ _ (dict_contains_run _ _ _ _ _)).
  rewrite (bind_Ok _ _ _ _ _ (discard_run _ _ _ _ _)).
  rewrite (bind_Ok _ _ _ _ _ (clear_flag_run _ _ _ _ _ _)).
  rewrite (bind_Ok _ _ _ _ _ (set_flag_run _ _ _ _ _ _)).
  rewrite (bind_Ok _ _ _ _ _ (deref_run _ _ _ _)).
  rewrite (bind_Ok _ _ _ _ _ (emit_run _ _ _)).
  rewrite (drawn_Ok _ _ _ (Hflat ltac:(unfold len in HlenZ; lia))).
  rewrite emit_run, <- app_assoc. reflexivity.
Qed.

(** ** The decoder *)

Lemma elem_of_range (i n : Z) : i ∈ range n <-> 0 <= i < n.
Proof. unfold range. rewrite elem_of_seqZ. lia. Qed.

Lemma getitem_total {A} `{Inhabited A} (l : list A) (i : Z) :
  0 <= i < len l -> getitem l i = Ok (l !!! Z.to_nat i).
Proof.
  intros Hi. rewrite getitem_nonneg by lia.
  destruct (lookup_lt_is_Some_2 l (Z.to_nat i)) as [a Ha];
    [unfold len in Hi; lia|].
  rewrite Ha. by rewrite (list_lookup_total_correct _ _ _ Ha).
Qed.

Lemma scanlines_row pixels Y X Z_ y :
  scanlines pixels Y X Z_ -> 0 <= y < Y ->
  len (pixels !!! Z.to_nat y) = X * Z_.
Proof.
  intros [HY Hrows] Hy. rewrite Forall_lookup in Hrows.
  destruct (lookup_lt_is_Some_2 pixels (Z.to_nat y)) as [row Hrow];
    [unfold len in HY; lia|].
  rewrite (list_lookup_total_correct _ _ _ Hrow). by eapply Hrows.
Qed.

Lemma partition_run pixels Y X Z_ :
  scanlines pixels Y X Z_ ->
  comprehension (fun y =>
    comprehension (fun x =>
      comprehension (fun z =>
        (row ← getitem pixels y;
         getitem row (x * Z_ + z)) : result Z)
      (range Z_))
    (range X))
  (range Y)
  = Ok (partition X Y Z_ pixels).
Proof.
  intros Hscan. unfold partition.
  apply comprehension_map. intros y Hy%elem_of_range.
  apply comprehension_map. intros x Hx%elem_of_range.
  apply comprehension_map. intros z Hz%elem_of_range.
  pose proof (scanlines_row _ _ _ _ _ Hscan Hy) as Hlen.
  rewrite getitem_total by (destruct Hscan as [-> _]; lia). cbn.
  unfold flat_sample. apply getitem_total. nia.
Qed.

Lemma alloc_run d h t :
  alloc d (World h t)
  = (Ok (fresh (dom h)), World (<[fresh (dom h) := d]> h) t).
Proof. reflexivity. Qed.

Lemma png2list_run Reader_asDirect in_filename X Y pixels chunks Z_ bitdepth h t :
  Reader_asDirect in_filename = Ok (X, Y, pixels, chunks) ->
  chunks !! "planes" = Some (VInt Z_) ->
  chunks !! "bitdepth" = Some (VInt bitdepth) ->
  scanlines pixels Y X Z_ ->
  pnglpng.png2list Reader_asDirect in_filename (World h t)
  = (match maxcolors_of bitdepth with
     | Some maxcolors =>
         Ok (X, Y, Z_, maxcolors, partition X Y Z_ pixels, fresh (dom h))
     | None => Raise (UnboundLocalError "maxcolors")
     end,
     World (<[fresh (dom h) := chunks]> h) t).
Proof.
  intros Hread Hplanes Hdepth Hscan. unfold pnglpng.png2list.
  rewrite Hread. rewrite (bind_Ok _ _ _ _ _ (lift_run _ _)).
  rewrite (bind_Ok _ _ _ _ _ (alloc_run _ _ _)).
  rewrite (bind_Ok _ _ _ _ _ (dict_get_run _ _ _ _ _ _ Hplanes)).
  rewrite !(bind_Ok _ _ _ _ _ (dict_get_run _ _ _ _ _ _ Hdepth)).
  cbv zeta. cbn [as_int]. rewrite (bind_Ok _ _ _ _ _ (lift_run _ _)).
  rewrite (partition_run _ _ _ _ Hscan).
  rewrite (bind_Ok _ _ _ _ _ (lift_run _ _)).
  unfold maxcolors_of, eq_int.
  destruct (Z.eqb_spec bitdepth 1) as [->|]; [reflexivity|].
  destruct (Z.eqb_spec bitdepth 8) as [->|]; [reflexivity|].
  destruct (Z.eqb_spec bitdepth 16) as [->|]; reflexivity.
Qed.

(** ** Cutting flat rows back into pixels *)

Lemma fmap_range {B} (g : Z -> B) (l : list B) (n : Z) :
  n = len l ->
  (forall (i : nat) b, l !! i = Some b -> g (Z.of_nat i) = b) ->
  g <$> range n = l.
Proof.
  intros Hn Hg.
  assert (comprehension (fun i => Ok (g i)) (range n) = Ok l) as H1.
  { apply comprehension_range; [done|]. intros i b Hi. by rewrite (Hg i b Hi). }
  rewrite (comprehension_map _ g) in H1 by done. by injection H1.
Qed.

Lemma partition_flat_rows list_3d Y X Z_ :
  rectangular list_3d Y X Z_ ->
  partition X Y Z_ (flat_rows list_3d) = list_3d.
Proof.
  intros Hrect. unfold partition.
  apply fmap_range; [symmetry; apply Hrect|].
  intros y row Hrow.
  destruct (rectangular_row _ _ _ _ _ _ Hrect Hrow) as [HX HZ].
  apply fmap_range; [by symmetry|].
  intros x pixel Hpixel.
  assert (len pixel = Z_) as Hlen.
  { rewrite Forall_lookup in HZ. by apply (HZ x). }
  apply fmap_range; [by symmetry|].
  intros z sample Hsample.
  unfold flat_sample, flat_rows. rewrite Nat2Z.id.
  rewrite (list_lookup_total_correct _ y (mjoin row));
    [|by rewrite list_lookup_fmap, Hrow].
  apply list_lookup_total_correct.
  replace (Z.to_nat (Z.of_nat x * Z_ + Z.of_nat z))
    with (x * length pixel + z)%nat by (unfold len in Hlen; nia).
  apply (join_lookup_Some_same_length' (length pixel)).
  - eapply Forall_impl; [exact HZ|]. intros px Hpx. cbn in Hpx.
    unfold len in *. lia.
  - by eapply lookup_lt_Some.
  - eauto.
Qed.

Lemma first_channels_rectangular list_3d Y X Z_ n :
  rectangular list_3d Y X Z_ -> 0 <= n <= Z_ ->
  rectangular (first_channels n list_3d) Y X n.
Proof.
  intros [HY Hrows] Hn. unfold first_channels. split.
  - unfold len in *. by rewrite length_fmap.
  - apply Forall_fmap. eapply Forall_impl; [exact Hrows|].
    intros row [HX Hpix]. cbn. split.
    + unfold len in *. by rewrite length_fmap.
    + apply Forall_fmap. eapply Forall_impl; [exact Hpix|].
      intros pixel Hlen. cbn. unfold len in *.
      rewrite length_take, Nat.min_l by lia. lia.
Qed.

Lemma first_channels_all list_3d Y X Z_ :
  rectangular list_3d Y X Z_ -> first_channels Z_ list_3d = list_3d.
Proof.
  intros [_ Hrows]. unfold first_channels.
  induction Hrows as [|row rest [_ Hpix] _ IH]; [reflexivity|].
  cbn. rewrite IH. f_equal.
  induction Hpix as [|pixel pixels Hlen _ IHp]; [reflexivity|].
  cbn. rewrite IHp. f_equal.
  apply take_ge. unfold len in Hlen. lia.
Qed.

Lemma flat_rows_scanlines list_3d Y X Z_ :
  rectangular list_3d Y X Z_ -> scanlines (flat_rows list_3d) Y X Z_.
Proof.
  intros [HY Hrows]. unfold flat_rows. split.
  - unfold len in *. by rewrite length_fmap.
  - apply Forall_fmap. eapply Forall_impl; [exact Hrows|].
    intros row [HX Hpix]. cbn. rewrite <- HX. clear HX.
    induction Hpix as [|pixel pixels Hlen _ IH]; [reflexivity|].
    change (mjoin (pixel :: pixels)) with (pixel ++ mjoin pixels).
    unfold len in *. rewrite length_app, length_cons. lia.
Qed.

(** ** The codec: encode, then decode *)

(** What the decoder returns for the rows that the encoder has written,
    when the library reads back the width, the height and the rows it was
    given and reports the plane count [n] of the file. *)
Lemma png2list_flat_rows Reader_asDirect fname list_3d Y X Z_ n bitdepth
    chunks h t :
  rectangular list_3d Y X Z_ ->
  0 <= n <= Z_ ->
  Reader_asDirect fname
  = Ok (X, Y, flat_rows (first_channels n list_3d), chunks) ->
  chunks !! "planes" = Some (VInt n) ->
  chunks !! "bitdepth" = Some (VInt bitdepth) ->
  pnglpng.png2list Reader_asDirect fname (World h t)
  = (match maxcolors_of bitdepth with
     | Some maxcolors =>
         Ok (X, Y, n, maxcolors, first_channels n list_3d, fresh (dom h))
     | None => Raise (UnboundLocalError "maxcolors")
     end,
     World (<[fresh (dom h) := chunks]> h) t).
Proof.
  intros Hrect Hn Hread Hplanes Hdepth.
  pose proof (first_channels_rectangular _ _ _ _ _ Hrect Hn) as Hrect'.
  rewrite (png2list_run _ _ _ _ _ _ _ _ _ _ Hread Hplanes Hdepth
             (flat_rows_scanlines _ _ _ _ Hrect')).
  by rewrite (partition_flat_rows _ _ _ _ Hrect').
Qed.

Lemma derived_info_planes X Y Z_ d :
  derived_info X Y Z_ d !! "planes" = Some (VInt Z_).
Proof. unfold derived_info. by simplify_map_eq. Qed.

(** C1. Round trip: for an image of [Z_] channels, [Z_] from 1 to 4, and a
    bit depth of 8 or 16, [list2png] hands the writer the flattened rows of
    the image, and [png2list], on a file from which the library reads back
    those rows with the written width, height, plane count and bit depth,
    returns the image itself; cutting rows into pixels undoes the flattening
    of [flatten_2d]. *)
Theorem round_trip
    (Reader_asDirect : string -> result (Z * Z * list (list Z) * dict))
    (out_filename : string) (list_3d : image) (Y X Z_ bitdepth : Z)
    (info : loc) (meta chunks : dict) (h : gmap loc dict) (t : list event) :
  rectangular list_3d Y X Z_ ->
  0 < Y -> 0 < X ->
  1 <= Z_ <= 4 ->
  bitdepth = 8 \/ bitdepth = 16 ->
  h !! info = Some meta ->
  Reader_asDirect out_filename = Ok (X, Y, flat_rows list_3d, chunks) ->
  chunks !! "planes" = Some (VInt Z_) ->
  chunks !! "bitdepth" = Some (VInt bitdepth) ->
  exists kwargs w1 w2 info',
    pnglpng.list2png out_filename list_3d info (World h t) = (Ok tt, w1) /\
    trace w1 = t ++ [Open_wb out_filename;
                     Writer_write out_filename X Y kwargs (flat_rows list_3d)] /\
    kwargs !! "planes" = Some (VInt Z_) /\
    pnglpng.png2list Reader_asDirect out_filename w1
    = (Ok (X, Y, Z_, 2 ^ bitdepth - 1, list_3d, info'), w2) /\
    pnglpng.flatten_2d X Y Z_ list_3d = Ok (flat_rows list_3d) /\
    partition X Y Z_ (flat_rows list_3d) = list_3d.
Proof.
  intros Hrect HY HX HZ Hdepth Hmeta Hread Hplanes Hbits.
  pose proof (list2png_run out_filename _ info _ _ _ _ _ t Hrect HY HX Hmeta)
    as Hwrite.
  cbv zeta in Hwrite. rewrite Z.min_l in Hwrite by lia.
  rewrite (first_channels_all _ _ _ _ Hrect) in Hwrite.
  rewrite <- (first_channels_all _ _ _ _ Hrect) in Hread.
  eexists _, _, _, _. split; [exact Hwrite|]. cbn [trace].
  split; [reflexivity|]. split; [apply derived_info_planes|].
  split; [|split].
  - rewrite (png2list_flat_rows _ _ _ _ _ _ _ _ _ _ _ Hrect
               (conj (Z.lt_le_incl _ _ (Z.lt_le_trans 0 1 _ eq_refl (proj1 HZ)))
                  (Z.le_refl _))
               Hread Hplanes Hbits).
    rewrite (first_channels_all _ _ _ _ Hrect).
    destruct Hdepth as [-> | ->]; reflexivity.
  - rewrite (flatten_2d_rectangular _ _ _ _ Z_ Hrect) by lia.
    by rewrite (first_channels_all _ _ _ _ Hrect).
  - by apply partition_flat_rows.
Qed.

Lemma round_trip_witness :
  exists kwargs w1 w2 info',
    pnglpng.list2png "a.png" sample_image 0%nat
      (World {[0%nat := sample_meta]} []) = (Ok tt, w1) /\
    trace w1 = [] ++ [Open_wb "a.png";
                      Writer_write "a.png" 2 2 kwargs (flat_rows sample_image)] /\
    kwargs !! "planes" = Some (VInt 3) /\
    pnglpng.png2list (sample_reader (flat_rows sample_image) 3) "a.png" w1
    = (Ok (2, 2, 3, 2 ^ 8 - 1, sample_image, info'), w2) /\
    pnglpng.flatten_2d 2 2 3 sample_image = Ok (flat_rows sample_image) /\
    partition 2 2 3 (flat_rows sample_image) = sample_image.
Proof.
  apply (round_trip (sample_reader (flat_rows sample_image) 3) "a.png"
           sample_image 2 2 3 8 0%nat sample_meta
           (<["planes" := VInt 3]> {["bitdepth" := VInt 8]})).
  - split; [reflexivity | repeat constructor].
  - lia.
  - lia.
  - lia.
  - left. reflexivity.
  - vm_compute. reflexivity.
  - reflexivity.
  - vm_compute. reflexivity.
  - vm_compute. reflexivity.
Defined.

(** ** The metadata that the encoder derives *)

Lemma alpha_even Z_ : negb (Z_ mod 2 =? 1) = Z.even Z_.
Proof.
  rewrite Zeven_mod.
  pose proof (Z.mod_pos_bound Z_ 2 eq_refl).
  destruct (Z.eqb_spec (Z_ mod 2) 1), (Z.eqb_spec (Z_ mod 2) 0);
    cbn; first [reflexivity | lia].
Qed.

Lemma derived_info_size X Y Z_ d :
  derived_info X Y Z_ d !! "size" = Some (VTuple [VInt X; VInt Y]).
Proof. unfold derived_info. by simplify_map_eq. Qed.

Lemma derived_info_alpha X Y Z_ d :
  derived_info X Y Z_ d !! "alpha" = Some (VBool (Z.even Z_)).
Proof. unfold derived_info. rewrite <- alpha_even. by simplify_map_eq. Qed.

Lemma derived_info_greyscale X Y Z_ d :
  derived_info X Y Z_ d !! "greyscale" = Some (VBool (Z_ <? 3)).
Proof. unfold derived_info. by simplify_map_eq. Qed.

Lemma derived_info_palette X Y Z_ d :
  derived_info X Y Z_ d !! "palette" = None.
Proof. unfold derived_info. by simplify_map_eq. Qed.

Lemma derived_info_background X Y Z_ d :
  derived_info X Y Z_ d !! "background" = None.
Proof. unfold derived_info. by simplify_map_eq. Qed.

Lemma derived_info_other X Y Z_ d k :
  k ∉ ["size"; "planes"; "palette"; "background"; "alpha"; "greyscale"] ->
  derived_info X Y Z_ d !! k = d !! k.
Proof.
  intros Hk. unfold derived_info.
  rewrite !not_elem_of_cons in Hk. destruct Hk as (?&?&?&?&?&?&_).
  by simplify_map_eq.
Qed.

(** C2. On every encode of a non-empty rectangular image, [list2png] hands
    the writer a size, a plane count, an alpha flag and a greyscale flag
    that are read off the image: [size = (X, Y)] for [Y] rows of [X] pixels,
    [planes] the channel count clamped to 4, [alpha] true iff that count is
    even, [greyscale] true iff it is below 3.  Two encodes of the same image
    with different stale records give the same four fields. *)
Theorem derived_metadata
    (out1 out2 : string) (list_3d : image) (Y X Z_ : Z)
    (info1 info2 : loc) (meta1 meta2 : dict) (h1 h2 : gmap loc dict)
    (t1 t2 : list event) :
  rectangular list_3d Y X Z_ ->
  0 < Y -> 0 < X ->
  h1 !! info1 = Some meta1 ->
  h2 !! info2 = Some meta2 ->
  exists kwargs1 kwargs2 rows w1 w2,
    pnglpng.list2png out1 list_3d info1 (World h1 t1) = (Ok tt, w1) /\
    trace w1 = t1 ++ [Open_wb out1; Writer_write out1 X Y kwargs1 rows] /\
    pnglpng.list2png out2 list_3d info2 (World h2 t2) = (Ok tt, w2) /\
    trace w2 = t2 ++ [Open_wb out2; Writer_write out2 X Y kwargs2 rows] /\
    kwargs1 !! "size" = Some (VTuple [VInt X; VInt Y]) /\
    kwargs1 !! "planes" = Some (VInt (Z.min Z_ 4)) /\
    kwargs1 !! "alpha" = Some (VBool (Z.even (Z.min Z_ 4))) /\
    kwargs1 !! "greyscale" = Some (VBool (Z.min Z_ 4 <? 3)) /\
    kwargs2 !! "size" = kwargs1 !! "size" /\
    kwargs2 !! "planes" = kwargs1 !! "planes" /\
    kwargs2 !! "alpha" = kwargs1 !! "alpha" /\
    kwargs2 !! "greyscale" = kwargs1 !! "greyscale".
Proof.
  intros Hrect HY HX Hmeta1 Hmeta2.
  pose proof (list2png_run out1 _ info1 _ _ _ _ _ t1 Hrect HY HX Hmeta1) as H1.
  pose proof (list2png_run out2 _ info2 _ _ _ _ _ t2 Hrect HY HX Hmeta2) as H2.
  cbv zeta in H1, H2.
  eexists _, _, _, _, _.
  split; [exact H1|]. split; [reflexivity|].
  split; [exact H2|]. split; [reflexivity|].
  rewrite !derived_info_size, !derived_info_planes, !derived_info_alpha,
    !derived_info_greyscale.
  repeat split.
Qed.

Lemma derived_metadata_witness :
  exists kwargs1 kwargs2 rows w1 w2,
    pnglpng.list2png "a.png" sample_image 0%nat
      (World {[0%nat := sample_meta]} []) = (Ok tt, w1) /\
    trace w1 = [] ++ [Open_wb "a.png"; Writer_write "a.png" 2 2 kwargs1 rows] /\
    pnglpng.list2png "b.png" sample_image 1%nat
      (World {[1%nat := (∅ : dict)]} []) = (Ok tt, w2) /\
    trace w2 = [] ++ [Open_wb "b.png"; Writer_write "b.png" 2 2 kwargs2 rows] /\
    kwargs1 !! "size" = Some (VTuple [VInt 2; VInt 2]) /\
    kwargs1 !! "planes" = Some (VInt (Z.min 3 4)) /\
    kwargs1 !! "alpha" = Some (VBool (Z.even (Z.min 3 4))) /\
    kwargs1 !! "greyscale" = Some (VBool (Z.min 3 4 <? 3)) /\
    kwargs2 !! "size" = kwargs1 !! "size" /\
    kwargs2 !! "planes" = kwargs1 !! "planes" /\
    kwargs2 !! "alpha" = kwargs1 !! "alpha" /\
    kwargs2 !! "greyscale" = kwargs1 !! "greyscale".
Proof.
  apply (derived_metadata "a.png" "b.png" sample_image 2 2 3 0%nat 1%nat
           sample_meta ∅).
  - split; [reflexivity | repeat constructor].
  - lia.
  - lia.
  - vm_compute. reflexivity.
  - vm_compute. reflexivity.
Defined.

(** C6. Whatever the record and the channel count, the record that
    [list2png] hands to the writer, which is the caller's record after the
    call, has neither a palette nor a background entry. *)
Theorem palette_background_removed
    (out_filename : string) (list_3d : image) (Y X Z_ : Z)
    (info : loc) (meta : dict) (h : gmap loc dict) (t : list event) :
  rectangular list_3d Y X Z_ ->
  0 < Y -> 0 < X ->
  h !! info = Some meta ->
  exists kwargs rows w1,
    pnglpng.list2png out_filename list_3d info (World h t) = (Ok tt, w1) /\
    trace w1 = t ++ [Open_wb out_filename;
                     Writer_write out_filename X Y kwargs rows] /\
    heap w1 !! info = Some kwargs /\
    kwargs !! "palette" = None /\
    kwargs !! "background" = None.
Proof.
  intros Hrect HY HX Hmeta.
  pose proof (list2png_run out_filename _ info _ _ _ _ _ t Hrect HY HX Hmeta)
    as Hrun.
  cbv zeta in Hrun. eexists _, _, _.
  split; [exact Hrun|]. cbn [trace heap].
  split; [reflexivity|]. split; [apply lookup_insert_eq|].
  split; [apply derived_info_palette | apply derived_info_background].
Qed.

Lemma palette_background_removed_witness :
  sample_meta !! "palette" = Some (VList [VTuple [VInt 0; VInt 0; VInt 0]]) /\
  sample_meta !! "background" = Some (VTuple [VInt 0]) /\
  exists kwargs rows w1,
    pnglpng.list2png "a.png" sample_image 0%nat
      (World {[0%nat := sample_meta]} []) = (Ok tt, w1) /\
    trace w1 = [] ++ [Open_wb "a.png"; Writer_write "a.png" 2 2 kwargs rows] /\
    heap w1 !! 0%nat = Some kwargs /\
    kwargs !! "palette" = None /\
    kwargs !! "background" = None.
Proof.
  split; [vm_compute; reflexivity|]. split; [vm_compute; reflexivity|].
  apply (palette_background_removed "a.png" sample_image 2 2 3 0%nat
           sample_meta).
  - split; [reflexivity | repeat constructor].
  - lia.
  - lia.
  - vm_compute. reflexivity.
Defined.

(** C10. [list2png] works on the caller's record itself: after the call the
    dict object that was passed holds the derived size, plane count, alpha
    and greyscale flags, holds no palette and no background, and holds every
    other key with the value it had; no other object of the store changes. *)
Theorem info_mutated_in_place
    (out_filename : string) (list_3d : image) (Y X Z_ : Z)
    (info : loc) (meta : dict) (h : gmap loc dict) (t : list event) :
  rectangular list_3d Y X Z_ ->
  0 < Y -> 0 < X ->
  h !! info = Some meta ->
  exists meta' w1,
    pnglpng.list2png out_filename list_3d info (World h t) = (Ok tt, w1) /\
    heap w1 !! info = Some meta' /\
    meta' !! "size" = Some (VTuple [VInt X; VInt Y]) /\
    meta' !! "planes" = Some (VInt (Z.min Z_ 4)) /\
    meta' !! "alpha" = Some (VBool (Z.even (Z.min Z_ 4))) /\
    meta' !! "greyscale" = Some (VBool (Z.min Z_ 4 <? 3)) /\
    meta' !! "palette" = None /\
    meta' !! "background" = None /\
    (forall k : string,
       k ∉ ["size"; "planes"; "palette"; "background"; "alpha"; "greyscale"] ->
       meta' !! k = meta !! k) /\
    (forall l : loc, l <> info -> heap w1 !! l = h !! l).
Proof.
  intros Hrect HY HX Hmeta.
  pose proof (list2png_run out_filename _ info _ _ _ _ _ t Hrect HY HX Hmeta)
    as Hrun.
  cbv zeta in Hrun. eexists _, _.
  split; [exact Hrun|]. cbn [heap].
  split; [apply lookup_insert_eq|].
  split; [apply derived_info_size|].
  split; [apply derived_info_planes|].
  split; [apply derived_info_alpha|].
  split; [apply derived_info_greyscale|].
  split; [apply derived_info_palette|].
  split; [apply derived_info_background|].
  split; [intros k Hk; by apply derived_info_other|].
  intros l Hl. by apply lookup_insert_ne.
Qed.

Lemma info_mutated_in_place_witness :
  exists meta' w1,
    pnglpng.list2png "a.png" sample_image 0%nat
      (World (<[1%nat := sample_meta]> {[0%nat := sample_meta]}) [])
    = (Ok tt, w1) /\
    heap w1 !! 0%nat = Some meta' /\
    meta' !! "size" = Some (VTuple [VInt 2; VInt 2]) /\
    meta' !! "planes" = Some (VInt (Z.min 3 4)) /\
    meta' !! "alpha" = Some (VBool (Z.even (Z.min 3 4))) /\
    meta' !! "greyscale" = Some (VBool (Z.min 3 4 <? 3)) /\
    meta' !! "palette" = None /\
    meta' !! "background" = None /\
    (forall k : string,
       k ∉ ["size"; "planes"; "palette"; "background"; "alpha"; "greyscale"] ->
       meta' !! k = sample_meta !! k) /\
    (forall l : loc, l <> 0%nat ->
       heap w1 !! l
       = (<[1%nat := sample_meta]> {[0%nat := sample_meta]} : gmap loc dict)
           !! l).
Proof.
  apply (info_mutated_in_place "a.png" sample_image 2 2 3 0%nat sample_meta).
  - split; [reflexivity | repeat constructor].
  - lia.
  - lia.
  - vm_compute. reflexivity.
Defined.

(** C5. An image with more than 4 channels is written with 4 planes: the
    rows handed to the writer hold the first 4 channels of every pixel, the
    plane count written is 4, and decoding a file from which the library
    reads those rows and that plane count gives 4 channels, the first 4 of
    the image. *)
Theorem channel_clamp
    (Reader_asDirect : string -> result (Z * Z * list (list Z) * dict))
    (out_filename : string) (list_3d : image) (Y X Z_ bitdepth maxcolors : Z)
    (info : loc) (meta chunks : dict) (h : gmap loc dict) (t : list event) :
  rectangular list_3d Y X Z_ ->
  0 < Y -> 0 < X ->
  4 < Z_ ->
  maxcolors_of bitdepth = Some maxcolors ->
  h !! info = Some meta ->
  Reader_asDirect out_filename
  = Ok (X, Y, flat_rows (first_channels 4 list_3d), chunks) ->
  chunks !! "planes" = Some (VInt 4) ->
  chunks !! "bitdepth" = Some (VInt bitdepth) ->
  exists kwargs w1 w2 info',
    pnglpng.list2png out_filename list_3d info (World h t) = (Ok tt, w1) /\
    trace w1 = t ++ [Open_wb out_filename;
                     Writer_write out_filename X Y kwargs
                       (flat_rows (first_channels 4 list_3d))] /\
    kwargs !! "planes" = Some (VInt 4) /\
    pnglpng.png2list Reader_asDirect out_filename w1
    = (Ok (X, Y, 4, maxcolors, first_channels 4 list_3d, info'), w2) /\
    rectangular (first_channels 4 list_3d) Y X 4.
Proof.
  intros Hrect HY HX HZ Hmax Hmeta Hread Hplanes Hbits.
  pose proof (list2png_run out_filename _ info _ _ _ _ _ t Hrect HY HX Hmeta)
    as Hwrite.
  cbv zeta in Hwrite. rewrite Z.min_r in Hwrite by lia.
  assert (0 <= 4 <= Z_) as H4 by lia.
  eexists _, _, _, _. split; [exact Hwrite|]. cbn [trace].
  split; [reflexivity|]. split; [apply derived_info_planes|].
  split; [|exact (first_channels_rectangular _ _ _ _ _ Hrect H4)].
  rewrite (png2list_flat_rows _ _ _ _ _ _ _ _ _ _ _ Hrect H4
             Hread Hplanes Hbits).
  rewrite Hmax. reflexivity.
Qed.

Lemma channel_clamp_witness :
  first_channels 4 five_channels = [ [ [1; 2; 3; 4]; [6; 7; 8; 9] ] ] /\
  exists kwargs w1 w2 info',
    pnglpng.list2png "a.png" five_channels 0%nat
      (World {[0%nat := sample_meta]} []) = (Ok tt, w1) /\
    trace w1 = [] ++ [Open_wb "a.png";
                      Writer_write "a.png" 2 1 kwargs
                        (flat_rows (first_channels 4 five_channels))] /\
    kwargs !! "planes" = Some (VInt 4) /\
    pnglpng.png2list
      (fun _ => Ok (2, 1, flat_rows (first_channels 4 five_channels),
                    <["planes" := VInt 4]> {["bitdepth" := VInt 8]}))
      "a.png" w1
    = (Ok (2, 1, 4, 255, first_channels 4 five_channels, info'), w2) /\
    rectangular (first_channels 4 five_channels) 1 2 4.
Proof.
  split; [reflexivity|].
  apply (channel_clamp
           (fun _ => Ok (2, 1, flat_rows (first_channels 4 five_channels),
                         <["planes" := VInt 4]> {["bitdepth" := VInt 8]}))
           "a.png" five_channels 1 2 5 8 255 0%nat sample_meta
           (<["planes" := VInt 4]> {["bitdepth" := VInt 8]})).
  - split; [reflexivity | repeat constructor].
  - lia.
  - lia.
  - lia.
  - reflexivity.
  - vm_compute. reflexivity.
  - reflexivity.
  - vm_compute. reflexivity.
  - vm_compute. reflexivity.
Defined.

(** ** The decoder on the rows of any reader *)

Lemma getitem_fmap_range {B} (g : Z -> B) (n i : Z) :
  0 <= i < n -> getitem (g <$> range n) i = Ok (g i).
Proof.
  intros Hi. rewrite getitem_nonneg by lia.
  unfold range. rewrite list_lookup_fmap, lookup_seqZ_lt by lia.
  cbn. do 2 f_equal. lia.
Qed.

(** For a bit depth other than 1, 8 and 16 the variable [maxcolors] is never
    bound, and the [return] of [png2list] raises. *)
Lemma png2list_other_bitdepth
    (Reader_asDirect : string -> result (Z * Z * list (list Z) * dict))
    (in_filename : string) (X Y Z_ bitdepth : Z) (pixels : list (list Z))
    (chunks : dict) (w : world) :
  Reader_asDirect in_filename = Ok (X, Y, pixels, chunks) ->
  chunks !! "planes" = Some (VInt Z_) ->
  chunks !! "bitdepth" = Some (VInt bitdepth) ->
  scanlines pixels Y X Z_ ->
  bitdepth <> 1 -> bitdepth <> 8 -> bitdepth <> 16 ->
  (pnglpng.png2list Reader_asDirect in_filename w).1
  = Raise (UnboundLocalError "maxcolors").
Proof.
  intros Hread Hplanes Hbits Hscan H1 H8 H16. destruct w as [h t].
  rewrite (png2list_run _ _ _ _ _ _ _ _ _ _ Hread Hplanes Hbits Hscan).
  unfold maxcolors_of.
  rewrite (proj2 (Z.eqb_neq _ _) H1), (proj2 (Z.eqb_neq _ _) H8),
    (proj2 (Z.eqb_neq _ _) H16).
  reflexivity.
Qed.

(** C7. [png2list] derives [maxcolors] from the bit depth that the reader
    reports: 1 for depth 1, 255 for depth 8, 65535 for depth 16. *)
Theorem maxcolors_from_bitdepth
    (Reader_asDirect : string -> result (Z * Z * list (list Z) * dict))
    (in_filename : string) (X Y Z_ bitdepth : Z) (pixels : list (list Z))
    (chunks : dict) (w : world) :
  Reader_asDirect in_filename = Ok (X, Y, pixels, chunks) ->
  chunks !! "planes" = Some (VInt Z_) ->
  chunks !! "bitdepth" = Some (VInt bitdepth) ->
  scanlines pixels Y X Z_ ->
  bitdepth = 1 \/ bitdepth = 8 \/ bitdepth = 16 ->
  exists list_3d info w',
    pnglpng.png2list Reader_asDirect in_filename w
    = (Ok (X, Y, Z_,
           match bitdepth with 1 => 1 | 8 => 255 | _ => 65535 end,
           list_3d, info), w').
Proof.
  intros Hread Hplanes Hbits Hscan Hdepth. destruct w as [h t].
  rewrite (png2list_run _ _ _ _ _ _ _ _ _ _ Hread Hplanes Hbits Hscan).
  eexists _, _, _.
  destruct Hdepth as [-> | [-> | ->]]; reflexivity.
Qed.

Lemma maxcolors_from_bitdepth_witness :
  exists list_3d info w',
    pnglpng.png2list
      (fun _ => Ok (2, 2, flat_rows sample_image,
                    <["planes" := VInt 3]> {["bitdepth" := VInt 16]}))
      "a.png" (World ∅ [])
    = (Ok (2, 2, 3, 65535, list_3d, info), w').
Proof.
  apply (maxcolors_from_bitdepth
           (fun _ => Ok (2, 2, flat_rows sample_image,
                         <["planes" := VInt 3]> {["bitdepth" := VInt 16]}))
           "a.png" 2 2 3 16 (flat_rows sample_image)
           (<["planes" := VInt 3]> {["bitdepth" := VInt 16]})).
  - reflexivity.
  - vm_compute. reflexivity.
  - vm_compute. reflexivity.
  - split; [reflexivity | repeat constructor].
  - right. right. reflexivity.
Defined.

(** C8. [png2list] cuts every row of the reader into [X] pixels of [Z_]
    contiguous samples: the image it returns has [Y] rows of [X] pixels of
    [Z_] samples, and its sample at row [y], pixel [x], channel [z] is the
    sample at offset [x * Z_ + z] of row [y] of the rows read. *)
Theorem partition_order
    (Reader_asDirect : string -> result (Z * Z * list (list Z) * dict))
    (in_filename : string) (X Y Z_ bitdepth maxcolors : Z)
    (pixels : list (list Z)) (chunks : dict) (w : world) :
  Reader_asDirect in_filename = Ok (X, Y, pixels, chunks) ->
  chunks !! "planes" = Some (VInt Z_) ->
  chunks !! "bitdepth" = Some (VInt bitdepth) ->
  maxcolors_of bitdepth = Some maxcolors ->
  scanlines pixels Y X Z_ ->
  0 <= X -> 0 <= Z_ ->
  exists list_3d info w',
    pnglpng.png2list Reader_asDirect in_filename w
    = (Ok (X, Y, Z_, maxcolors, list_3d, info), w') /\
    rectangular list_3d Y X Z_ /\
    forall y x z : Z,
      0 <= y < Y -> 0 <= x < X -> 0 <= z < Z_ ->
      exists sample : Z,
        (row ← getitem list_3d y; pixel ← getitem row x; getitem pixel z)
        = Ok sample /\
        (row ← getitem pixels y; getitem row (x * Z_ + z)) = Ok sample.
Proof.
  intros Hread Hplanes Hbits Hmax Hscan HX HZ. destruct w as [h t].
  rewrite (png2list_run _ _ _ _ _ _ _ _ _ _ Hread Hplanes Hbits Hscan), Hmax.
  eexists _, _, _. split; [reflexivity|]. split.
  - destruct Hscan as [HY _]. unfold partition, rectangular, range, len in *.
    rewrite length_fmap, length_seqZ. split; [lia|].
    apply Forall_fmap, Forall_forall. intros y _. cbn.
    rewrite length_fmap, length_seqZ. split; [lia|].
    apply Forall_fmap, Forall_forall. intros x _. cbn.
    rewrite length_fmap, length_seqZ. lia.
  - intros y x z Hy Hx Hz. exists (flat_sample pixels y (x * Z_ + z)).
    unfold partition. split.
    + rewrite getitem_fmap_range by done. cbn.
      rewrite getitem_fmap_range by done. cbn.
      by rewrite getitem_fmap_range.
    + pose proof (scanlines_row _ _ _ _ _ Hscan Hy) as Hlen.
      rewrite getitem_total by (destruct Hscan as [-> _]; lia). cbn.
      unfold flat_sample. apply getitem_total. nia.
Qed.

Lemma partition_order_witness :
  exists list_3d info w',
    pnglpng.png2list (sample_reader [[1; 2; 3; 4; 5; 6]; [7; 8; 9; 10; 11; 12]] 3)
      "a.png" (World ∅ [])
    = (Ok (2, 2, 3, 255, list_3d, info), w') /\
    rectangular list_3d 2 2 3 /\
    forall y x z : Z,
      0 <= y < 2 -> 0 <= x < 2 -> 0 <= z < 3 ->
      exists sample : Z,
        (row ← getitem list_3d y; pixel ← getitem row x; getitem pixel z)
        = Ok sample /\
        (row ← getitem [[1; 2; 3; 4; 5; 6]; [7; 8; 9; 10; 11; 12]] y;
         getitem row (x * 3 + z)) = Ok sample.
Proof.
  apply (partition_order
           (sample_reader [[1; 2; 3; 4; 5; 6]; [7; 8; 9; 10; 11; 12]] 3)
           "a.png" 2 2 3 8 255 [[1; 2; 3; 4; 5; 6]; [7; 8; 9; 10; 11; 12]]
           (<["planes" := VInt 3]> {["bitdepth" := VInt 8]})).
  - reflexivity.
  - vm_compute. reflexivity.
  - vm_compute. reflexivity.
  - reflexivity.
  - split; [reflexivity | repeat constructor].
  - lia.
  - lia.
Defined.

(** ** The drivers: resolution and compression *)

Lemma fix_resolution_run size info d h t record :
  resolution_law size (d !! "physical") = Some record ->
  ScaleNxGUI.fix_resolution size info (World (<[info := d]> h) t)
  = (Ok tt,
     World (<[info := <["compression" := VInt 9]>
                        (<["physical" := record]> d)]> h) t).
Proof.
  intros Hlaw. unfold ScaleNxGUI.fix_resolution.
  rewrite (bind_Ok _ _ _ _ _ (dict_contains_run _ _ _ _ _)).
  destruct (d !! "physical") as [physical|] eqn:Hphysical.
  - rewrite bool_decide_eq_true_2 by eauto.
    assert (exists x0 y0 u,
               record = VList [VInt (size * x0); VInt (size * y0); u] /\
               subscript physical 0 = Ok (VInt x0) /\
               subscript physical 1 = Ok (VInt y0) /\
               subscript physical 2 = Ok u) as (x0 & y0 & u & -> & H0 & H1 & H2).
    { destruct physical as [| | |items|items|]; try discriminate;
        destruct items as [|[| |x0| | |] [|[| |y0| | |] [|u [|]]]];
        try discriminate; injection Hlaw as <-; by exists x0, y0, u. }
    erewrite bind_Ok; cycle 1.
    { rewrite (bind_Ok _ _ _ _ _ (dict_get_run _ _ _ _ _ _ Hphysical)).
      rewrite H0, (bind_Ok _ _ _ _ _ (lift_run _ _)).
      rewrite H1, (bind_Ok _ _ _ _ _ (lift_run _ _)).
      rewrite H2, (bind_Ok _ _ _ _ _ (lift_run _ _)).
      reflexivity. }
    cbn [int_mul]. rewrite !(bind_Ok _ _ _ _ _ (lift_run _ _)).
    rewrite (bind_Ok _ _ _ _ _ (dict_set_run _ _ _ _ _ _)).
    apply dict_set_run.
  - rewrite bool_decide_eq_false_2 by (intros [? ?]; discriminate).
    injection Hlaw as <-.
    erewrite bind_Ok; [|reflexivity].
    cbn [int_mul]. rewrite !(bind_Ok _ _ _ _ _ (lift_run _ _)).
    rewrite (bind_Ok _ _ _ _ _ (dict_set_run _ _ _ _ _ _)).
    apply dict_set_run.
Qed.

Lemma call_scaler_run s2 s3 x2 x3 size sfx image3d scaled w :
  size = 2 \/ size = 3 ->
  (forall scaler,
     ScaleNxGUI.chosen_scaler s2 s3 x2 x3 size sfx = Some scaler ->
     scaler image3d = Ok scaled) ->
  ScaleNxGUI.call_scaler s2 s3 x2 x3 size sfx image3d w = (Ok scaled, w).
Proof.
  intros Hsize Hscaler. unfold ScaleNxGUI.call_scaler.
  destruct (ScaleNxGUI.chosen_scaler s2 s3 x2 x3 size sfx) as [scaler|] eqn:E.
  - by rewrite lift_run, (Hscaler scaler eq_refl).
  - unfold ScaleNxGUI.chosen_scaler in E.
    destruct Hsize as [-> | ->], sfx; discriminate.
Qed.

Lemma suffix_nonempty p : ScaleNxGUI.suffix p = ".png" -> p <> EmptyString.
Proof. intros H ->. discriminate. Qed.

Ltac not_a_derived_key :=
  let H := fresh in
  intros H;
  repeat (apply elem_of_cons in H as [H|H]; [discriminate|]);
  by apply elem_of_nil in H.

(** C3. Between decode and encode the drivers scale the physical record by
    the rescale factor [N], 2 or 3, and set the compression level to 9:
    the record handed to the writer is [(N * x0, N * y0, u)] when the
    decoded metadata holds [(x0, y0, u)], and [(N * 3780, N * 3780, true)]
    when it holds none; the compression level handed to the writer is 9
    whatever the decoded metadata say.  This holds for the batch task
    [scale_file_png] and for [FileNx] from a PNG file to a PNG file. *)
Theorem resolution_and_compression
    (Reader_asDirect : string -> result (Z * Z * list (list Z) * dict))
    (pnm2list : string -> result (Z * Z * Z * Z * image))
    (scale2x scale3x scale2xsfx scale3xsfx : image -> result image)
    (src dst : string) (N : Z) (sfx : bool)
    (X Y Z_ bitdepth maxcolors : Z) (pixels : list (list Z)) (chunks : dict)
    (scaled : image) (Y' X' Z' : Z) (record : value) (w : world) :
  N = 2 \/ N = 3 ->
  ScaleNxGUI.suffix src = ".png" ->
  ScaleNxGUI.suffix dst = ".png" ->
  Reader_asDirect src = Ok (X, Y, pixels, chunks) ->
  chunks !! "planes" = Some (VInt Z_) ->
  chunks !! "bitdepth" = Some (VInt bitdepth) ->
  maxcolors_of bitdepth = Some maxcolors ->
  scanlines pixels Y X Z_ ->
  (forall scaler,
     ScaleNxGUI.chosen_scaler scale2x scale3x scale2xsfx scale3xsfx N sfx
     = Some scaler ->
     scaler (partition X Y Z_ pixels) = Ok scaled) ->
  rectangular scaled Y' X' Z' ->
  0 < Y' -> 0 < X' ->
  resolution_law N (chunks !! "physical") = Some record ->
  exists kwargs rows w1 w2,
    ScaleNxGUI.scale_file_png Reader_asDirect
      scale2x scale3x scale2xsfx scale3xsfx src N sfx w = (Ok tt, w1) /\
    trace w1 = trace w ++ [Open_wb src; Writer_write src X' Y' kwargs rows] /\
    ScaleNxGUI.FileNx Reader_asDirect pnm2list
      scale2x scale3x scale2xsfx scale3xsfx N sfx src dst w = (Ok tt, w2) /\
    trace w2 = trace w ++ [UIWaiting; UIBusy; UIWaiting; UIBusy;
                           Open_wb dst; Writer_write dst X' Y' kwargs rows;
                           UINormal] /\
    kwargs !! "physical" = Some record /\
    kwargs !! "compression" = Some (VInt 9).
Proof.
  intros HN Hsrc Hdst Hread Hplanes Hbits Hmax Hscan Hscaler Hrect HY HX Hlaw.
  destruct w as [h t].
  pose proof (fun t' =>
      png2list_run _ _ _ _ _ _ _ _ h t' Hread Hplanes Hbits Hscan) as Hdecode.
  rewrite Hmax in Hdecode.
  set (info := fresh (dom h)) in *.
  assert (forall t',
    (ScaleNxGUI.fix_resolution N info;;
     pnglpng.list2png dst scaled info) (World (<[info := chunks]> h) t')
    = (pnglpng.list2png dst scaled info)
        (World (<[info := <["compression" := VInt 9]>
                             (<["physical" := record]> chunks)]> h) t'))
    as Hfix.
  { intros t'. by rewrite (bind_Ok _ _ _ _ _ (fix_resolution_run _ _ _ _ _ _ Hlaw)). }
  eexists _, _, _, _. split; [|split; [|split; [|split]]].
  - unfold ScaleNxGUI.scale_file_png.
    rewrite (bind_Ok _ _ _ _ _ (Hdecode t)).
    rewrite (bind_Ok _ _ _ _ _ (call_scaler_run _ _ _ _ _ _ _ _ _ HN Hscaler)).
    rewrite (bind_Ok _ _ _ _ _ (fix_resolution_run _ _ _ _ _ _ Hlaw)).
    apply (list2png_run src scaled info Y' X' Z'); [done..|].
    apply lookup_insert_eq.
  - reflexivity.
  - unfold ScaleNxGUI.FileNx.
    rewrite (bind_Ok _ _ _ _ _ (emit_run _ _ _)).
    rewrite bool_decide_eq_false_2 by (by apply suffix_nonempty).
    rewrite (bind_Ok _ _ _ _ _ (emit_run _ _ _)).
    rewrite (bool_decide_eq_true_2 _ Hsrc).
    rewrite (bind_Ok _ _ _ _ _ (Hdecode _)).
    rewrite (bind_Ok _ _ _ _ _ (call_scaler_run _ _ _ _ _ _ _ _ _ HN Hscaler)).
    rewrite (bind_Ok _ _ _ _ _ (fix_resolution_run _ _ _ _ _ _ Hlaw)).
    rewrite (bind_Ok _ _ _ _ _ (emit_run _ _ _)).
    rewrite bool_decide_eq_false_2 by (by apply suffix_nonempty).
    rewrite (bind_Ok _ _ _ _ _ (emit_run _ _ _)).
    rewrite (bool_decide_eq_true_2 _ Hdst).
    erewrite bind_Ok; cycle 1.
    { apply (list2png_run dst scaled info Y' X' Z'); [done..|].
      apply lookup_insert_eq. }
    apply emit_run.
  - cbn [trace]. rewrite <- !app_assoc. reflexivity.
  - split; rewrite derived_info_other by not_a_derived_key;
      by simplify_map_eq.
Qed.

Lemma resolution_and_compression_witness :
  exists kwargs rows w1 w2,
    ScaleNxGUI.scale_file_png sample_reader_physical
      (sample_scaler 2) (sample_scaler 3) (sample_scaler 2) (sample_scaler 3)
      "a.png" 2 false (World ∅ []) = (Ok tt, w1) /\
    trace w1 = [] ++ [Open_wb "a.png"; Writer_write "a.png" 4 4 kwargs rows] /\
    ScaleNxGUI.FileNx sample_reader_physical no_pnm
      (sample_scaler 2) (sample_scaler 3) (sample_scaler 2) (sample_scaler 3)
      2 false "a.png" "b.png" (World ∅ []) = (Ok tt, w2) /\
    trace w2 = [] ++ [UIWaiting; UIBusy; UIWaiting; UIBusy;
                      Open_wb "b.png"; Writer_write "b.png" 4 4 kwargs rows;
                      UINormal] /\
    kwargs !! "physical" = Some (VList [VInt 5670; VInt 5670; VBool true]) /\
    kwargs !! "compression" = Some (VInt 9).
Proof.
  apply (resolution_and_compression sample_reader_physical no_pnm
           (sample_scaler 2) (sample_scaler 3) (sample_scaler 2)
           (sample_scaler 3) "a.png" "b.png" 2 false 2 2 3 8 255
           (flat_rows sample_image)
           (<["physical" := VTuple [VInt 2835; VInt 2835; VBool true]]>
              (<["compression" := VInt 1]>
                 (<["planes" := VInt 3]> {["bitdepth" := VInt 8]})))
           sample_scaled 4 4 3
           (VList [VInt 5670; VInt 5670; VBool true]) (World ∅ [])).
  - left. reflexivity.
  - reflexivity.
  - reflexivity.
  - reflexivity.
  - vm_compute. reflexivity.
  - vm_compute. reflexivity.
  - reflexivity.
  - split; [reflexivity | repeat constructor].
  - intros scaler H. injection H as <-. vm_compute. reflexivity.
  - split; [reflexivity | repeat constructor].
  - lia.
  - lia.
  - vm_compute. reflexivity.
Defined.

(** The scenario of an image without a physical record, scaled 2 times:
    the record written is [(7560, 7560, true)] and the compression is 9. *)
Example default_resolution_scenario :
  exists kwargs rows,
    trace (ScaleNxGUI.scale_file_png (sample_reader (flat_rows sample_image) 3)
             (sample_scaler 2) (sample_scaler 3) (sample_scaler 2)
             (sample_scaler 3) "a.png" 2 false (World ∅ [])).2
    = [Open_wb "a.png"; Writer_write "a.png" 4 4 kwargs rows] /\
    kwargs !! "physical" = Some (VList [VInt 7560; VInt 7560; VBool true]) /\
    kwargs !! "compression" = Some (VInt 9).
Proof. eexists _, _. split; [vm_compute; reflexivity|]. by vm_compute. Qed.

(** ** The batch driver *)

Import WorkerPool.

Lemma from_last_dot_None s :
  ScaleNxGUI.has_char "." s = false -> ScaleNxGUI.from_last_dot s = None.
Proof.
  induction s as [|c s IH]; [reflexivity|]. cbn.
  destruct (Ascii.eqb c "."); [discriminate|].
  intros H. by rewrite (IH H).
Qed.

(** An entry that [rglob('*.*')] does not yield has no suffix. *)
Lemma suffix_without_dot p :
  ScaleNxGUI.has_char "." (ScaleNxGUI.name p) = false ->
  ScaleNxGUI.suffix p = EmptyString.
Proof.
  unfold ScaleNxGUI.suffix. destruct (ScaleNxGUI.name p) as [|c rest];
    [reflexivity|].
  cbn. destruct (Ascii.eqb c "."); [discriminate|].
  intros H. by rewrite (from_last_dot_None _ H).
Qed.

(** The body of the loop of [FolderNx]. *)
Lemma submit_entry size sfx p h t :
  ((if bool_decide (ScaleNxGUI.suffix p = ".png")
    then emit (Apply_async Scale_file_png p size sfx)
    else mret tt);;
   (if bool_decide (ScaleNxGUI.suffix p ∈ [".ppm"; ".pgm"])
    then emit (Apply_async Scale_file_pnm p size sfx)
    else mret tt)) (World h t)
  = (Ok tt,
     World h (t ++ if eligible p
                   then [Apply_async (codec_of p) p size sfx] else [])).
Proof.
  unfold eligible, codec_of.
  destruct (decide (ScaleNxGUI.suffix p = ".png")) as [Hpng|Hpng].
  - rewrite (bool_decide_eq_true_2 _ Hpng).
    rewrite (bind_Ok _ _ _ _ _ (emit_run _ _ _)).
    rewrite Hpng. reflexivity.
  - rewrite (bool_decide_eq_false_2 _ Hpng).
    rewrite (bind_Ok _ _ _ tt (World h t)) by reflexivity.
    destruct (decide (ScaleNxGUI.suffix p ∈ [".ppm"; ".pgm"])) as [Hpnm|Hpnm].
    + rewrite (bool_decide_eq_true_2 _ Hpnm).
      rewrite bool_decide_eq_true_2 by (by right).
      apply emit_run.
    + rewrite (bool_decide_eq_false_2 _ Hpnm).
      rewrite bool_decide_eq_false_2.
      * cbn. by rewrite app_nil_r.
      * intros [H|H]%elem_of_cons; done.
Qed.

Lemma for_each_submit size sfx tree h t :
  ScaleNxGUI.for_each (ScaleNxGUI.rglob tree) (fun runningfilename =>
    (if bool_decide (ScaleNxGUI.suffix runningfilename = ".png")
     then emit (Apply_async Scale_file_png runningfilename size sfx)
     else mret tt);;
    (if bool_decide (ScaleNxGUI.suffix runningfilename ∈ [".ppm"; ".pgm"])
     then emit (Apply_async Scale_file_pnm runningfilename size sfx)
     else mret tt)) (World h t)
  = (Ok tt, World h (t ++ (submit <$> batch_tasks size sfx tree))).
Proof.
  revert t. induction tree as [|p tree IH]; intros t.
  { cbn. by rewrite app_nil_r. }
  unfold ScaleNxGUI.rglob, batch_tasks in *. rewrite !filter_cons.
  destruct (decide (ScaleNxGUI.has_char "." (ScaleNxGUI.name p) = true))
    as [Hdot|Hdot].
  - cbn [ScaleNxGUI.for_each].
    rewrite (bind_Ok _ _ _ _ _ (submit_entry _ _ _ _ _)), IH.
    destruct (eligible p) eqn:Hp.
    + rewrite decide_True by done. cbn. by rewrite <- app_assoc.
    + rewrite decide_False by done. by rewrite app_nil_r.
  - rewrite IH. rewrite decide_False; [reflexivity|].
    unfold eligible. rewrite suffix_without_dot.
    + by vm_compute.
    + by destruct (ScaleNxGUI.has_char "." (ScaleNxGUI.name p)).
Qed.

Lemma FolderNx_run size sfx sourcedir tree h t :
  sourcedir <> EmptyString ->
  ScaleNxGUI.FolderNx size sfx sourcedir tree (World h t)
  = (Ok tt,
     World h (t ++ [UIWaiting; UIBusy; Pool_create]
                ++ (submit <$> batch_tasks size sfx tree)
                ++ [Pool_close; Pool_join; UINormal])).
Proof.
  intros Hdir. unfold ScaleNxGUI.FolderNx.
  rewrite (bind_Ok _ _ _ _ _ (emit_run _ _ _)).
  rewrite (bool_decide_eq_false_2 _ Hdir).
  rewrite (bind_Ok _ _ _ _ _ (emit_run _ _ _)).
  rewrite (bind_Ok _ _ _ _ _ (emit_run _ _ _)).
  rewrite (bind_Ok _ _ _ _ _ (for_each_submit _ _ _ _ _)).
  rewrite (bind_Ok _ _ _ _ _ (emit_run _ _ _)).
  rewrite (bind_Ok _ _ _ _ _ (emit_run _ _ _)).
  rewrite emit_run. do 2 f_equal.
  rewrite <- !app_assoc. reflexivity.
Qed.

Lemma submitted_app tr1 tr2 :
  submitted (tr1 ++ tr2) = submitted tr1 ++ submitted tr2.
Proof.
  induction tr1 as [|e tr1 IH]; [reflexivity|].
  destruct e; cbn; by rewrite ?IH.
Qed.

Lemma submitted_submit ts : submitted (submit <$> ts) = ts.
Proof.
  induction ts as [|[fn file size sfx] ts IH]; [reflexivity|].
  cbn. by rewrite IH.
Qed.

(** ** Runs of the pool *)

Lemma pool_call_tasks e p s1 :
  pool_call e (Some p) s1 ->
  e <> Pool_create ->
  exists p1, s1 = Some p1 /\
    all_tasks p1 = all_tasks p ++ submitted [e] /\
    (submitted [e] = [] -> queued p1 = queued p) /\
    (closed p = true -> closed p1 = true).
Proof.
  intros Hcall Hne.
  inversion Hcall; subst; try done;
    try (eexists; split; [reflexivity|]; cbn;
         rewrite ?app_nil_r; by repeat split).
  eexists. split; [reflexivity|]. unfold all_tasks. cbn.
  rewrite app_assoc. by repeat split.
Qed.

(** Every task that was submitted is queued or finished, and no other. *)
Lemma pool_run_tasks tr s s' :
  pool_run tr s s' ->
  forall p, s = Some p -> Pool_create ∉ tr ->
  exists p', s' = Some p' /\ all_tasks p' ≡ₚ all_tasks p ++ submitted tr.
Proof.
  induction 1 as [s|tr p0 before t after outcome s' Hq _ IH
                 |e tr s s1 s' Hcall _ IH]; intros p Hs Hcreate.
  - exists p. split; [done|]. cbn. by rewrite app_nil_r.
  - injection Hs as <-.
    destruct (IH _ eq_refl Hcreate) as (p' & -> & Hperm).
    exists p'. split; [done|]. rewrite Hperm. apply Permutation_app_tail.
    unfold all_tasks. cbn. rewrite Hq, fmap_app. cbn.
    rewrite <- app_assoc. apply Permutation_app_head. cbn.
    apply Permutation_middle.
  - subst s. apply not_elem_of_cons in Hcreate as [Hne Hcreate].
    destruct (pool_call_tasks _ _ _ Hcall (not_eq_sym Hne))
      as (p1 & -> & Htasks & _).
    destruct (IH _ eq_refl Hcreate) as (p' & -> & Hperm).
    exists p'. split; [done|]. rewrite Hperm, Htasks, <- app_assoc.
    apply Permutation_app_head.
    change (e :: tr) with ([e] ++ tr). by rewrite submitted_app.
Qed.

(** Once the queue is empty it stays empty as long as nothing is
    submitted. *)
Lemma pool_run_drained tr s s' :
  pool_run tr s s' ->
  forall p, s = Some p -> Pool_create ∉ tr ->
  queued p = [] -> closed p = true -> submitted tr = [] ->
  exists p', s' = Some p' /\ queued p' = [] /\ closed p' = true.
Proof.
  induction 1 as [s|tr p0 before t after outcome s' Hq _ IH
                 |e tr s s1 s' Hcall _ IH];
    intros p Hs Hcreate Hempty Hclosed Hsub.
  - by exists p.
  - injection Hs as <-. rewrite Hempty in Hq. by destruct before.
  - subst s. apply not_elem_of_cons in Hcreate as [Hne Hcreate].
    destruct (pool_call_tasks _ _ _ Hcall (not_eq_sym Hne))
      as (p1 & -> & _ & Hkeep & Hstay).
    change (e :: tr) with ([e] ++ tr) in Hsub. rewrite submitted_app in Hsub.
    apply app_eq_nil in Hsub as [He Htr].
    apply (IH _ eq_refl Hcreate); [|by apply Hstay|done].
    by rewrite (Hkeep He).
Qed.

(** [join] returns only when no task is queued. *)
Lemma pool_run_join tr s s' :
  pool_run (Pool_join :: tr) s s' ->
  forall p, s = Some p ->
  exists p1, queued p1 = [] /\ closed p1 = true /\
    all_tasks p1 ≡ₚ all_tasks p /\ pool_run tr (Some p1) s'.
Proof.
  remember (Pool_join :: tr) as calls eqn:Hcalls.
  induction 1 as [s|tr0 p0 before t after outcome s' Hq _ IH
                 |e tr0 s s1 s' Hcall Hrun _]; intros p Hs.
  - discriminate.
  - injection Hs as <-.
    destruct (IH Hcalls _ eq_refl) as (p1 & Hempty & Hclosed & Hperm & Hrun).
    exists p1. repeat split; [done..| |done].
    rewrite Hperm. unfold all_tasks. cbn. rewrite Hq, fmap_app. cbn.
    rewrite <- app_assoc. apply Permutation_app_head. cbn.
    apply Permutation_middle.
  - injection Hcalls as -> ->. subst s.
    inversion Hcall; subst. by exists p.
Qed.

Lemma pool_run_app tr1 tr2 s s' :
  pool_run (tr1 ++ tr2) s s' ->
  exists s1, pool_run tr1 s s1 /\ pool_run tr2 s1 s'.
Proof.
  remember (tr1 ++ tr2) as calls eqn:Hcalls. intros Hrun.
  revert tr1 Hcalls.
  induction Hrun as [s|tr0 p0 before t after outcome s' Hq _ IH
                    |e tr0 s s1 s' Hcall Hrun IH]; intros tr1 Hcalls.
  - symmetry in Hcalls. apply app_eq_nil in Hcalls as [-> ->].
    exists s. split; constructor.
  - destruct (IH tr1 Hcalls) as (s1 & H1 & H2).
    exists s1. split; [|done]. by eapply run_worker.
  - destruct tr1 as [|e1 tr1].
    + cbn in Hcalls. subst tr2. exists s. split; [constructor|].
      by eapply run_call.
    + injection Hcalls as <- ->.
      destruct (IH tr1 eq_refl) as (s2 & H1 & H2).
      exists s2. split; [|done]. by eapply run_call.
Qed.

(** The workers can finish every queued task, each with the outcome that
    [outcome] names. *)
Lemma pool_run_finish_all (outcome : task -> result unit) tr
    (q : list task) fin c s' :
  pool_run tr (Some (Pool [] (fin ++ ((fun t => (t, outcome t)) <$> q)) c)) s' ->
  pool_run tr (Some (Pool q fin c)) s'.
Proof.
  revert fin. induction q as [|t q IH]; intros fin Hrun.
  - cbn in Hrun. by rewrite app_nil_r in Hrun.
  - apply (run_worker tr _ [] t q (outcome t)); [reflexivity|].
    cbn. apply IH. by rewrite <- app_assoc.
Qed.

Lemma pool_run_submit_all (ts : list task) rest q fin s' :
  pool_run rest (Some (Pool (q ++ ts) fin false)) s' ->
  pool_run ((submit <$> ts) ++ rest) (Some (Pool q fin false)) s'.
Proof.
  revert q. induction ts as [|[fn file size sfx] ts IH]; intros q Hrun.
  - by rewrite app_nil_r in Hrun.
  - cbn. eapply run_call.
    + by apply call_apply_async.
    + cbn. apply IH. by rewrite <- app_assoc.
Qed.

Lemma not_elem_of_submit (ts : list task) : Pool_create ∉ submit <$> ts.
Proof.
  induction ts as [|t ts IH]; [apply not_elem_of_nil|].
  cbn. apply not_elem_of_cons. by split.
Qed.

(** What a run of the calls of [FolderNx] leaves behind. *)
Lemma batch_run_complete (ts : list task) final :
  pool_run ([UIWaiting; UIBusy; Pool_create] ++ (submit <$> ts)
              ++ [Pool_close; Pool_join; UINormal]) None final ->
  exists p, final = Some p /\ queued p = [] /\ closed p = true /\
    fst <$> finished p ≡ₚ ts.
Proof.
  intros Hrun. cbn in Hrun.
  inversion Hrun as [| |e1 tr1 s s1 s' Hc1 Hr1]; subst.
  inversion Hc1; subst.
  inversion Hr1 as [| |e2 tr2 s s2 s' Hc2 Hr2]; subst.
  inversion Hc2; subst.
  inversion Hr2 as [| |e3 tr3 s s3 s' Hc3 Hr3]; subst.
  inversion Hc3; subst.
  change ((submit <$> ts) ++ [Pool_close; Pool_join; UINormal])
    with ((submit <$> ts) ++ [Pool_close] ++ [Pool_join; UINormal]) in Hr3.
  rewrite app_assoc in Hr3.
  apply pool_run_app in Hr3 as (s1 & Hsub & Hjoin).
  destruct (pool_run_tasks _ _ _ Hsub _ eq_refl) as (p1 & -> & Hperm1).
  { rewrite not_elem_of_app. split; [apply not_elem_of_submit|].
    apply not_elem_of_cons. split; [done|apply not_elem_of_nil]. }
  destruct (pool_run_join _ _ _ Hjoin _ eq_refl)
    as (p2 & Hempty & Hclosed & Hperm2 & Hrest).
  assert (Pool_create ∉ [UINormal]) as Hnone.
  { apply not_elem_of_cons. split; [done|apply not_elem_of_nil]. }
  destruct (pool_run_drained _ _ _ Hrest _ eq_refl Hnone Hempty Hclosed eq_refl)
    as (p3 & -> & Hempty3 & Hclosed3).
  destruct (pool_run_tasks _ _ _ Hrest _ eq_refl Hnone)
    as (p3' & [= <-] & Hperm3).
  exists p3. repeat split; [done..|].
  unfold all_tasks in Hperm3 at 1. rewrite Hempty3, app_nil_r in Hperm3.
  rewrite Hperm3, Hperm2, Hperm1. cbn.
  by rewrite submitted_app, submitted_submit, !app_nil_r.
Qed.

(** The calls of [FolderNx] can be run to their end, whatever the outcome
    of each task. *)
Lemma batch_run_exists (outcome : task -> result unit) (ts : list task) :
  pool_run ([UIWaiting; UIBusy; Pool_create] ++ (submit <$> ts)
              ++ [Pool_close; Pool_join; UINormal]) None
    (Some (Pool [] ((fun t => (t, outcome t)) <$> ts) true)).
Proof.
  cbn. eapply run_call; [constructor|].
  eapply run_call; [constructor|].
  eapply run_call; [constructor|].
  apply pool_run_submit_all. cbn.
  eapply run_call; [constructor|]. cbn.
  apply (pool_run_finish_all outcome). cbn.
  eapply run_call; [by constructor|].
  eapply run_call; [constructor|].
  constructor.
Qed.

(** ** The files that a task writes *)

Lemma written_app tr1 tr2 : written (tr1 ++ tr2) = written tr1 ++ written tr2.
Proof.
  induction tr1 as [|e tr1 IH]; [reflexivity|].
  destruct e; cbn; by rewrite ?IH.
Qed.

Section WritesOnly.

Context (files : list string).

Lemma writes_only_silent {A} (c : M A) :
  (forall w, trace (c w).2 = trace w) -> writes_only files c.
Proof.
  intros Hc w. exists []. rewrite Hc, app_nil_r. by split.
Qed.

Lemma writes_only_ret {A} (a : A) : writes_only files (mret a).
Proof. by apply writes_only_silent. Qed.

Lemma writes_only_raise {A} e : writes_only files (raise (A:=A) e).
Proof. by apply writes_only_silent. Qed.

Lemma writes_only_lift {A} (r : result A) : writes_only files (lift r).
Proof. by apply writes_only_silent. Qed.

Lemma writes_only_deref l : writes_only files (deref l).
Proof.
  apply writes_only_silent. intros w. unfold deref.
  by destruct (heap w !! l).
Qed.

Lemma writes_only_update l f : writes_only files (update l f).
Proof.
  apply writes_only_silent. intros w. unfold update.
  by destruct (heap w !! l).
Qed.

Lemma writes_only_alloc d : writes_only files (alloc d).
Proof. by apply writes_only_silent. Qed.

Lemma writes_only_emit e :
  Forall (fun f => f ∈ files) (written [e]) -> writes_only files (emit e).
Proof. intros He w. by exists [e]. Qed.

Lemma writes_only_bind {A B} (c : M A) (f : A -> M B) :
  writes_only files c ->
  (forall a, writes_only files (f a)) ->
  writes_only files (c ≫= f).
Proof.
  intros Hc Hf w. unfold mbind, M_bind.
  destruct (Hc w) as (evs1 & Htr1 & Hw1).
  destruct (c w) as [[a|e] w1]; cbn in Htr1.
  - destruct (Hf a w1) as (evs2 & Htr2 & Hw2).
    exists (evs1 ++ evs2). rewrite Htr2, Htr1, app_assoc. split; [done|].
    rewrite written_app. by apply Forall_app.
  - by exists evs1.
Qed.

End WritesOnly.

Ltac writes_only_step :=
  first
    [ apply writes_only_ret
    | apply writes_only_raise
    | apply writes_only_lift
    | apply writes_only_deref
    | apply writes_only_update
    | apply writes_only_alloc
    | apply writes_only_emit; cbn;
        repeat constructor; apply list_elem_of_here
    | apply writes_only_bind; [|intros ?]
    | match goal with
      | |- writes_only _ (match ?x with _ => _ end) => destruct x
      end ].

Lemma list2png_writes_only out_filename list_3d info :
  writes_only [out_filename] (pnglpng.list2png out_filename list_3d info).
Proof.
  unfold pnglpng.list2png, dict_set, dict_del, dict_contains, dict_get.
  cbv zeta. repeat writes_only_step.
Qed.

Lemma png2list_writes_only Reader_asDirect files in_filename :
  writes_only files (pnglpng.png2list Reader_asDirect in_filename).
Proof.
  unfold pnglpng.png2list, dict_get. cbv zeta. repeat writes_only_step.
Qed.

Lemma run_task_writes_only Reader_asDirect pnm2list s2 s3 x2 x3 t :
  writes_only [task_file t]
    (run_task Reader_asDirect pnm2list s2 s3 x2 x3 t).
Proof.
  unfold run_task. destruct (task_fn t).
  - unfold ScaleNxGUI.scale_file_png. cbv zeta.
    apply writes_only_bind; [apply png2list_writes_only|].
    intros [[[[[X Y] Z_] maxcolors] image3d] info].
    apply writes_only_bind.
    { unfold ScaleNxGUI.call_scaler. repeat writes_only_step. }
    intros scaled. apply writes_only_bind.
    { unfold ScaleNxGUI.fix_resolution, dict_set, dict_contains, dict_get.
      repeat writes_only_step. }
    intros _. apply list2png_writes_only.
  - unfold ScaleNxGUI.scale_file_pnm, ScaleNxGUI.call_scaler. cbv zeta.
    repeat writes_only_step.
Qed.

(** ** The batch run *)

Lemma filter_ext_in {A} (P1 P2 : A -> Prop)
    `{!forall x, Decision (P1 x)} `{!forall x, Decision (P2 x)} (l : list A) :
  (forall x, x ∈ l -> P1 x <-> P2 x) -> filter P1 l = filter P2 l.
Proof.
  induction l as [|a l IH]; intros Hext; [reflexivity|].
  rewrite !filter_cons.
  rewrite IH by (intros x Hx; apply Hext; by right).
  pose proof (Hext a (list_elem_of_here _ _)) as Ha.
  destruct (decide (P1 a)), (decide (P2 a)); tauto.
Qed.

Lemma batch_tasks_files size sfx tree :
  task_file <$> batch_tasks size sfx tree
  = filter (fun p => eligible p = true) tree.
Proof.
  unfold batch_tasks. rewrite <- list_fmap_compose.
  by rewrite (list_fmap_ext _ id _ (fun _ _ _ => eq_refl)), list_fmap_id.
Qed.

Lemma batch_tasks_elem size sfx tree t :
  t ∈ batch_tasks size sfx tree ->
  task_file t ∈ tree /\ eligible (task_file t) = true /\
  t = Task (codec_of (task_file t)) (task_file t) size sfx.
Proof.
  unfold batch_tasks. intros (p & -> & Hp)%list_elem_of_fmap.
  apply list_elem_of_filter in Hp as [Hp Hin]. by repeat split.
Qed.

Lemma filter_fmap_path (P : string -> Prop) `{!forall p, Decision (P p)}
    (entries : list entry) :
  filter P (entry_path <$> entries)
  = entry_path <$> filter (fun e => P (entry_path e)) entries.
Proof.
  induction entries as [|e entries IH]; [reflexivity|].
  rewrite fmap_cons, !filter_cons, IH.
  by destruct (decide (P (entry_path e))).
Qed.

(** The task function of a task for an eligible path. *)
Lemma codec_of_suffix p :
  eligible p = true ->
  (codec_of p = Scale_file_png /\ ScaleNxGUI.suffix p = ".png") \/
  (codec_of p = Scale_file_pnm /\ ScaleNxGUI.suffix p ∈ [".ppm"; ".pgm"]).
Proof.
  unfold eligible, codec_of. intros Hp%bool_decide_eq_true.
  case_bool_decide as Hpng; [by left|]. right. split; [reflexivity|].
  apply elem_of_cons in Hp as [Hp|Hp]; done.
Qed.

(** C4. [FolderNx] asks the suffix of every entry that the traversal yields
    and nothing else, so that a directory counts like a file.  For a tree
    with [K] entries, files or directories, whose suffix is [.png], [.ppm]
    or [.pgm] and [M] other entries, it submits one task for each of the
    [K], [K] in all, [.png] to [scale_file_png] and the two others to
    [scale_file_pnm], and none for the [M] others; the entries that get a
    task are exactly those of the three suffixes.  When no directory bears
    one of the three suffixes, the tasks are those of the eligible files.
    Its last calls to the pool are [close] and [join], and whenever these
    calls have run to their end the [K] tasks have finished and none is
    queued, whatever the outcome of each.  Such a run exists for every
    choice of outcomes. *)
Theorem batch_completeness
    (entries : list entry) (sourcedir : string) (size : Z) (sfx : bool)
    (K M : nat) (w : world) :
  let tree := entry_path <$> entries in
  sourcedir <> EmptyString ->
  length (filter (fun e => eligible (entry_path e) = true) entries) = K ->
  length (filter (fun e => eligible (entry_path e) = false) entries) = M ->
  exists calls,
    ScaleNxGUI.FolderNx size sfx sourcedir tree w
    = (Ok tt, World (heap w) (trace w ++ calls)) /\
    calls = [UIWaiting; UIBusy; Pool_create]
              ++ (submit <$> batch_tasks size sfx tree)
              ++ [Pool_close; Pool_join; UINormal] /\
    submitted calls = batch_tasks size sfx tree /\
    length (submitted calls) = K /\
    length (filter (fun e => entry_path e ∉ task_file <$> submitted calls)
              entries) = M /\
    (forall e, e ∈ entries ->
       entry_path e ∈ task_file <$> submitted calls
       <-> ScaleNxGUI.suffix (entry_path e) ∈ [".png"; ".ppm"; ".pgm"]) /\
    (forall t, t ∈ submitted calls ->
       task_file t ∈ tree /\ task_size t = size /\ task_sfx t = sfx /\
       ((task_fn t = Scale_file_png /\
         ScaleNxGUI.suffix (task_file t) = ".png") \/
        (task_fn t = Scale_file_pnm /\
         ScaleNxGUI.suffix (task_file t) ∈ [".ppm"; ".pgm"]))) /\
    ((forall e, e ∈ entries ->
        eligible (entry_path e) = true -> entry_is_file e = true) ->
     task_file <$> submitted calls
     = entry_path <$> filter (fun e => eligible_file e = true) entries /\
     length (filter (fun e => eligible_file e = true) entries) = K) /\
    (forall final, pool_run calls None final ->
       exists p, final = Some p /\ queued p = [] /\ closed p = true /\
         fst <$> finished p ≡ₚ submitted calls /\
         length (finished p) = K) /\
    (forall outcome : task -> result unit,
       pool_run calls None
         (Some (Pool [] ((fun t => (t, outcome t)) <$> submitted calls) true))).
Proof.
  intros tree Hdir HK HM. destruct w as [h t].
  eexists. split; [by apply FolderNx_run|]. split; [reflexivity|].
  assert (submitted ([UIWaiting; UIBusy; Pool_create]
                       ++ (submit <$> batch_tasks size sfx tree)
                       ++ [Pool_close; Pool_join; UINormal])
          = batch_tasks size sfx tree) as Hsub.
  { cbn. by rewrite submitted_app, submitted_submit, app_nil_r. }
  rewrite Hsub.
  assert (task_file <$> batch_tasks size sfx tree
          = entry_path
              <$> filter (fun e => eligible (entry_path e) = true) entries)
    as Hfiles.
  { rewrite batch_tasks_files. apply filter_fmap_path. }
  assert (length (batch_tasks size sfx tree) = K) as Hlen.
  { rewrite <- HK, <- (length_fmap entry_path), <- Hfiles.
    by rewrite length_fmap. }
  assert (forall e, e ∈ entries ->
            entry_path e ∈ task_file <$> batch_tasks size sfx tree
            <-> eligible (entry_path e) = true) as Htask.
  { intros e He. rewrite batch_tasks_files, list_elem_of_filter.
    split; [by intros [? _]|]. intros Helig. split; [done|].
    apply list_elem_of_fmap. by exists e. }
  split; [reflexivity|]. split; [exact Hlen|].
  split; [|split; [|split; [|split; [|split]]]].
  - rewrite <- HM. f_equal. apply filter_ext_in. intros e He.
    rewrite (Htask e He). by destruct (eligible (entry_path e)).
  - intros e He. rewrite (Htask e He). unfold eligible.
    by rewrite bool_decide_eq_true.
  - intros task (Hin & Helig & Heq)%batch_tasks_elem.
    split; [exact Hin|].
    destruct task as [fn file sz sx]. cbn in Helig, Heq |- *.
    inversion Heq; subst.
    split; [reflexivity|]. split; [reflexivity|].
    by apply codec_of_suffix.
  - intros Hfile.
    assert (filter (fun e => eligible_file e = true) entries
            = filter (fun e => eligible (entry_path e) = true) entries)
      as Hsame.
    { apply filter_ext_in. intros e He. unfold eligible_file.
      rewrite andb_true_iff. split; [by intros [_ ?]|].
      intros Helig. split; [by apply Hfile|done]. }
    rewrite Hsame. by split.
  - intros final Hrun.
    destruct (batch_run_complete _ _ Hrun)
      as (p & -> & Hqueued & Hclosed & Hperm).
    exists p. repeat split; [done..|].
    rewrite <- Hlen, <- Hperm. by rewrite length_fmap.
  - intros outcome. apply batch_run_exists.
Qed.

Lemma batch_completeness_witness :
  let tree := entry_path <$> sample_folder in
  exists calls,
    ScaleNxGUI.FolderNx 3 false "art" tree (World ∅ [])
    = (Ok tt, World (heap (World ∅ [])) (trace (World ∅ []) ++ calls)) /\
    calls = [UIWaiting; UIBusy; Pool_create]
              ++ (submit <$> batch_tasks 3 false tree)
              ++ [Pool_close; Pool_join; UINormal] /\
    submitted calls = batch_tasks 3 false tree /\
    length (submitted calls) = 4%nat /\
    length (filter (fun e => entry_path e ∉ task_file <$> submitted calls)
              sample_folder) = 4%nat /\
    (forall e, e ∈ sample_folder ->
       entry_path e ∈ task_file <$> submitted calls
       <-> ScaleNxGUI.suffix (entry_path e) ∈ [".png"; ".ppm"; ".pgm"]) /\
    (forall t, t ∈ submitted calls ->
       task_file t ∈ tree /\ task_size t = 3 /\ task_sfx t = false /\
       ((task_fn t = Scale_file_png /\
         ScaleNxGUI.suffix (task_file t) = ".png") \/
        (task_fn t = Scale_file_pnm /\
         ScaleNxGUI.suffix (task_file t) ∈ [".ppm"; ".pgm"]))) /\
    ((forall e, e ∈ sample_folder ->
        eligible (entry_path e) = true -> entry_is_file e = true) ->
     task_file <$> submitted calls
     = entry_path <$> filter (fun e => eligible_file e = true) sample_folder /\
     length (filter (fun e => eligible_file e = true) sample_folder)
     = 4%nat) /\
    (forall final, pool_run calls None final ->
       exists p, final = Some p /\ queued p = [] /\ closed p = true /\
         fst <$> finished p ≡ₚ submitted calls /\
         length (finished p) = 4%nat) /\
    (forall outcome : task -> result unit,
       pool_run calls None
         (Some (Pool [] ((fun t => (t, outcome t)) <$> submitted calls) true))).
Proof.
  apply (batch_completeness sample_folder "art" 3 false 4 4 (World ∅ [])).
  - discriminate.
  - vm_compute. reflexivity.
  - vm_compute. reflexivity.
Defined.

(** The tasks of the sample folder, in the order of the traversal: the
    directory gets one, the bitmap and the file of suffix [.PNG] get
    none. *)
Example sample_folder_tasks :
  batch_tasks 3 false (entry_path <$> sample_folder)
  = [ Task Scale_file_png "art/a.png" 3 false;
      Task Scale_file_pnm "art/b.ppm" 3 false;
      Task Scale_file_png "art/album.png" 3 false;
      Task Scale_file_pnm "art/album.png/c.pgm" 3 false ].
Proof. vm_compute. reflexivity. Qed.

(** C4, as the claim words it, fails on a folder with a directory whose
    name ends in [.png]: of its three entries two are eligible files, and
    [FolderNx] submits three tasks, one of them for the directory. *)
Lemma directory_gets_a_task :
  exists calls,
    ScaleNxGUI.FolderNx 2 false "art" (entry_path <$> folder_with_directory)
      (World ∅ [])
    = (Ok tt, World ∅ calls) /\
    length (filter (fun e => eligible_file e = true) folder_with_directory)
    = 2%nat /\
    length (submitted calls) = 3%nat /\
    length (submitted calls)
    <> length (filter (fun e => eligible_file e = true)
                 folder_with_directory) /\
    Task Scale_file_png "art/pics.png" 2 false ∈ submitted calls /\
    (forall e, e ∈ folder_with_directory ->
       entry_path e = "art/pics.png" -> entry_is_file e = false).
Proof.
  eexists. split; [vm_compute; reflexivity|].
  split; [vm_compute; reflexivity|].
  split; [vm_compute; reflexivity|].
  split; [vm_compute; lia|]. split.
  - cbn. right. left.
  - intros e He Hpath.
    repeat (apply elem_of_cons in He as [->|He]; [done|]).
    by apply elem_of_nil in He.
Qed.

(** The tasks of the sample tree, in the order of the traversal. *)
Example sample_tree_tasks :
  batch_tasks 3 false sample_tree
  = [ Task Scale_file_png "art/a.png" 3 false;
      Task Scale_file_pnm "art/b.ppm" 3 false;
      Task Scale_file_pnm "art/sub/c.pgm" 3 false;
      Task Scale_file_png "art/sub/d.png" 3 false;
      Task Scale_file_png "art/e.png" 3 false ].
Proof. vm_compute. reflexivity. Qed.

Lemma dict_set_if_run (b : bool) l k v1 v2 d h t :
  (if b then dict_set l k v1 else dict_set l k v2) (World (<[l := d]> h) t)
  = (Ok tt, World (<[l := <[k := if b then v1 else v2]> d]> h) t).
Proof. destruct b; apply dict_set_run. Qed.

(** C9. The dialog of [FileNx] offers the files of suffix [.png], [.ppm],
    [.pgm] and [.pbm], and [FileNx] reads a [.pbm] file with the PNM reader
    and rescales it; the batch run submits tasks for the first three
    suffixes only.  For an entry of suffix [.pbm] no task is submitted, and
    no task that runs writes it. *)
Theorem pbm_single_file_only
    (Reader_asDirect : string -> result (Z * Z * list (list Z) * dict))
    (pnm2list : string -> result (Z * Z * Z * Z * image))
    (scale2x scale3x scale2xsfx scale3xsfx : image -> result image)
    (tree : list string) (sourcedir p dst : string) (size : Z) (sfx : bool)
    (X Y Z_ maxcolors : Z) (image3d scaled : image) (w : world) :
  sourcedir <> EmptyString ->
  ScaleNxGUI.suffix p = ".pbm" ->
  ScaleNxGUI.suffix dst = ".pgm" ->
  size = 2 \/ size = 3 ->
  pnm2list p = Ok (X, Y, Z_, maxcolors, image3d) ->
  (forall scaler,
     ScaleNxGUI.chosen_scaler scale2x scale3x scale2xsfx scale3xsfx size sfx
     = Some scaler ->
     scaler image3d = Ok scaled) ->
  (forall q, (ScaleNxGUI.dialog_offers ScaleNxGUI.open_filetypes q = true)
             <-> (ScaleNxGUI.suffix q ∈ [".png"; ".ppm"; ".pgm"; ".pbm"])) /\
  ScaleNxGUI.dialog_offers ScaleNxGUI.open_filetypes p = true /\
  (exists w1,
     ScaleNxGUI.FileNx Reader_asDirect pnm2list
       scale2x scale3x scale2xsfx scale3xsfx size sfx p dst w = (Ok tt, w1) /\
     trace w1 = trace w ++ [UIWaiting; UIBusy; UIWaiting; UIBusy;
                            List2pnm dst scaled maxcolors; UINormal]) /\
  exists calls,
    ScaleNxGUI.FolderNx size sfx sourcedir tree w
    = (Ok tt, World (heap w) (trace w ++ calls)) /\
    (forall t, t ∈ submitted calls ->
       ScaleNxGUI.suffix (task_file t) ∈ [".png"; ".ppm"; ".pgm"]) /\
    (p ∉ task_file <$> submitted calls) /\
    (forall t h0, t ∈ submitted calls ->
       p ∉ written
             (trace (run_task Reader_asDirect pnm2list
                       scale2x scale3x scale2xsfx scale3xsfx t
                       (World h0 [])).2)).
Proof.
  intros Hdir Hp Hdst Hsize Hread Hscaler.
  assert (forall q, (ScaleNxGUI.dialog_offers ScaleNxGUI.open_filetypes q = true)
             <-> (ScaleNxGUI.suffix q ∈ [".png"; ".ppm"; ".pgm"; ".pbm"]))
    as Hdialog.
  { intros q. unfold ScaleNxGUI.dialog_offers, ScaleNxGUI.open_filetypes.
    cbn [existsb snd]. rewrite !orb_true_iff, !bool_decide_eq_true.
    rewrite !elem_of_cons, !elem_of_nil. intuition discriminate. }
  split; [exact Hdialog|]. split.
  { apply Hdialog. rewrite Hp. do 3 right. left. }
  destruct w as [h t]. split.
  - eexists. split.
    + unfold ScaleNxGUI.FileNx.
      rewrite (bind_Ok _ _ _ _ _ (emit_run _ _ _)).
      rewrite (bool_decide_eq_false_2 (p = EmptyString))
        by (intros ->; discriminate).
      rewrite (bind_Ok _ _ _ _ _ (emit_run _ _ _)).
      rewrite Hp.
      rewrite (bool_decide_eq_false_2 (".pbm" = ".png")) by discriminate.
      rewrite (bool_decide_eq_true_2 (".pbm" ∈ [".ppm"; ".pgm"; ".pbm"]))
        by (do 2 right; left).
      rewrite Hread.
      erewrite bind_Ok; cycle 1.
      { rewrite (bind_Ok _ _ _ _ _ (lift_run _ _)).
        rewrite (bind_Ok _ _ _ _ _ (alloc_run _ _ _)).
        erewrite bind_Ok; [reflexivity|].
        apply dict_set_if_run. }
      cbv beta iota.
      rewrite (bind_Ok _ _ _ _ _
                 (call_scaler_run _ _ _ _ _ _ _ _ _ Hsize Hscaler)).
      erewrite bind_Ok; cycle 1.
      { apply fix_resolution_run.
        rewrite lookup_insert_ne, lookup_empty by done. reflexivity. }
      rewrite (bind_Ok _ _ _ _ _ (emit_run _ _ _)).
      rewrite (bool_decide_eq_false_2 (dst = EmptyString))
        by (intros ->; discriminate).
      rewrite (bind_Ok _ _ _ _ _ (emit_run _ _ _)).
      rewrite Hdst.
      rewrite (bool_decide_eq_false_2 (".pgm" = ".png")) by discriminate.
      rewrite (bool_decide_eq_true_2 (".pgm" ∈ [".ppm"; ".pgm"]))
        by (right; left).
      rewrite (bind_Ok _ _ _ _ _ (emit_run _ _ _)).
      apply emit_run.
    + cbn [trace]. rewrite <- !app_assoc. reflexivity.
  - eexists. split; [by apply FolderNx_run|].
    assert (submitted ([UIWaiting; UIBusy; Pool_create]
                         ++ (submit <$> batch_tasks size sfx tree)
                         ++ [Pool_close; Pool_join; UINormal])
            = batch_tasks size sfx tree) as ->.
    { cbn. by rewrite submitted_app, submitted_submit, app_nil_r. }
    assert (forall t, t ∈ batch_tasks size sfx tree ->
              ScaleNxGUI.suffix (task_file t) ∈ [".png"; ".ppm"; ".pgm"])
      as Hsuffix.
    { intros task (_ & Helig & _)%batch_tasks_elem.
      by apply bool_decide_eq_true in Helig. }
    assert (forall t, t ∈ batch_tasks size sfx tree -> task_file t <> p)
      as Hother.
    { intros task Htask <-. specialize (Hsuffix task Htask).
      rewrite Hp in Hsuffix.
      repeat (apply elem_of_cons in Hsuffix as [Hsuffix|Hsuffix];
              [discriminate|]).
      by apply elem_of_nil in Hsuffix. }
    split; [exact Hsuffix|]. split.
    + intros (task & Hfile & Htask)%list_elem_of_fmap.
      by apply (Hother task Htask).
    + intros task h0 Htask Hin.
      destruct (run_task_writes_only Reader_asDirect pnm2list
                  scale2x scale3x scale2xsfx scale3xsfx task (World h0 []))
        as (evs & Htrace & Hfiles).
      rewrite Htrace in Hin. cbn in Hin.
      rewrite Forall_forall in Hfiles. specialize (Hfiles p Hin).
      apply list_elem_of_singleton in Hfiles.
      by apply (Hother task Htask).
Qed.

Lemma pbm_single_file_only_witness :
  (forall q, (ScaleNxGUI.dialog_offers ScaleNxGUI.open_filetypes q = true)
             <-> (ScaleNxGUI.suffix q ∈ [".png"; ".ppm"; ".pgm"; ".pbm"])) /\
  ScaleNxGUI.dialog_offers ScaleNxGUI.open_filetypes "art/mask.pbm" = true /\
  (exists w1,
     ScaleNxGUI.FileNx sample_reader_physical sample_pnm
       (sample_scaler 2) (sample_scaler 3) (sample_scaler 2) (sample_scaler 3)
       2 false "art/mask.pbm" "out/mask.pgm" (World ∅ []) = (Ok tt, w1) /\
     trace w1
     = trace (World ∅ [])
         ++ [UIWaiting; UIBusy; UIWaiting; UIBusy;
             List2pnm "out/mask.pgm"
               [ [ [0]; [0]; [1]; [1] ]; [ [0]; [0]; [1]; [1] ];
                 [ [1]; [1]; [0]; [0] ]; [ [1]; [1]; [0]; [0] ] ] 1;
             UINormal]) /\
  exists calls,
    ScaleNxGUI.FolderNx 2 false "art" sample_tree (World ∅ [])
    = (Ok tt, World (heap (World ∅ [])) (trace (World ∅ []) ++ calls)) /\
    (forall t, t ∈ submitted calls ->
       ScaleNxGUI.suffix (task_file t) ∈ [".png"; ".ppm"; ".pgm"]) /\
    ("art/mask.pbm" ∉ task_file <$> submitted calls) /\
    (forall t h0, t ∈ submitted calls ->
       "art/mask.pbm" ∉ written
             (trace (run_task sample_reader_physical sample_pnm
                       (sample_scaler 2) (sample_scaler 3)
                       (sample_scaler 2) (sample_scaler 3) t
                       (World h0 [])).2)).
Proof.
  apply (pbm_single_file_only sample_reader_physical sample_pnm
           (sample_scaler 2) (sample_scaler 3) (sample_scaler 2)
           (sample_scaler 3) sample_tree "art" "art/mask.pbm" "out/mask.pgm"
           2 false 2 2 1 1 [ [ [0]; [1] ]; [ [1]; [0] ] ]).
  - discriminate.
  - reflexivity.
  - reflexivity.
  - left. reflexivity.
  - reflexivity.
  - intros scaler H. injection H as <-. vm_compute. reflexivity.
Defined.

(** * Further properties of the codec *)

(** ** The encoder on any image *)

(** A subscript returns an item or raises
    [IndexError]. *)
Lemma getitem_cases {A} (l : list A) (i : Z) :
  getitem l i = Raise IndexError \/ exists a, getitem l i = Ok a.
Proof.
  unfold getitem. cbv zeta.
  destruct (0 <=? (if 0 <=? i then i else len l + i)); [|by left].
  destruct (l !! _); [right; by eexists | by left].
Qed.

Lemma comprehension_cases {A B} (f : A -> result B) (l : list A) e :
  (forall a, a ∈ l -> f a = Raise e \/ exists b, f a = Ok b) ->
  comprehension f l = Raise e \/ exists bs, comprehension f l = Ok bs.
Proof.
  induction l as [|a l IH]; intros Hf; [right; by eexists|].
  cbn [comprehension].
  destruct (Hf a (list_elem_of_here _ _)) as [-> | [b ->]]; [by left|].
  destruct IH as [-> | [bs ->]]; [intros; apply Hf; by right|by left|].
  right. by eexists.
Qed.

(** A comprehension raises as soon as one of its items does. *)
Lemma comprehension_raises {A B} (f : A -> result B) (l : list A) e a :
  (forall a, a ∈ l -> f a = Raise e \/ exists b, f a = Ok b) ->
  a ∈ l -> f a = Raise e ->
  comprehension f l = Raise e.
Proof.
  induction l as [|a' l IH]; intros Hf Ha Hraise; [by apply elem_of_nil in Ha|].
  cbn [comprehension].
  destruct (Hf a' (list_elem_of_here _ _)) as [-> | [b Hb]]; [reflexivity|].
  rewrite Hb. cbn.
  apply elem_of_cons in Ha as [-> | Ha]; [congruence|].
  rewrite IH; [reflexivity| |done..].
  intros; apply Hf; by right.
Qed.

(** [list2png] on an image that has a first pixel: the record is rewritten
    and the file is opened before the writer draws the rows. *)
Lemma list2png_first_pixel out_filename pixel0 pixels rest info d h t :
  h !! info = Some d ->
  let list_3d := (pixel0 :: pixels) :: rest in
  let X := len (pixel0 :: pixels) in
  let Y := len list_3d in
  let Z_ := Z.min (len pixel0) 4 in
  let kwargs := derived_info X Y Z_ d in
  pnglpng.list2png out_filename list_3d info (World h t)
  = match drawn (pnglpng.flatten_2d_row X Z_ list_3d) (range Y) with
    | (rows, None) =>
        (Ok tt,
         World (<[info := kwargs]> h)
           (t ++ [Open_wb out_filename;
                  Writer_write out_filename X Y kwargs rows]))
    | (rows, Some e) =>
        (Raise e,
         World (<[info := kwargs]> h)
           (t ++ [Open_wb out_filename;
                  Writer_raised out_filename X Y kwargs rows e]))
    end.
Proof.
  intros Hd list_3d X Y Z_ kwargs.
  rewrite <- (insert_id h info d Hd) at 1.
  unfold pnglpng.list2png. cbv zeta.
  change (getitem list_3d 0) with (Ok (pixel0 :: pixels)).
  rewrite !(bind_Ok _ _ _ _ _ (lift_run _ _)).
  change (getitem (pixel0 :: pixels) 0) with (Ok pixel0).
  rewrite !(bind_Ok _ _ _ _ _ (lift_run _ _)).
  fold X Y Z_.
  rewrite (bind_Ok _ _ _ _ _ (dict_set_run _ _ _ _ _ _)).
  rewrite (bind_Ok _ _ _ _ _ (dict_set_run _ _ _ _ _ _)).
  rewrite (bind_Ok _ _ _ _ _ (dict_contains_run _ _ _ _ _)).
  rewrite (bind_Ok _ _ _ _ _ (discard_run _ _ _ _ _)).
  rewrite (bind_Ok _ _ _ _ _ (dict_contains_run _ _ _ _ _)).
  rewrite (bind_Ok _ _ _ _ _ (discard_run _ _ _ _ _)).
  rewrite (bind_Ok _ _ _ _ _ (clear_flag_run _ _ _ _ _ _)).
  rewrite (bind_Ok _ _ _ _ _ (set_flag_run _ _ _ _ _ _)).
  rewrite (bind_Ok _ _ _ _ _ (deref_run _ _ _ _)).
  rewrite (bind_Ok _ _ _ _ _ (emit_run _ _ _)).
  destruct (drawn (pnglpng.flatten_2d_row X Z_ list_3d) (range Y))
    as [rows [e|]].
  - rewrite (bind_Ok _ _ _ _ _ (emit_run _ _ _)).
    rewrite <- app_assoc. reflexivity.
  - rewrite emit_run, <- app_assoc. reflexivity.
Qed.

(** X1. An image without a first pixel, that is, without rows or with an
    empty first row, makes [list2png] raise [IndexError] at once: the record
    is not touched and no file is opened. *)
Theorem list2png_no_first_pixel
    (out_filename : string) (list_3d : image) (info : loc) (w : world) :
  list_3d = [] \/ (exists rest, list_3d = [] :: rest) ->
  pnglpng.list2png out_filename list_3d info w = (Raise IndexError, w).
Proof.
  intros [-> | [rest ->]]; reflexivity.
Qed.

Lemma list2png_no_first_pixel_witness :
  pnglpng.list2png "a.png" [] 0%nat (World {[0%nat := sample_meta]} [])
  = (Raise IndexError, World {[0%nat := sample_meta]} []).
Proof.
  apply (list2png_no_first_pixel "a.png" [] 0%nat).
  left. reflexivity.
Defined.

Lemma bind_cases {A B} (c : result A) (f : A -> result B) e :
  (c = Raise e \/ exists a, c = Ok a) ->
  (forall a, f a = Raise e \/ exists b, f a = Ok b) ->
  (c ≫= f) = Raise e \/ exists b, (c ≫= f) = Ok b.
Proof.
  intros [-> | [a ->]] Hf; [by left|]. apply Hf.
Qed.

Lemma flatten_sample_cases (list_3d : image) (y x z : Z) :
  let sample :=
    (row ← getitem list_3d y; pixel ← getitem row x; getitem pixel z)
      : result Z in
  sample = Raise IndexError \/ exists a, sample = Ok a.
Proof.
  cbv zeta. apply bind_cases; [apply getitem_cases|]. intros row.
  apply bind_cases; [apply getitem_cases|]. intros pixel.
  apply getitem_cases.
Qed.

Lemma flatten_row_cases (list_3d : image) (X Z_ y : Z) :
  let flat :=
    (pixels ← comprehension (fun x =>
       comprehension (fun z =>
         (row ← getitem list_3d y;
          pixel ← getitem row x;
          getitem pixel z) : result Z)
       (range Z_))
     (range X);
     mret (mjoin (M:=list) pixels)) : result (list Z) in
  flat = Raise IndexError \/ exists row, flat = Ok row.
Proof.
  cbv zeta. apply bind_cases; [|intros; right; by eexists].
  apply comprehension_cases. intros x _.
  apply comprehension_cases. intros z _.
  apply flatten_sample_cases.
Qed.

(** The row of the generator for a row of the image that is shorter than
    the first one raises. *)
Lemma flatten_2d_row_short (list_3d : image) (X Z_ : Z) (y : nat) row :
  list_3d !! y = Some row ->
  len row < X ->
  0 < Z_ ->
  pnglpng.flatten_2d_row X Z_ list_3d (Z.of_nat y) = Raise IndexError.
Proof.
  intros Hrow Hshort HZ. unfold pnglpng.flatten_2d_row.
  rewrite (comprehension_raises _ _ IndexError (len row)); [reflexivity| | |].
  - intros x _. apply comprehension_cases. intros z _.
    apply flatten_sample_cases.
  - apply elem_of_range. unfold len in *. lia.
  - apply (comprehension_raises _ _ _ 0).
    + intros z _. apply flatten_sample_cases.
    + apply elem_of_range. lia.
    + rewrite (getitem_of_nat _ _ _ Hrow). cbn.
      rewrite getitem_nonneg by (unfold len; lia).
      rewrite lookup_ge_None_2; [reflexivity|]. unfold len. lia.
Qed.

(** The row of the generator for a row of the image that has the pixels
    and the channels asked for. *)
Lemma flatten_2d_row_clip (list_3d : image) (X n : Z) (y : nat) row :
  list_3d !! y = Some row ->
  0 <= X -> 0 <= n ->
  X <= len row ->
  Forall (fun pixel : list Z => n <= len pixel) (take (Z.to_nat X) row) ->
  pnglpng.flatten_2d_row X n list_3d (Z.of_nat y)
  = Ok (mjoin (take (Z.to_nat n) <$> take (Z.to_nat X) row)).
Proof.
  intros Hrow HX Hn Hlen Hpix. unfold pnglpng.flatten_2d_row.
  rewrite (comprehension_range _
             (take (Z.to_nat n) <$> take (Z.to_nat X) row));
    [reflexivity| |].
  { unfold len in *. rewrite length_fmap, length_take, Nat.min_l by lia. lia. }
  intros x pixel' Hx. rewrite list_lookup_fmap in Hx.
  destruct (take (Z.to_nat X) row !! x) as [pixel|] eqn:Hpixel; [|discriminate].
  injection Hx as <-.
  rewrite Forall_lookup in Hpix. specialize (Hpix x pixel Hpixel).
  apply lookup_take_Some in Hpixel as [Hpixel _].
  apply comprehension_range.
  { unfold len in *. rewrite length_take, Nat.min_l by lia. lia. }
  intros z sample Hz. apply lookup_take_Some in Hz as [Hz _].
  rewrite (getitem_of_nat _ _ _ Hrow). cbn.
  rewrite (getitem_of_nat _ _ _ Hpixel). cbn.
  by apply getitem_of_nat.
Qed.

(** A consumer gets the items that come before the first exception of a
    generator over a range, and then that exception. *)
Lemma drawn_seqZ_raises {B} (f : Z -> result B) (bs : list B) (m n : Z) e :
  len bs < n ->
  (forall (i : nat) b, bs !! i = Some b -> f (m + Z.of_nat i) = Ok b) ->
  f (m + len bs) = Raise e ->
  drawn f (seqZ m n) = (bs, Some e).
Proof.
  revert m n. induction bs as [|b bs IH]; intros m n Hn Hf Hraise.
  - unfold len in *. cbn [length] in *.
    rewrite seqZ_cons by lia. cbn [drawn].
    rewrite Z.add_0_r in Hraise. by rewrite Hraise.
  - unfold len in *. rewrite length_cons, Nat2Z.inj_succ in *.
    rewrite seqZ_cons by lia. cbn [drawn].
    specialize (Hf 0%nat b eq_refl) as H0. rewrite Z.add_0_r in H0.
    rewrite H0.
    rewrite (IH (Z.succ m) (Z.pred n)); [reflexivity|lia| |].
    + intros i b' Hi. specialize (Hf (S i) b' Hi).
      rewrite <- Hf. f_equal. lia.
    + rewrite <- Hraise. f_equal. lia.
Qed.

(** X2. Ragged input is not checked before the write starts, and the rows
    are drawn while the writer runs.  For an image whose first pixel has a
    channel, whose row [y] is shorter than the first row and whose rows
    before [y] have the pixels and the channels asked for, [list2png] raises
    [IndexError] only after it has rewritten the caller's record, opened the
    output file for writing and entered the writer, which has drawn the
    rows before [y] by then, the first row among them. *)
Theorem list2png_short_row
    (out_filename : string) (pixel0 : list Z) (pixels : list (list Z))
    (rest : image) (y : nat) (row : list (list Z))
    (info : loc) (d : dict) (h : gmap loc dict) (t : list event) :
  let list_3d := (pixel0 :: pixels) :: rest in
  let X := len (pixel0 :: pixels) in
  let Y := len list_3d in
  let Z_ := Z.min (len pixel0) 4 in
  let kwargs := derived_info X Y Z_ d in
  h !! info = Some d ->
  0 < len pixel0 ->
  list_3d !! y = Some row ->
  len row < X ->
  covers X Z_ (take y list_3d) ->
  (0 < y)%nat /\
  length (flat_rows (clip X Z_ (take y list_3d))) = y /\
  pnglpng.list2png out_filename list_3d info (World h t)
  = (Raise IndexError,
     World (<[info := kwargs]> h)
       (t ++ [Open_wb out_filename;
              Writer_raised out_filename X Y kwargs
                (flat_rows (clip X Z_ (take y list_3d))) IndexError])).
Proof.
  intros list_3d X Y Z_ kwargs Hd Hchannel Hrow Hshort Hcov.
  assert (y < length list_3d)%nat as Hy by (by eapply lookup_lt_Some).
  assert (length (flat_rows (clip X Z_ (take y list_3d))) = y) as Hlen.
  { unfold flat_rows, clip.
    rewrite !length_fmap, length_take, Nat.min_l by lia. reflexivity. }
  split; [|split; [exact Hlen|]].
  { destruct y as [|y]; [|lia].
    injection Hrow as <-. lia. }
  etransitivity; [exact (list2png_first_pixel _ _ _ _ _ _ _ t Hd)|].
  cbv zeta. fold list_3d X Y Z_ kwargs. unfold range.
  rewrite (drawn_seqZ_raises _ (flat_rows (clip X Z_ (take y list_3d)))
             0 Y IndexError); [reflexivity| | |].
  - unfold len, Y. rewrite Hlen. unfold len. lia.
  - intros i flat Hi. rewrite Z.add_0_l.
    unfold flat_rows, clip in Hi. rewrite !list_lookup_fmap in Hi.
    destruct (take y list_3d !! i) as [row'|] eqn:Hrow'; [|discriminate].
    injection Hi as <-.
    unfold covers in Hcov. rewrite Forall_lookup in Hcov.
    destruct (Hcov i row' Hrow') as [Hwide Hpix].
    apply lookup_take_Some in Hrow' as [Hrow' _].
    apply (flatten_2d_row_clip _ _ _ _ _ Hrow'); [| |done..];
      unfold X, Z_, len; lia.
  - rewrite Z.add_0_l. unfold len at 1. rewrite Hlen.
    apply (flatten_2d_row_short _ _ _ _ _ Hrow Hshort). unfold Z_. lia.
Qed.

Lemma list2png_short_row_witness :
  flat_rows (clip 2 3 (take 1 short_row_image)) = [ [1; 2; 3; 4; 5; 6] ] /\
  (0 < 1)%nat /\
  length (flat_rows (clip 2 3 (take 1 short_row_image))) = 1%nat /\
  pnglpng.list2png "a.png" short_row_image 0%nat
    (World {[0%nat := sample_meta]} [])
  = (Raise IndexError,
     World (<[0%nat := derived_info 2 2 3 sample_meta]>
              {[0%nat := sample_meta]})
       ([] ++ [Open_wb "a.png";
               Writer_raised "a.png" 2 2 (derived_info 2 2 3 sample_meta)
                 (flat_rows (clip 2 3 (take 1 short_row_image)))
                 IndexError])).
Proof.
  split; [reflexivity|].
  apply (list2png_short_row "a.png" [1; 2; 3] [[4; 5; 6]] [[[7; 8; 9]]]
           1%nat [[7; 8; 9]] 0%nat sample_meta).
  - vm_compute. reflexivity.
  - reflexivity.
  - reflexivity.
  - reflexivity.
  - repeat constructor; vm_compute; discriminate.
Defined.

Lemma flatten_2d_clip (list_3d : image) (X Y n : Z) :
  Y = len list_3d ->
  0 <= X -> 0 <= n ->
  covers X n list_3d ->
  pnglpng.flatten_2d X Y n list_3d = Ok (flat_rows (clip X n list_3d)).
Proof.
  intros -> HX Hn Hcov.
  unfold pnglpng.flatten_2d, pnglpng.flatten_2d_row, flat_rows, clip.
  apply comprehension_range.
  { unfold len. by rewrite !length_fmap. }
  intros y flat Hy. rewrite !list_lookup_fmap in Hy.
  destruct (list_3d !! y) as [row|] eqn:Hrow; [|discriminate].
  injection Hy as <-.
  unfold covers in Hcov. rewrite Forall_lookup in Hcov.
  destruct (Hcov y row Hrow) as [Hlen Hpix].
  rewrite (comprehension_range _
             (take (Z.to_nat n) <$> take (Z.to_nat X) row));
    [reflexivity| |].
  { unfold len in *. rewrite length_fmap, length_take, Nat.min_l by lia. lia. }
  intros x pixel' Hx. rewrite list_lookup_fmap in Hx.
  destruct (take (Z.to_nat X) row !! x) as [pixel|] eqn:Hpixel; [|discriminate].
  injection Hx as <-.
  rewrite Forall_lookup in Hpix. specialize (Hpix x pixel Hpixel).
  apply lookup_take_Some in Hpixel as [Hpixel _].
  apply comprehension_range.
  { unfold len in *. rewrite length_take, Nat.min_l by lia. lia. }
  intros z sample Hz. apply lookup_take_Some in Hz as [Hz _].
  rewrite (getitem_of_nat _ _ _ Hrow). cbn.
  rewrite (getitem_of_nat _ _ _ Hpixel). cbn.
  by apply getitem_of_nat.
Qed.

(** X3. Rows longer than the first row and pixels with more channels than
    the first pixel are accepted in silence: when every row has at least
    the width of the first row, and each of its first pixels at least the
    clamped channel count of the first pixel, [list2png] succeeds and hands
    the writer the first pixels of each row and the first channels of each
    pixel only. *)
Theorem list2png_clips_excess
    (out_filename : string) (pixel0 : list Z) (pixels : list (list Z))
    (rest : image) (info : loc) (d : dict) (h : gmap loc dict)
    (t : list event) :
  h !! info = Some d ->
  covers (len (pixel0 :: pixels)) (Z.min (len pixel0) 4)
    ((pixel0 :: pixels) :: rest) ->
  pnglpng.list2png out_filename ((pixel0 :: pixels) :: rest) info (World h t)
  = (Ok tt,
     World (<[info := derived_info (len (pixel0 :: pixels))
                        (len ((pixel0 :: pixels) :: rest))
                        (Z.min (len pixel0) 4) d]> h)
       (t ++ [Open_wb out_filename;
              Writer_write out_filename (len (pixel0 :: pixels))
                (len ((pixel0 :: pixels) :: rest))
                (derived_info (len (pixel0 :: pixels))
                   (len ((pixel0 :: pixels) :: rest))
                   (Z.min (len pixel0) 4) d)
                (flat_rows
                   (clip (len (pixel0 :: pixels)) (Z.min (len pixel0) 4)
                      ((pixel0 :: pixels) :: rest)))])).
Proof.
  intros Hd Hcov.
  rewrite (list2png_first_pixel _ _ _ _ _ _ _ t Hd). cbv zeta.
  rewrite (drawn_Ok _ _ (flat_rows (clip (len (pixel0 :: pixels))
                                     (Z.min (len pixel0) 4)
                                     ((pixel0 :: pixels) :: rest))));
    [reflexivity|].
  apply flatten_2d_clip; [reflexivity| | |exact Hcov]; unfold len; lia.
Qed.

Lemma list2png_clips_excess_witness :
  flat_rows (clip 2 3 long_row_image)
  = [ [1; 2; 3; 4; 5; 6]; [7; 8; 9; 10; 11; 12] ] /\
  pnglpng.list2png "a.png" long_row_image 0%nat
    (World {[0%nat := sample_meta]} [])
  = (Ok tt,
     World (<[0%nat := derived_info 2 2 3 sample_meta]>
              {[0%nat := sample_meta]})
       ([] ++ [Open_wb "a.png";
               Writer_write "a.png" 2 2 (derived_info 2 2 3 sample_meta)
                 (flat_rows (clip 2 3 long_row_image))])).
Proof.
  split; [reflexivity|].
  apply (list2png_clips_excess "a.png" [1; 2; 3] [[4; 5; 6]]
           [[[7; 8; 9; 0]; [10; 11; 12]; [13; 14; 15]]] 0%nat sample_meta).
  - vm_compute. reflexivity.
  - repeat constructor; vm_compute; discriminate.
Defined.

(** X4. The rows that [list2png] hands to the writer are what the writer
    expects for the size and the plane count it is given: as many rows as
    the height, each of width times planes samples. *)
Theorem written_rows_are_scanlines
    (out_filename : string) (list_3d : image) (Y X Z_ : Z)
    (info : loc) (meta : dict) (h : gmap loc dict) (t : list event) :
  rectangular list_3d Y X Z_ ->
  0 < Y -> 0 < X ->
  h !! info = Some meta ->
  exists kwargs rows w1,
    pnglpng.list2png out_filename list_3d info (World h t) = (Ok tt, w1) /\
    trace w1 = t ++ [Open_wb out_filename;
                     Writer_write out_filename X Y kwargs rows] /\
    kwargs !! "size" = Some (VTuple [VInt X; VInt Y]) /\
    kwargs !! "planes" = Some (VInt (Z.min Z_ 4)) /\
    scanlines rows Y X (Z.min Z_ 4).
Proof.
  intros Hrect HY HX Hmeta.
  pose proof (list2png_run out_filename _ info _ _ _ _ _ t Hrect HY HX Hmeta)
    as Hrun.
  cbv zeta in Hrun. eexists _, _, _.
  split; [exact Hrun|]. cbn [trace]. split; [reflexivity|].
  split; [apply derived_info_size|]. split; [apply derived_info_planes|].
  apply flat_rows_scanlines.
  apply (first_channels_rectangular _ _ _ Z_); [done|].
  destruct list_3d as [|row rest].
  { destruct Hrect as [H _]. unfold len in H. cbn in H. lia. }
  destruct (rectangular_cons _ _ _ _ _ Hrect) as [HlenX Hpix].
  destruct row as [|pixel0 pixels]; [unfold len in HlenX; cbn in HlenX; lia|].
  assert (len pixel0 = Z_) as HlenZ by (by inversion Hpix).
  unfold len in HlenZ. lia.
Qed.

Lemma written_rows_are_scanlines_witness :
  exists kwargs rows w1,
    pnglpng.list2png "a.png" five_channels 0%nat
      (World {[0%nat := sample_meta]} []) = (Ok tt, w1) /\
    trace w1 = [] ++ [Open_wb "a.png"; Writer_write "a.png" 2 1 kwargs rows] /\
    kwargs !! "size" = Some (VTuple [VInt 2; VInt 1]) /\
    kwargs !! "planes" = Some (VInt (Z.min 5 4)) /\
    scanlines rows 1 2 (Z.min 5 4).
Proof.
  apply (written_rows_are_scanlines "a.png" five_channels 1 2 5 0%nat
           sample_meta).
  - split; [reflexivity | repeat constructor].
  - lia.
  - lia.
  - vm_compute. reflexivity.
Defined.


Lemma derived_info_idempotent X Y Z_ d :
  derived_info X Y Z_ (derived_info X Y Z_ d) = derived_info X Y Z_ d.
Proof.
  apply map_eq. intros k.
  destruct (decide (k ∈ ["size"; "planes"; "palette"; "background";
                         "alpha"; "greyscale"])) as [Hk|Hk].
  - repeat (apply elem_of_cons in Hk as [-> | Hk];
            [unfold derived_info; by simplify_map_eq|]).
    by apply elem_of_nil in Hk.
  - by rewrite derived_info_other.
Qed.

(** X5. Encoding is idempotent on the record: a second [list2png] of the
    same image with the record that the first call left behind leaves that
    record as it is and hands the writer the same keyword arguments and
    the same rows. *)
Theorem list2png_twice
    (out_filename : string) (list_3d : image) (Y X Z_ : Z)
    (info : loc) (meta : dict) (h : gmap loc dict) (t : list event) :
  rectangular list_3d Y X Z_ ->
  0 < Y -> 0 < X ->
  h !! info = Some meta ->
  exists kwargs rows w1 w2,
    pnglpng.list2png out_filename list_3d info (World h t) = (Ok tt, w1) /\
    pnglpng.list2png out_filename list_3d info w1 = (Ok tt, w2) /\
    heap w1 !! info = Some kwargs /\
    heap w2 = heap w1 /\
    trace w2 = t ++ [Open_wb out_filename;
                     Writer_write out_filename X Y kwargs rows;
                     Open_wb out_filename;
                     Writer_write out_filename X Y kwargs rows].
Proof.
  intros Hrect HY HX Hmeta.
  pose proof (list2png_run out_filename _ info _ _ _ _ _ t Hrect HY HX Hmeta)
    as Hrun1.
  cbv zeta in Hrun1.
  eexists _, _, _, _. split; [exact Hrun1|].
  rewrite (list2png_run out_filename _ info _ _ _ _ _ _ Hrect HY HX
             (lookup_insert_eq _ _ _)).
  cbv zeta. rewrite derived_info_idempotent, insert_insert_eq.
  split; [reflexivity|]. cbn [heap trace].
  split; [apply lookup_insert_eq|]. split; [reflexivity|].
  by rewrite <- app_assoc.
Qed.

Lemma list2png_twice_witness :
  exists kwargs rows w1 w2,
    pnglpng.list2png "a.png" sample_image 0%nat
      (World {[0%nat := sample_meta]} []) = (Ok tt, w1) /\
    pnglpng.list2png "a.png" sample_image 0%nat w1 = (Ok tt, w2) /\
    heap w1 !! 0%nat = Some kwargs /\
    heap w2 = heap w1 /\
    trace w2 = [] ++ [Open_wb "a.png"; Writer_write "a.png" 2 2 kwargs rows;
                      Open_wb "a.png"; Writer_write "a.png" 2 2 kwargs rows].
Proof.
  apply (list2png_twice "a.png" sample_image 2 2 3 0%nat sample_meta).
  - split; [reflexivity | repeat constructor].
  - lia.
  - lia.
  - vm_compute. reflexivity.
Defined.

(** ** The decoder: errors, frame and the way back *)

Section ReadsOnly.

Lemma reads_only_ret {A} (a : A) : reads_only (mret a).
Proof. by intros w. Qed.

Lemma reads_only_raise {A} e : reads_only (raise (A:=A) e).
Proof. by intros w. Qed.

Lemma reads_only_lift {A} (r : result A) : reads_only (lift r).
Proof. by intros w. Qed.

Lemma reads_only_deref l : reads_only (deref l).
Proof. intros w. unfold deref. by destruct (heap w !! l). Qed.

Lemma reads_only_bind {A B} (c : M A) (f : A -> M B) :
  reads_only c -> (forall a, reads_only (f a)) -> reads_only (c ≫= f).
Proof.
  intros Hc Hf w. unfold mbind, M_bind.
  specialize (Hc w). destruct (c w) as [[a|e] w1]; cbn in Hc; subst w1.
  - apply Hf.
  - reflexivity.
Qed.

Lemma reads_only_dict_get l k : reads_only (dict_get l k).
Proof.
  unfold dict_get. apply reads_only_bind; [apply reads_only_deref|].
  intros d. destruct (d !! k); [apply reads_only_ret|apply reads_only_raise].
Qed.

End ReadsOnly.

Lemma reader_error_run
    (Reader_asDirect : string -> result (Z * Z * list (list Z) * dict))
    (in_filename : string) (e : exn) (w : world) :
  Reader_asDirect in_filename = Raise e ->
  pnglpng.png2list Reader_asDirect in_filename w = (Raise e, w).
Proof.
  intros Hread. unfold pnglpng.png2list. rewrite Hread.
  by rewrite (bind_Raise _ _ _ _ _ (lift_run _ _)).
Qed.

(** X6. A failure of the reader is the failure of [png2list]: the same
    exception, and the store and the trace as they were. *)
Theorem png2list_reader_error
    (Reader_asDirect : string -> result (Z * Z * list (list Z) * dict))
    (in_filename : string) (e : exn) (w : world) :
  Reader_asDirect in_filename = Raise e ->
  pnglpng.png2list Reader_asDirect in_filename w = (Raise e, w).
Proof. apply reader_error_run. Qed.

Lemma png2list_reader_error_witness :
  pnglpng.png2list failing_reader "a.png" (World ∅ [])
  = (Raise (ValueError "not a PNG file"), World ∅ []).
Proof.
  apply (png2list_reader_error failing_reader "a.png").
  reflexivity.
Defined.

Lemma dict_get_missing_run l k d h t :
  d !! k = None ->
  dict_get l k (World (<[l := d]> h) t)
  = (Raise (KeyError k), World (<[l := d]> h) t).
Proof.
  intros Hk. unfold dict_get.
  rewrite (bind_Ok _ _ _ _ _ (deref_run _ _ _ _)). by rewrite Hk.
Qed.

(** X7. Metadata without a plane count or without a bit depth make
    [png2list] raise [KeyError] for the first of the two keys that is
    missing. *)
Theorem png2list_missing_key
    (Reader_asDirect : string -> result (Z * Z * list (list Z) * dict))
    (in_filename : string) (X Y : Z) (pixels : list (list Z))
    (chunks : dict) (w : world) :
  Reader_asDirect in_filename = Ok (X, Y, pixels, chunks) ->
  chunks !! "planes" = None \/ chunks !! "bitdepth" = None ->
  (pnglpng.png2list Reader_asDirect in_filename w).1
  = Raise (KeyError (if bool_decide (chunks !! "planes" = None)
                     then "planes" else "bitdepth")).
Proof.
  intros Hread Hmissing. destruct w as [h t]. unfold pnglpng.png2list.
  rewrite Hread. rewrite (bind_Ok _ _ _ _ _ (lift_run _ _)).
  rewrite (bind_Ok _ _ _ _ _ (alloc_run _ _ _)).
  destruct (chunks !! "planes") as [planes|] eqn:Hplanes.
  - destruct Hmissing as [|Hdepth]; [discriminate|].
    rewrite (bind_Ok _ _ _ _ _ (dict_get_run _ _ _ _ _ _ Hplanes)).
    rewrite bool_decide_eq_false_2 by discriminate.
    by rewrite (bind_Raise _ _ _ _ _ (dict_get_missing_run _ _ _ _ _ Hdepth)).
  - rewrite bool_decide_eq_true_2 by done.
    by rewrite (bind_Raise _ _ _ _ _ (dict_get_missing_run _ _ _ _ _ Hplanes)).
Qed.

Lemma png2list_missing_key_witness :
  (pnglpng.png2list
     (fun _ => Ok (2, 2, flat_rows sample_image, {["planes" := VInt 3]}))
     "a.png" (World ∅ [])).1
  = Raise (KeyError
             (if bool_decide
                   (({["planes" := VInt 3]} : dict) !! "planes" = None)
              then "planes" else "bitdepth")).
Proof.
  apply (png2list_missing_key
           (fun _ => Ok (2, 2, flat_rows sample_image, {["planes" := VInt 3]}))
           "a.png" 2 2 (flat_rows sample_image) {["planes" := VInt 3]}).
  - reflexivity.
  - right. vm_compute. reflexivity.
Defined.

(** X8. Whether it returns or raises, [png2list] writes no file and changes
    no dict that exists: after a successful read the store has one new
    object, which holds the metadata of the reader, and the trace is as it
    was. *)
Theorem png2list_allocates_only
    (Reader_asDirect : string -> result (Z * Z * list (list Z) * dict))
    (in_filename : string) (X Y : Z) (pixels : list (list Z))
    (chunks : dict) (h : gmap loc dict) (t : list event) :
  Reader_asDirect in_filename = Ok (X, Y, pixels, chunks) ->
  (pnglpng.png2list Reader_asDirect in_filename (World h t)).2
  = World (<[fresh (dom h) := chunks]> h) t /\
  h !! fresh (dom h) = None.
Proof.
  intros Hread. split; [|apply not_elem_of_dom, is_fresh].
  unfold pnglpng.png2list. rewrite Hread.
  rewrite (bind_Ok _ _ _ _ _ (lift_run _ _)).
  rewrite (bind_Ok _ _ _ _ _ (alloc_run _ _ _)).
  match goal with
  | |- (?c ?w).2 = _ => enough (reads_only c) as Hreads by apply Hreads
  end.
  repeat first
    [ apply reads_only_dict_get
    | apply reads_only_bind; [|intros ?]
    | apply reads_only_lift
    | apply reads_only_ret
    | apply reads_only_raise
    | match goal with
      | |- reads_only (match ?x with _ => _ end) => destruct x
      end ].
Qed.

Lemma png2list_allocates_only_witness :
  (pnglpng.png2list
     (fun _ => Ok (2, 2, flat_rows sample_image, {["planes" := VInt 3]}))
     "a.png" (World {[0%nat := sample_meta]} [UIBusy])).2
  = World (<[fresh (dom ({[0%nat := sample_meta]} : gmap loc dict))
             := {["planes" := VInt 3]}]> {[0%nat := sample_meta]}) [UIBusy] /\
  ({[0%nat := sample_meta]} : gmap loc dict)
    !! fresh (dom ({[0%nat := sample_meta]} : gmap loc dict)) = None.
Proof.
  apply (png2list_allocates_only
           (fun _ => Ok (2, 2, flat_rows sample_image, {["planes" := VInt 3]}))
           "a.png" 2 2 (flat_rows sample_image) {["planes" := VInt 3]}).
  reflexivity.
Defined.

Lemma partition_sample_cases (pixels : list (list Z)) (y i : Z) :
  let sample := (row ← getitem pixels y; getitem row i) : result Z in
  sample = Raise IndexError \/ exists a, sample = Ok a.
Proof.
  cbv zeta. apply bind_cases; [apply getitem_cases|]. intros row.
  apply getitem_cases.
Qed.

(** The image cannot be built from rows that are too few or too short. *)
Lemma partition_short (pixels : list (list Z)) (X Y Z_ : Z) (y : nat) :
  Z.of_nat y < Y ->
  0 < X -> 0 < Z_ ->
  (pixels !! y = None \/
   exists row, pixels !! y = Some row /\ len row < X * Z_) ->
  comprehension (fun y =>
    comprehension (fun x =>
      comprehension (fun z =>
        (row ← getitem pixels y;
         getitem row (x * Z_ + z)) : result Z)
      (range Z_))
    (range X))
  (range Y)
  = Raise IndexError.
Proof.
  intros Hy HX HZ Hshort.
  assert (exists x z, 0 <= x < X /\ 0 <= z < Z_ /\
            ((row ← getitem pixels (Z.of_nat y);
              getitem row (x * Z_ + z)) : result Z) = Raise IndexError)
    as (x & z & Hx & Hz & Hraise).
  { destruct Hshort as [Hnone | (row & Hrow & Hlen)].
    - exists 0, 0. repeat split; [lia..|].
      rewrite getitem_nonneg by lia. by rewrite Nat2Z.id, Hnone.
    - exists (len row / Z_), (len row mod Z_).
      pose proof (Z.mod_pos_bound (len row) Z_ HZ).
      assert (0 <= len row) by (unfold len; lia).
      pose proof (Z.div_pos (len row) Z_).
      assert (len row / Z_ < X) by (apply Z.div_lt_upper_bound; lia).
      repeat split; [lia..|].
      rewrite (getitem_of_nat _ _ _ Hrow). cbn.
      rewrite getitem_nonneg by nia.
      rewrite lookup_ge_None_2; [reflexivity|].
      pose proof (Z.div_mod (len row) Z_). unfold len in *. lia. }
  apply (comprehension_raises _ _ _ (Z.of_nat y)).
  - intros y' _. apply comprehension_cases. intros x' _.
    apply comprehension_cases. intros z' _. apply partition_sample_cases.
  - apply elem_of_range. lia.
  - apply (comprehension_raises _ _ _ x).
    + intros x' _. apply comprehension_cases. intros z' _.
      apply partition_sample_cases.
    + by apply elem_of_range.
    + apply (comprehension_raises _ _ _ z).
      * intros z' _. apply partition_sample_cases.
      * by apply elem_of_range.
      * exact Hraise.
Qed.

(** X9. [png2list] relies on the reader for the shape of the rows: when a
    row that the size announces is missing, or is shorter than width times
    planes, it raises [IndexError], whatever the bit depth. *)
Theorem png2list_short_rows
    (Reader_asDirect : string -> result (Z * Z * list (list Z) * dict))
    (in_filename : string) (X Y Z_ : Z) (bitdepth : value)
    (pixels : list (list Z)) (chunks : dict) (y : nat) (w : world) :
  Reader_asDirect in_filename = Ok (X, Y, pixels, chunks) ->
  chunks !! "planes" = Some (VInt Z_) ->
  chunks !! "bitdepth" = Some bitdepth ->
  0 < X -> 0 < Z_ ->
  Z.of_nat y < Y ->
  (pixels !! y = None \/
   exists row, pixels !! y = Some row /\ len row < X * Z_) ->
  (pnglpng.png2list Reader_asDirect in_filename w).1 = Raise IndexError.
Proof.
  intros Hread Hplanes Hbits HX HZ Hy Hshort. destruct w as [h t].
  unfold pnglpng.png2list.
  rewrite Hread. rewrite (bind_Ok _ _ _ _ _ (lift_run _ _)).
  rewrite (bind_Ok _ _ _ _ _ (alloc_run _ _ _)).
  rewrite (bind_Ok _ _ _ _ _ (dict_get_run _ _ _ _ _ _ Hplanes)).
  rewrite !(bind_Ok _ _ _ _ _ (dict_get_run _ _ _ _ _ _ Hbits)).
  cbv zeta. cbn [as_int]. rewrite (bind_Ok _ _ _ _ _ (lift_run _ _)).
  rewrite (partition_short _ _ _ _ y Hy HX HZ Hshort).
  by rewrite (bind_Raise _ _ _ _ _ (lift_run _ _)).
Qed.

Lemma png2list_short_rows_witness :
  (pnglpng.png2list (sample_reader [[1; 2; 3; 4; 5; 6]; [7; 8; 9; 10; 11]] 3)
     "a.png" (World ∅ [])).1 = Raise IndexError.
Proof.
  apply (png2list_short_rows
           (sample_reader [[1; 2; 3; 4; 5; 6]; [7; 8; 9; 10; 11]] 3)
           "a.png" 2 2 3 (VInt 8) [[1; 2; 3; 4; 5; 6]; [7; 8; 9; 10; 11]]
           (<["planes" := VInt 3]> {["bitdepth" := VInt 8]}) 1%nat).
  - reflexivity.
  - vm_compute. reflexivity.
  - vm_compute. reflexivity.
  - lia.
  - lia.
  - lia.
  - right. exists [7; 8; 9; 10; 11]. split; reflexivity.
Defined.

Lemma lookup_fmap_range {B} (g : Z -> B) (n : Z) (i : nat) (b : B) :
  (g <$> range n) !! i = Some b -> b = g (Z.of_nat i) /\ Z.of_nat i < n.
Proof.
  unfold range. rewrite list_lookup_fmap.
  destruct (seqZ 0 n !! i) as [j|] eqn:Hj; [|discriminate].
  apply lookup_seqZ in Hj as [-> Hi]. intros [= <-].
  split; [f_equal; lia|done].
Qed.

Lemma partition_rectangular pixels Y X Z_ :
  len pixels = Y -> 0 <= X -> 0 <= Z_ ->
  rectangular (partition X Y Z_ pixels) Y X Z_.
Proof.
  intros HY HX HZ. unfold partition, rectangular, range, len in *.
  rewrite length_fmap, length_seqZ. split; [lia|].
  apply Forall_fmap, Forall_forall. intros y _. cbn.
  rewrite length_fmap, length_seqZ. split; [lia|].
  apply Forall_fmap, Forall_forall. intros x _. cbn.
  rewrite length_fmap, length_seqZ. lia.
Qed.

(** Flattening undoes the cutting of rows into pixels. *)
Lemma flat_rows_partition pixels Y X Z_ :
  scanlines pixels Y X Z_ -> 0 <= X -> 0 < Z_ ->
  flat_rows (partition X Y Z_ pixels) = pixels.
Proof.
  intros Hscan HX HZ.
  pose proof (partition_rectangular pixels Y X Z_ (proj1 Hscan) HX
                (Z.lt_le_incl _ _ HZ)) as Hrect.
  pose proof (flat_rows_scanlines _ _ _ _ Hrect) as Hflat.
  destruct Hscan as [HY Hrows], Hflat as [HY' Hrows'].
  apply (list_eq_same_length _ _ (Z.to_nat Y)); [unfold len in *; lia..|].
  intros y flat row _ Hflat Hrow.
  rewrite Forall_lookup in Hrows, Hrows'.
  pose proof (Hrows y row Hrow) as Hlen.
  pose proof (Hrows' y flat Hflat) as Hlen'.
  apply (list_eq_same_length _ _ (Z.to_nat (X * Z_)));
    [unfold len in *; lia..|].
  intros k a b _ Ha Hb.
  unfold flat_rows in Hflat. rewrite list_lookup_fmap in Hflat.
  destruct (partition X Y Z_ pixels !! y) as [cut|] eqn:Hcut; [|discriminate].
  injection Hflat as <-.
  destruct (rectangular_row _ _ _ _ _ _ Hrect Hcut) as [_ Hpix].
  apply (join_lookup_Some_same_length (Z.to_nat Z_)) in Ha
    as (x & pixel & z & Hpixel & Hz & ->).
  2:{ eapply Forall_impl; [exact Hpix|]. intros px Hpx. cbn in Hpx.
      unfold len in Hpx. lia. }
  unfold partition in Hcut.
  apply lookup_fmap_range in Hcut as [-> _].
  apply lookup_fmap_range in Hpixel as [-> _].
  apply lookup_fmap_range in Hz as [-> Hzlt].
  unfold flat_sample. rewrite Nat2Z.id.
  rewrite (list_lookup_total_correct _ _ _ Hrow).
  replace (Z.to_nat (Z.of_nat x * Z_ + Z.of_nat z))
    with (x * Z.to_nat Z_ + z)%nat by nia.
  by apply list_lookup_total_correct.
Qed.

(** X10. Decoding and encoding again is the identity on the rows: when an
    image of 1 to 4 planes is read with [png2list] and written back with
    [list2png] as it is, the writer is handed the width, the height and the
    very rows that the reader delivered. *)
Theorem decode_then_encode
    (Reader_asDirect : string -> result (Z * Z * list (list Z) * dict))
    (in_filename out_filename : string) (X Y Z_ bitdepth maxcolors : Z)
    (pixels : list (list Z)) (chunks : dict) (w : world) :
  Reader_asDirect in_filename = Ok (X, Y, pixels, chunks) ->
  chunks !! "planes" = Some (VInt Z_) ->
  chunks !! "bitdepth" = Some (VInt bitdepth) ->
  maxcolors_of bitdepth = Some maxcolors ->
  scanlines pixels Y X Z_ ->
  0 < Y -> 0 < X -> 1 <= Z_ <= 4 ->
  exists kwargs w1,
    ('(_, _, _, _, list_3d, info) ←
       pnglpng.png2list Reader_asDirect in_filename;
     pnglpng.list2png out_filename list_3d info) w = (Ok tt, w1) /\
    trace w1 = trace w ++ [Open_wb out_filename;
                           Writer_write out_filename X Y kwargs pixels] /\
    kwargs !! "planes" = Some (VInt Z_).
Proof.
  intros Hread Hplanes Hbits Hmax Hscan HY HX HZ. destruct w as [h t].
  pose proof (partition_rectangular pixels Y X Z_ (proj1 Hscan)) as Hrect.
  pose proof (png2list_run _ _ _ _ _ _ _ _ h t Hread Hplanes Hbits Hscan)
    as Hdecode.
  rewrite Hmax in Hdecode.
  eexists _, _. split.
  - rewrite (bind_Ok _ _ _ _ _ Hdecode). cbv beta iota.
    apply (list2png_run out_filename _ _ Y X Z_); [apply Hrect; lia|done..|].
    apply lookup_insert_eq.
  - cbn [trace]. rewrite Z.min_l by lia.
    rewrite (first_channels_all _ Y X Z_) by (apply Hrect; lia).
    rewrite (flat_rows_partition _ _ _ _ Hscan) by lia.
    split; [reflexivity|apply derived_info_planes].
Qed.

Lemma decode_then_encode_witness :
  exists kwargs w1,
    ('(_, _, _, _, list_3d, info) ←
       pnglpng.png2list
         (sample_reader [[1; 2; 3; 4; 5; 6]; [7; 8; 9; 10; 11; 12]] 3) "a.png";
     pnglpng.list2png "b.png" list_3d info) (World ∅ []) = (Ok tt, w1) /\
    trace w1 = trace (World ∅ [])
               ++ [Open_wb "b.png";
                   Writer_write "b.png" 2 2 kwargs
                     [[1; 2; 3; 4; 5; 6]; [7; 8; 9; 10; 11; 12]]] /\
    kwargs !! "planes" = Some (VInt 3).
Proof.
  apply (decode_then_encode
           (sample_reader [[1; 2; 3; 4; 5; 6]; [7; 8; 9; 10; 11; 12]] 3)
           "a.png" "b.png" 2 2 3 8 255
           [[1; 2; 3; 4; 5; 6]; [7; 8; 9; 10; 11; 12]]
           (<["planes" := VInt 3]> {["bitdepth" := VInt 8]})).
  - reflexivity.
  - vm_compute. reflexivity.
  - vm_compute. reflexivity.
  - reflexivity.
  - split; [reflexivity | repeat constructor].
  - lia.
  - lia.
  - lia.
Defined.

(** X11. [create_image] builds an image of the size it is asked for, every
    sample of which is 0. *)
Theorem create_image_shape (X Y Z_ : Z) :
  0 <= X -> 0 <= Y -> 0 <= Z_ ->
  rectangular (pnglpng.create_image X Y Z_) Y X Z_ /\
  Forall (Forall (Forall (fun sample => sample = 0)))
    (pnglpng.create_image X Y Z_).
Proof.
  intros HX HY HZ. unfold pnglpng.create_image, rectangular, range, len.
  split.
  - rewrite length_fmap, length_seqZ. split; [lia|].
    apply Forall_fmap, Forall_forall. intros y _. cbn.
    rewrite length_fmap, length_seqZ. split; [lia|].
    apply Forall_fmap, Forall_forall. intros x _. cbn.
    rewrite length_fmap, length_seqZ. lia.
  - apply Forall_fmap, Forall_forall. intros y _. cbn.
    apply Forall_fmap, Forall_forall. intros x _. cbn.
    apply Forall_fmap, Forall_forall. by intros z _.
Qed.

Lemma create_image_shape_witness :
  rectangular (pnglpng.create_image 3 2 4) 2 3 4 /\
  Forall (Forall (Forall (fun sample => sample = 0)))
    (pnglpng.create_image 3 2 4).
Proof.
  apply (create_image_shape 3 2 4); lia.
Defined.

(** * Further properties of the drivers *)

Lemma call_scaler_unbound s2 s3 x2 x3 size sfx image3d w :
  size <> 2 -> size <> 3 ->
  ScaleNxGUI.call_scaler s2 s3 x2 x3 size sfx image3d w
  = (Raise (UnboundLocalError "chosen_scaler"), w).
Proof.
  intros H2 H3. unfold ScaleNxGUI.call_scaler, ScaleNxGUI.chosen_scaler.
  rewrite (proj2 (Z.eqb_neq _ _) H2), (proj2 (Z.eqb_neq _ _) H3).
  by destruct sfx.
Qed.

(** X12. The scaler is chosen for the sizes 2 and 3 only.  With any other
    size both task functions read their file and then raise
    [UnboundLocalError]: nothing is written, and the file stays as it
    was. *)
Theorem unbound_scaler
    (Reader_asDirect : string -> result (Z * Z * list (list Z) * dict))
    (pnm2list : string -> result (Z * Z * Z * Z * image))
    (scale2x scale3x scale2xsfx scale3xsfx : image -> result image)
    (png pnm : string) (size : Z) (sfx : bool)
    (X Y Z_ bitdepth maxcolors : Z) (pixels : list (list Z)) (chunks : dict)
    (X' Y' Z' maxcolors' : Z) (image3d : image) (w : world) :
  size <> 2 -> size <> 3 ->
  Reader_asDirect png = Ok (X, Y, pixels, chunks) ->
  chunks !! "planes" = Some (VInt Z_) ->
  chunks !! "bitdepth" = Some (VInt bitdepth) ->
  maxcolors_of bitdepth = Some maxcolors ->
  scanlines pixels Y X Z_ ->
  pnm2list pnm = Ok (X', Y', Z', maxcolors', image3d) ->
  (ScaleNxGUI.scale_file_png Reader_asDirect
     scale2x scale3x scale2xsfx scale3xsfx png size sfx w).1
  = Raise (UnboundLocalError "chosen_scaler") /\
  trace (ScaleNxGUI.scale_file_png Reader_asDirect
           scale2x scale3x scale2xsfx scale3xsfx png size sfx w).2
  = trace w /\
  ScaleNxGUI.scale_file_pnm pnm2list
    scale2x scale3x scale2xsfx scale3xsfx pnm size sfx w
  = (Raise (UnboundLocalError "chosen_scaler"), w).
Proof.
  intros H2 H3 Hread Hplanes Hbits Hmax Hscan Hpnm. destruct w as [h t].
  pose proof (png2list_run _ _ _ _ _ _ _ _ h t Hread Hplanes Hbits Hscan)
    as Hdecode.
  rewrite Hmax in Hdecode.
  unfold ScaleNxGUI.scale_file_png, ScaleNxGUI.scale_file_pnm.
  rewrite (bind_Ok _ _ _ _ _ Hdecode). cbv beta iota zeta.
  rewrite (bind_Raise _ _ _ _ _ (call_scaler_unbound _ _ _ _ _ _ _ _ H2 H3)).
  rewrite Hpnm, (bind_Ok _ _ _ _ _ (lift_run _ _)). cbv beta iota.
  rewrite (bind_Raise _ _ _ _ _ (call_scaler_unbound _ _ _ _ _ _ _ _ H2 H3)).
  by repeat split.
Qed.

Lemma unbound_scaler_witness :
  (ScaleNxGUI.scale_file_png sample_reader_physical
     (sample_scaler 2) (sample_scaler 3) (sample_scaler 2) (sample_scaler 3)
     "a.png" 4 false (World ∅ [])).1
  = Raise (UnboundLocalError "chosen_scaler") /\
  trace (ScaleNxGUI.scale_file_png sample_reader_physical
           (sample_scaler 2) (sample_scaler 3) (sample_scaler 2)
           (sample_scaler 3) "a.png" 4 false (World ∅ [])).2
  = trace (World ∅ []) /\
  ScaleNxGUI.scale_file_pnm sample_pnm
    (sample_scaler 2) (sample_scaler 3) (sample_scaler 2) (sample_scaler 3)
    "b.pgm" 4 false (World ∅ [])
  = (Raise (UnboundLocalError "chosen_scaler"), World ∅ []).
Proof.
  apply (unbound_scaler sample_reader_physical sample_pnm
           (sample_scaler 2) (sample_scaler 3) (sample_scaler 2)
           (sample_scaler 3) "a.png" "b.pgm" 4 false 2 2 3 8 255
           (flat_rows sample_image)
           (<["physical" := VTuple [VInt 2835; VInt 2835; VBool true]]>
              (<["compression" := VInt 1]>
                 (<["planes" := VInt 3]> {["bitdepth" := VInt 8]})))
           2 2 1 1 [ [ [0]; [1] ]; [ [1]; [0] ] ]).
  - lia.
  - lia.
  - reflexivity.
  - vm_compute. reflexivity.
  - vm_compute. reflexivity.
  - reflexivity.
  - split; [reflexivity | repeat constructor].
  - reflexivity.
Defined.

(** X13. A physical record of fewer than three items makes the resolution
    fix raise [IndexError], and the record is left as it was. *)
Theorem fix_resolution_short_record
    (size : Z) (info : loc) (d : dict) (physical : value)
    (items : list value) (h : gmap loc dict) (t : list event) :
  h !! info = Some d ->
  d !! "physical" = Some physical ->
  physical = VTuple items \/ physical = VList items ->
  (length items < 3)%nat ->
  ScaleNxGUI.fix_resolution size info (World h t)
  = (Raise IndexError, World h t).
Proof.
  intros Hd Hphysical Hitems Hshort.
  rewrite <- (insert_id h info d Hd).
  unfold ScaleNxGUI.fix_resolution.
  rewrite (bind_Ok _ _ _ _ _ (dict_contains_run _ _ _ _ _)).
  rewrite bool_decide_eq_true_2 by eauto.
  erewrite bind_Raise; [reflexivity|].
  rewrite (bind_Ok _ _ _ _ _ (dict_get_run _ _ _ _ _ _ Hphysical)).
  destruct items as [|x [|y [|u items]]]; [| | |cbn in Hshort; lia];
    destruct Hitems as [-> | ->]; reflexivity.
Qed.

Lemma fix_resolution_short_record_witness :
  ScaleNxGUI.fix_resolution 2 0%nat (World {[0%nat := short_physical]} [])
  = (Raise IndexError, World {[0%nat := short_physical]} []).
Proof.
  apply (fix_resolution_short_record 2 0%nat short_physical
           (VTuple [VInt 2835; VInt 2835]) [VInt 2835; VInt 2835]).
  - vm_compute. reflexivity.
  - vm_compute. reflexivity.
  - left. reflexivity.
  - simpl. lia.
Defined.

(** X14. Resolution fixes compose by multiplying: when a fix for the
    factor [N] leaves the record [(a, b, u)], a following fix for the factor
    [M] leaves [(M * a, M * b, u)], and the compression stays 9. *)
Theorem fix_resolution_twice
    (N M : Z) (info : loc) (d : dict) (a b : Z) (u : value)
    (h : gmap loc dict) (t : list event) :
  h !! info = Some d ->
  resolution_law N (d !! "physical") = Some (VList [VInt a; VInt b; u]) ->
  exists d1 d2,
    ScaleNxGUI.fix_resolution N info (World h t)
    = (Ok tt, World (<[info := d1]> h) t) /\
    d1 !! "physical" = Some (VList [VInt a; VInt b; u]) /\
    (ScaleNxGUI.fix_resolution N info;; ScaleNxGUI.fix_resolution M info)
      (World h t)
    = (Ok tt, World (<[info := d2]> h) t) /\
    d2 !! "physical" = Some (VList [VInt (M * a); VInt (M * b); u]) /\
    d2 !! "compression" = Some (VInt 9).
Proof.
  intros Hd Hlaw.
  pose proof (fix_resolution_run N info d h t _ Hlaw) as Hrun1.
  rewrite (insert_id h info d Hd) in Hrun1.
  eexists _, _. split; [exact Hrun1|].
  split; [by simplify_map_eq|].
  rewrite (bind_Ok _ _ _ _ _ Hrun1).
  split; [|split].
  - apply fix_resolution_run. by simplify_map_eq.
  - by simplify_map_eq.
  - by simplify_map_eq.
Qed.

Lemma fix_resolution_twice_witness :
  exists d1 d2,
    ScaleNxGUI.fix_resolution 2 0%nat (World {[0%nat := sample_meta]} [])
    = (Ok tt, World (<[0%nat := d1]> {[0%nat := sample_meta]}) []) /\
    d1 !! "physical" = Some (VList [VInt 7560; VInt 7560; VBool true]) /\
    (ScaleNxGUI.fix_resolution 2 0%nat;; ScaleNxGUI.fix_resolution 3 0%nat)
      (World {[0%nat := sample_meta]} [])
    = (Ok tt, World (<[0%nat := d2]> {[0%nat := sample_meta]}) []) /\
    d2 !! "physical"
    = Some (VList [VInt (3 * 7560); VInt (3 * 7560); VBool true]) /\
    d2 !! "compression" = Some (VInt 9).
Proof.
  apply (fix_resolution_twice 2 3 0%nat sample_meta 7560 7560 (VBool true)).
  - vm_compute. reflexivity.
  - vm_compute. reflexivity.
Defined.

(** The batch task on a PNG file, when every step succeeds. *)
Lemma scale_file_png_run
    (Reader_asDirect : string -> result (Z * Z * list (list Z) * dict))
    (scale2x scale3x scale2xsfx scale3xsfx : image -> result image)
    (src : string) (N : Z) (sfx : bool)
    (X Y Z_ bitdepth maxcolors : Z) (pixels : list (list Z)) (chunks : dict)
    (scaled : image) (Y' X' Z' : Z) (record : value)
    (h : gmap loc dict) (t : list event) :
  N = 2 \/ N = 3 ->
  Reader_asDirect src = Ok (X, Y, pixels, chunks) ->
  chunks !! "planes" = Some (VInt Z_) ->
  chunks !! "bitdepth" = Some (VInt bitdepth) ->
  maxcolors_of bitdepth = Some maxcolors ->
  scanlines pixels Y X Z_ ->
  (forall scaler,
     ScaleNxGUI.chosen_scaler scale2x scale3x scale2xsfx scale3xsfx N sfx
     = Some scaler ->
     scaler (partition X Y Z_ pixels) = Ok scaled) ->
  rectangular scaled Y' X' Z' ->
  0 < Y' -> 0 < X' ->
  resolution_law N (chunks !! "physical") = Some record ->
  let kwargs :=
    derived_info X' Y' (Z.min Z' 4)
      (<["compression" := VInt 9]> (<["physical" := record]> chunks)) in
  ScaleNxGUI.scale_file_png Reader_asDirect
    scale2x scale3x scale2xsfx scale3xsfx src N sfx (World h t)
  = (Ok tt,
     World (<[fresh (dom h) := kwargs]> h)
       (t ++ [Open_wb src;
              Writer_write src X' Y' kwargs
                (flat_rows (first_channels (Z.min Z' 4) scaled))])).
Proof.
  intros HN Hread Hplanes Hbits Hmax Hscan Hscaler Hrect HY HX Hlaw kwargs.
  pose proof (png2list_run _ _ _ _ _ _ _ _ h t Hread Hplanes Hbits Hscan)
    as Hdecode.
  rewrite Hmax in Hdecode.
  unfold ScaleNxGUI.scale_file_png. cbv zeta.
  rewrite (bind_Ok _ _ _ _ _ Hdecode). cbv beta iota.
  rewrite (bind_Ok _ _ _ _ _ (call_scaler_run _ _ _ _ _ _ _ _ _ HN Hscaler)).
  rewrite (bind_Ok _ _ _ _ _ (fix_resolution_run _ _ _ _ _ _ Hlaw)).
  rewrite (list2png_run src scaled _ Y' X' Z' _ _ _ Hrect HY HX
             (lookup_insert_eq _ _ _)).
  cbv zeta. by rewrite insert_insert_eq.
Qed.

Ltac not_a_rewritten_key :=
  let H := fresh in
  intros H;
  match goal with
  | Hk : _ ∉ _ |- _ => apply Hk
  end;
  repeat (apply elem_of_cons in H as [H|H];
          [subst; repeat constructor|]);
  by apply elem_of_nil in H.

(** X15. Unknown metadata pass through a batch task untouched: every key
    of the decoded metadata other than the six that [list2png] rewrites and
    the two that the driver sets reaches the writer with the value that the
    reader gave it. *)
Theorem ancillary_keys_pass_through
    (Reader_asDirect : string -> result (Z * Z * list (list Z) * dict))
    (scale2x scale3x scale2xsfx scale3xsfx : image -> result image)
    (src : string) (N : Z) (sfx : bool)
    (X Y Z_ bitdepth maxcolors : Z) (pixels : list (list Z)) (chunks : dict)
    (scaled : image) (Y' X' Z' : Z) (record : value) (w : world) :
  N = 2 \/ N = 3 ->
  Reader_asDirect src = Ok (X, Y, pixels, chunks) ->
  chunks !! "planes" = Some (VInt Z_) ->
  chunks !! "bitdepth" = Some (VInt bitdepth) ->
  maxcolors_of bitdepth = Some maxcolors ->
  scanlines pixels Y X Z_ ->
  (forall scaler,
     ScaleNxGUI.chosen_scaler scale2x scale3x scale2xsfx scale3xsfx N sfx
     = Some scaler ->
     scaler (partition X Y Z_ pixels) = Ok scaled) ->
  rectangular scaled Y' X' Z' ->
  0 < Y' -> 0 < X' ->
  resolution_law N (chunks !! "physical") = Some record ->
  exists kwargs rows w1,
    ScaleNxGUI.scale_file_png Reader_asDirect
      scale2x scale3x scale2xsfx scale3xsfx src N sfx w = (Ok tt, w1) /\
    trace w1 = trace w ++ [Open_wb src; Writer_write src X' Y' kwargs rows] /\
    kwargs !! "bitdepth" = Some (VInt bitdepth) /\
    forall k : string,
      k ∉ ["size"; "planes"; "palette"; "background"; "alpha"; "greyscale";
           "physical"; "compression"] ->
      kwargs !! k = chunks !! k.
Proof.
  intros HN Hread Hplanes Hbits Hmax Hscan Hscaler Hrect HY HX Hlaw.
  destruct w as [h t].
  pose proof (scale_file_png_run _ _ _ _ _ _ _ _ _ _ _ _ _ _ _ _ _ _ _ _ h t
                HN Hread Hplanes Hbits Hmax Hscan Hscaler Hrect HY HX Hlaw)
    as Hrun.
  cbv zeta in Hrun. eexists _, _, _. split; [exact Hrun|].
  split; [reflexivity|].
  assert (forall k : string,
            k ∉ ["size"; "planes"; "palette"; "background"; "alpha";
                 "greyscale"; "physical"; "compression"] ->
            derived_info X' Y' (Z.min Z' 4)
              (<["compression" := VInt 9]> (<["physical" := record]> chunks))
              !! k = chunks !! k) as Hkeys.
  { intros k Hk. rewrite derived_info_other by not_a_rewritten_key.
    rewrite !lookup_insert_ne; [reflexivity|..];
      intros <-; apply Hk; repeat constructor. }
  split; [|exact Hkeys].
  rewrite Hkeys; [exact Hbits|]. not_a_derived_key.
Qed.

Lemma ancillary_keys_pass_through_witness :
  exists kwargs rows w1,
    ScaleNxGUI.scale_file_png sample_reader_physical
      (sample_scaler 2) (sample_scaler 3) (sample_scaler 2) (sample_scaler 3)
      "a.png" 2 false (World ∅ []) = (Ok tt, w1) /\
    trace w1 = trace (World ∅ [])
               ++ [Open_wb "a.png"; Writer_write "a.png" 4 4 kwargs rows] /\
    kwargs !! "bitdepth" = Some (VInt 8) /\
    forall k : string,
      k ∉ ["size"; "planes"; "palette"; "background"; "alpha"; "greyscale";
           "physical"; "compression"] ->
      kwargs !! k
      = (<["physical" := VTuple [VInt 2835; VInt 2835; VBool true]]>
           (<["compression" := VInt 1]>
              (<["planes" := VInt 3]> {["bitdepth" := VInt 8]})) : dict) !! k.
Proof.
  apply (ancillary_keys_pass_through sample_reader_physical
           (sample_scaler 2) (sample_scaler 3) (sample_scaler 2)
           (sample_scaler 3) "a.png" 2 false 2 2 3 8 255
           (flat_rows sample_image)
           (<["physical" := VTuple [VInt 2835; VInt 2835; VBool true]]>
              (<["compression" := VInt 1]>
                 (<["planes" := VInt 3]> {["bitdepth" := VInt 8]})))
           sample_scaled 4 4 3
           (VList [VInt 5670; VInt 5670; VBool true]) (World ∅ [])).
  - left. reflexivity.
  - reflexivity.
  - vm_compute. reflexivity.
  - vm_compute. reflexivity.
  - reflexivity.
  - split; [reflexivity | repeat constructor].
  - intros scaler H. injection H as <-. vm_compute. reflexivity.
  - split; [reflexivity | repeat constructor].
  - lia.
  - lia.
  - vm_compute. reflexivity.
Defined.

(** X16. Both task functions work in place: whatever the file holds and
    whatever the scalers do, and whether the task returns or raises, the
    only file that it opens or writes is the one it was given. *)
Theorem tasks_write_in_place
    (Reader_asDirect : string -> result (Z * Z * list (list Z) * dict))
    (pnm2list : string -> result (Z * Z * Z * Z * image))
    (scale2x scale3x scale2xsfx scale3xsfx : image -> result image)
    (runningfilename : string) (size : Z) (sfx : bool) (w : world) :
  exists evs1 evs2,
    trace (ScaleNxGUI.scale_file_png Reader_asDirect
             scale2x scale3x scale2xsfx scale3xsfx
             runningfilename size sfx w).2 = trace w ++ evs1 /\
    Forall (fun f => f = runningfilename) (written evs1) /\
    trace (ScaleNxGUI.scale_file_pnm pnm2list
             scale2x scale3x scale2xsfx scale3xsfx
             runningfilename size sfx w).2 = trace w ++ evs2 /\
    Forall (fun f => f = runningfilename) (written evs2).
Proof.
  destruct (run_task_writes_only Reader_asDirect pnm2list
              scale2x scale3x scale2xsfx scale3xsfx
              (Task Scale_file_png runningfilename size sfx) w)
    as (evs1 & Htrace1 & Hfiles1).
  destruct (run_task_writes_only Reader_asDirect pnm2list
              scale2x scale3x scale2xsfx scale3xsfx
              (Task Scale_file_pnm runningfilename size sfx) w)
    as (evs2 & Htrace2 & Hfiles2).
  exists evs1, evs2. repeat split; [exact Htrace1| |exact Htrace2|].
  - eapply Forall_impl; [exact Hfiles1|].
    intros f Hf. by apply list_elem_of_singleton in Hf.
  - eapply Forall_impl; [exact Hfiles2|].
    intros f Hf. by apply list_elem_of_singleton in Hf.
Qed.

(** X17. A task whose file cannot be read fails with the exception of the
    reader and has no effect: nothing is allocated, nothing is written. *)
Theorem task_read_failure
    (Reader_asDirect : string -> result (Z * Z * list (list Z) * dict))
    (pnm2list : string -> result (Z * Z * Z * Z * image))
    (scale2x scale3x scale2xsfx scale3xsfx : image -> result image)
    (png pnm : string) (e1 e2 : exn) (size : Z) (sfx : bool) (w : world) :
  Reader_asDirect png = Raise e1 ->
  pnm2list pnm = Raise e2 ->
  ScaleNxGUI.scale_file_png Reader_asDirect
    scale2x scale3x scale2xsfx scale3xsfx png size sfx w = (Raise e1, w) /\
  ScaleNxGUI.scale_file_pnm pnm2list
    scale2x scale3x scale2xsfx scale3xsfx pnm size sfx w = (Raise e2, w).
Proof.
  intros Hpng Hpnm.
  unfold ScaleNxGUI.scale_file_png, ScaleNxGUI.scale_file_pnm. cbv zeta.
  rewrite (bind_Raise _ _ _ _ _
             (reader_error_run _ _ _ _ Hpng)).
  rewrite Hpnm, (bind_Raise _ _ _ _ _ (lift_run _ _)).
  by split.
Qed.

Lemma task_read_failure_witness :
  ScaleNxGUI.scale_file_png failing_reader
    (sample_scaler 2) (sample_scaler 3) (sample_scaler 2) (sample_scaler 3)
    "a.png" 2 false (World ∅ [])
  = (Raise (ValueError "not a PNG file"), World ∅ []) /\
  ScaleNxGUI.scale_file_pnm no_pnm
    (sample_scaler 2) (sample_scaler 3) (sample_scaler 2) (sample_scaler 3)
    "b.pgm" 2 false (World ∅ [])
  = (Raise (ValueError "not a PNM file"), World ∅ []).
Proof.
  apply (task_read_failure failing_reader no_pnm
           (sample_scaler 2) (sample_scaler 3) (sample_scaler 2)
           (sample_scaler 3) "a.png" "b.pgm").
  - reflexivity.
  - reflexivity.
Defined.

(** X18. The batch task on a PNM file, when it succeeds, hands the PNM
    writer the file it read, the scaled image and the [maxcolors] that the
    reader reported, and touches no dict. *)
Theorem scale_file_pnm_in_place
    (pnm2list : string -> result (Z * Z * Z * Z * image))
    (scale2x scale3x scale2xsfx scale3xsfx : image -> result image)
    (runningfilename : string) (size : Z) (sfx : bool)
    (X Y Z_ maxcolors : Z) (image3d scaled : image) (w : world) :
  size = 2 \/ size = 3 ->
  pnm2list runningfilename = Ok (X, Y, Z_, maxcolors, image3d) ->
  (forall scaler,
     ScaleNxGUI.chosen_scaler scale2x scale3x scale2xsfx scale3xsfx size sfx
     = Some scaler ->
     scaler image3d = Ok scaled) ->
  ScaleNxGUI.scale_file_pnm pnm2list
    scale2x scale3x scale2xsfx scale3xsfx runningfilename size sfx w
  = (Ok tt,
     World (heap w)
       (trace w ++ [List2pnm runningfilename scaled maxcolors])).
Proof.
  intros Hsize Hread Hscaler. destruct w as [h t].
  unfold ScaleNxGUI.scale_file_pnm. cbv zeta.
  rewrite Hread, (bind_Ok _ _ _ _ _ (lift_run _ _)). cbv beta iota.
  rewrite (bind_Ok _ _ _ _ _
             (call_scaler_run _ _ _ _ _ _ _ _ _ Hsize Hscaler)).
  reflexivity.
Qed.

Lemma scale_file_pnm_in_place_witness :
  ScaleNxGUI.scale_file_pnm sample_pnm
    (sample_scaler 2) (sample_scaler 3) (sample_scaler 2) (sample_scaler 3)
    "art/b.pgm" 2 true (World ∅ [])
  = (Ok tt,
     World (heap (World ∅ []))
       (trace (World ∅ [])
          ++ [List2pnm "art/b.pgm"
                [ [ [0]; [0]; [1]; [1] ]; [ [0]; [0]; [1]; [1] ];
                  [ [1]; [1]; [0]; [0] ]; [ [1]; [1]; [0]; [0] ] ] 1])).
Proof.
  apply (scale_file_pnm_in_place sample_pnm
           (sample_scaler 2) (sample_scaler 3) (sample_scaler 2)
           (sample_scaler 3) "art/b.pgm" 2 true 2 2 1 1
           [ [ [0]; [1] ]; [ [1]; [0] ] ]).
  - left. reflexivity.
  - reflexivity.
  - intros scaler H. injection H as <-. vm_compute. reflexivity.
Defined.

(** ** The single-file driver and the dialogs *)

(** X19. A cancelled dialog ends the command at once: when no folder is
    chosen [FolderNx] creates no pool and submits nothing, and when no
    source file is chosen [FileNx] reads nothing; both put the window back
    to its normal state. *)
Theorem cancelled_dialog
    (Reader_asDirect : string -> result (Z * Z * list (list Z) * dict))
    (pnm2list : string -> result (Z * Z * Z * Z * image))
    (scale2x scale3x scale2xsfx scale3xsfx : image -> result image)
    (size : Z) (sfx : bool) (tree : list string) (resultfilename : string)
    (w : world) :
  ScaleNxGUI.FolderNx size sfx EmptyString tree w
  = (Ok tt, World (heap w) (trace w ++ [UIWaiting; UINormal])) /\
  ScaleNxGUI.FileNx Reader_asDirect pnm2list
    scale2x scale3x scale2xsfx scale3xsfx size sfx EmptyString resultfilename w
  = (Ok tt, World (heap w) (trace w ++ [UIWaiting; UINormal])).
Proof.
  destruct w as [h t]. unfold ScaleNxGUI.FolderNx, ScaleNxGUI.FileNx.
  rewrite !(bind_Ok _ _ _ _ _ (emit_run _ _ _)).
  rewrite !bool_decide_eq_true_2 by reflexivity.
  rewrite !emit_run, <- !app_assoc. by split.
Qed.

Lemma FileNx_extension_run
    (Reader_asDirect : string -> result (Z * Z * list (list Z) * dict))
    (pnm2list : string -> result (Z * Z * Z * Z * image))
    (scale2x scale3x scale2xsfx scale3xsfx : image -> result image)
    (size : Z) (sfx : bool) (sourcefilename resultfilename : string)
    (w : world) :
  sourcefilename <> EmptyString ->
  ScaleNxGUI.suffix sourcefilename ∉ [".png"; ".ppm"; ".pgm"; ".pbm"] ->
  ScaleNxGUI.FileNx Reader_asDirect pnm2list
    scale2x scale3x scale2xsfx scale3xsfx size sfx
    sourcefilename resultfilename w
  = (Raise (ValueError "Extension not recognized"),
     World (heap w) (trace w ++ [UIWaiting; UIBusy])).
Proof.
  intros Hsrc Hsuffix. destruct w as [h t].
  apply not_elem_of_cons in Hsuffix as [Hpng Hpnm].
  unfold ScaleNxGUI.FileNx.
  rewrite (bind_Ok _ _ _ _ _ (emit_run _ _ _)).
  rewrite (bool_decide_eq_false_2 _ Hsrc).
  rewrite (bind_Ok _ _ _ _ _ (emit_run _ _ _)).
  rewrite (bool_decide_eq_false_2 _ Hpng), (bool_decide_eq_false_2 _ Hpnm).
  erewrite bind_Raise; [|reflexivity].
  cbn [heap trace]. by rewrite <- app_assoc.
Qed.

(** X20. A source file whose suffix is none of [.png], [.ppm], [.pgm] and
    [.pbm] is rejected with [ValueError] before any reader is called, and
    the window is left in its busy state. *)
Theorem FileNx_extension_not_recognized
    (Reader_asDirect : string -> result (Z * Z * list (list Z) * dict))
    (pnm2list : string -> result (Z * Z * Z * Z * image))
    (scale2x scale3x scale2xsfx scale3xsfx : image -> result image)
    (size : Z) (sfx : bool) (sourcefilename resultfilename : string)
    (w : world) :
  sourcefilename <> EmptyString ->
  ScaleNxGUI.suffix sourcefilename ∉ [".png"; ".ppm"; ".pgm"; ".pbm"] ->
  ScaleNxGUI.FileNx Reader_asDirect pnm2list
    scale2x scale3x scale2xsfx scale3xsfx size sfx
    sourcefilename resultfilename w
  = (Raise (ValueError "Extension not recognized"),
     World (heap w) (trace w ++ [UIWaiting; UIBusy])).
Proof. apply FileNx_extension_run. Qed.

Lemma FileNx_extension_not_recognized_witness :
  ScaleNxGUI.FileNx failing_reader no_pnm
    (sample_scaler 2) (sample_scaler 3) (sample_scaler 2) (sample_scaler 3)
    2 false "art/notes.txt" "out.png" (World ∅ [])
  = (Raise (ValueError "Extension not recognized"),
     World (heap (World ∅ [])) (trace (World ∅ []) ++ [UIWaiting; UIBusy])).
Proof.
  apply (FileNx_extension_not_recognized failing_reader no_pnm
           (sample_scaler 2) (sample_scaler 3) (sample_scaler 2)
           (sample_scaler 3) 2 false "art/notes.txt" "out.png").
  - discriminate.
  - vm_compute. intros H.
    repeat (apply elem_of_cons in H as [H|H]; [discriminate|]).
    by apply elem_of_nil in H.
Defined.

Ltac FileNx_read_png Hsrc Hdecode HN Hscaler Hlaw :=
  unfold ScaleNxGUI.FileNx;
  rewrite (bind_Ok _ _ _ _ _ (emit_run _ _ _));
  rewrite (bool_decide_eq_false_2 _ (suffix_nonempty _ Hsrc));
  rewrite (bind_Ok _ _ _ _ _ (emit_run _ _ _));
  rewrite (bool_decide_eq_true_2 _ Hsrc);
  rewrite (bind_Ok _ _ _ _ _ (Hdecode _));
  rewrite (bind_Ok _ _ _ _ _ (call_scaler_run _ _ _ _ _ _ _ _ _ HN Hscaler));
  rewrite (bind_Ok _ _ _ _ _ (fix_resolution_run _ _ _ _ _ _ Hlaw));
  rewrite (bind_Ok _ _ _ _ _ (emit_run _ _ _)).

(** X21. [FileNx] decodes and rescales before it asks where to save.  When
    the save dialog is cancelled, or when the chosen name has a suffix other
    than [.png], [.ppm] and [.pgm], it returns without an exception and
    without writing any file. *)
Theorem FileNx_nothing_saved
    (Reader_asDirect : string -> result (Z * Z * list (list Z) * dict))
    (pnm2list : string -> result (Z * Z * Z * Z * image))
    (scale2x scale3x scale2xsfx scale3xsfx : image -> result image)
    (src dst : string) (N : Z) (sfx : bool)
    (X Y Z_ bitdepth maxcolors : Z) (pixels : list (list Z)) (chunks : dict)
    (scaled : image) (record : value) (w : world) :
  N = 2 \/ N = 3 ->
  ScaleNxGUI.suffix src = ".png" ->
  Reader_asDirect src = Ok (X, Y, pixels, chunks) ->
  chunks !! "planes" = Some (VInt Z_) ->
  chunks !! "bitdepth" = Some (VInt bitdepth) ->
  maxcolors_of bitdepth = Some maxcolors ->
  scanlines pixels Y X Z_ ->
  (forall scaler,
     ScaleNxGUI.chosen_scaler scale2x scale3x scale2xsfx scale3xsfx N sfx
     = Some scaler ->
     scaler (partition X Y Z_ pixels) = Ok scaled) ->
  resolution_law N (chunks !! "physical") = Some record ->
  ScaleNxGUI.suffix dst ∉ [".png"; ".ppm"; ".pgm"] ->
  exists w1,
    ScaleNxGUI.FileNx Reader_asDirect pnm2list
      scale2x scale3x scale2xsfx scale3xsfx N sfx src dst w = (Ok tt, w1) /\
    trace w1
    = trace w ++ (if bool_decide (dst = EmptyString)
                  then [UIWaiting; UIBusy; UIWaiting; UINormal]
                  else [UIWaiting; UIBusy; UIWaiting; UIBusy; UINormal]) /\
    written (trace w1) = written (trace w).
Proof.
  intros HN Hsrc Hread Hplanes Hbits Hmax Hscan Hscaler Hlaw Hdst.
  destruct w as [h t].
  pose proof (fun t' =>
      png2list_run _ _ _ _ _ _ _ _ h t' Hread Hplanes Hbits Hscan) as Hdecode.
  rewrite Hmax in Hdecode.
  apply not_elem_of_cons in Hdst as [Hpng Hpnm].
  FileNx_read_png Hsrc Hdecode HN Hscaler Hlaw.
  destruct (decide (dst = EmptyString)) as [Hempty|Hname].
  - rewrite !(bool_decide_eq_true_2 _ Hempty). rewrite emit_run.
    eexists. split; [reflexivity|]. cbn [trace].
    rewrite <- !app_assoc. split; [reflexivity|].
    rewrite written_app. cbn. by rewrite app_nil_r.
  - rewrite !(bool_decide_eq_false_2 _ Hname).
    rewrite (bind_Ok _ _ _ _ _ (emit_run _ _ _)).
    rewrite (bool_decide_eq_false_2 _ Hpng), (bool_decide_eq_false_2 _ Hpnm).
    erewrite bind_Ok; [|reflexivity]. rewrite emit_run.
    eexists. split; [reflexivity|]. cbn [trace].
    rewrite <- !app_assoc. split; [reflexivity|].
    rewrite written_app. cbn. by rewrite app_nil_r.
Qed.

Lemma FileNx_nothing_saved_witness :
  exists w1,
    ScaleNxGUI.FileNx sample_reader_physical no_pnm
      (sample_scaler 2) (sample_scaler 3) (sample_scaler 2) (sample_scaler 3)
      2 false "a.png" "out/a.jpg" (World ∅ []) = (Ok tt, w1) /\
    trace w1
    = trace (World ∅ [])
        ++ (if bool_decide ("out/a.jpg" = EmptyString)
            then [UIWaiting; UIBusy; UIWaiting; UINormal]
            else [UIWaiting; UIBusy; UIWaiting; UIBusy; UINormal]) /\
    written (trace w1) = written (trace (World ∅ [])).
Proof.
  apply (FileNx_nothing_saved sample_reader_physical no_pnm
           (sample_scaler 2) (sample_scaler 3) (sample_scaler 2)
           (sample_scaler 3) "a.png" "out/a.jpg" 2 false 2 2 3 8 255
           (flat_rows sample_image)
           (<["physical" := VTuple [VInt 2835; VInt 2835; VBool true]]>
              (<["compression" := VInt 1]>
                 (<["planes" := VInt 3]> {["bitdepth" := VInt 8]})))
           sample_scaled
           (VList [VInt 5670; VInt 5670; VBool true]) (World ∅ [])).
  - left. reflexivity.
  - reflexivity.
  - reflexivity.
  - vm_compute. reflexivity.
  - vm_compute. reflexivity.
  - reflexivity.
  - split; [reflexivity | repeat constructor].
  - intros scaler H. injection H as <-. vm_compute. reflexivity.
  - vm_compute. reflexivity.
  - vm_compute. intros H.
    repeat (apply elem_of_cons in H as [H|H]; [discriminate|]).
    by apply elem_of_nil in H.
Defined.

(** X22. A PNM file saved as PNG gets metadata made up by the driver: the
    allocated record holds a bit depth of 16 when the samples of the PNM
    file go beyond 255, and of 8 otherwise; the physical record is the
    default of 3780 pixels by metre times the factor, and the compression
    is 9. *)
Theorem FileNx_pnm_to_png
    (Reader_asDirect : string -> result (Z * Z * list (list Z) * dict))
    (pnm2list : string -> result (Z * Z * Z * Z * image))
    (scale2x scale3x scale2xsfx scale3xsfx : image -> result image)
    (src dst : string) (N : Z) (sfx : bool)
    (X Y Z_ maxcolors : Z) (image3d scaled : image) (Y' X' Z' : Z)
    (w : world) :
  N = 2 \/ N = 3 ->
  ScaleNxGUI.suffix src ∈ [".ppm"; ".pgm"; ".pbm"] ->
  ScaleNxGUI.suffix dst = ".png" ->
  pnm2list src = Ok (X, Y, Z_, maxcolors, image3d) ->
  (forall scaler,
     ScaleNxGUI.chosen_scaler scale2x scale3x scale2xsfx scale3xsfx N sfx
     = Some scaler ->
     scaler image3d = Ok scaled) ->
  rectangular scaled Y' X' Z' ->
  0 < Y' -> 0 < X' ->
  exists kwargs rows w1,
    ScaleNxGUI.FileNx Reader_asDirect pnm2list
      scale2x scale3x scale2xsfx scale3xsfx N sfx src dst w = (Ok tt, w1) /\
    trace w1 = trace w ++ [UIWaiting; UIBusy; UIWaiting; UIBusy;
                           Open_wb dst; Writer_write dst X' Y' kwargs rows;
                           UINormal] /\
    kwargs !! "bitdepth"
    = Some (if maxcolors >? 255 then VInt 16 else VInt 8) /\
    kwargs !! "physical"
    = Some (VList [VInt (N * 3780); VInt (N * 3780); VBool true]) /\
    kwargs !! "compression" = Some (VInt 9).
Proof.
  intros HN Hsrc Hdst Hread Hscaler Hrect HY HX. destruct w as [h t].
  assert (ScaleNxGUI.suffix src <> ".png") as Hpng.
  { intros E. rewrite E in Hsrc.
    repeat (apply elem_of_cons in Hsrc as [Hsrc|Hsrc]; [discriminate|]).
    by apply elem_of_nil in Hsrc. }
  assert (src <> EmptyString) as Hname.
  { intros ->. cbn in Hsrc.
    repeat (apply elem_of_cons in Hsrc as [Hsrc|Hsrc]; [discriminate|]).
    by apply elem_of_nil in Hsrc. }
  eexists _, _, _. split; [|split].
  - unfold ScaleNxGUI.FileNx.
    rewrite (bind_Ok _ _ _ _ _ (emit_run _ _ _)).
    rewrite (bool_decide_eq_false_2 _ Hname).
    rewrite (bind_Ok _ _ _ _ _ (emit_run _ _ _)).
    rewrite (bool_decide_eq_false_2 _ Hpng), (bool_decide_eq_true_2 _ Hsrc).
    rewrite Hread.
    erewrite bind_Ok; cycle 1.
    { rewrite (bind_Ok _ _ _ _ _ (lift_run _ _)).
      rewrite (bind_Ok _ _ _ _ _ (alloc_run _ _ _)).
      erewrite bind_Ok; [reflexivity|].
      apply dict_set_if_run. }
    cbv beta iota.
    rewrite (bind_Ok _ _ _ _ _
               (call_scaler_run _ _ _ _ _ _ _ _ _ HN Hscaler)).
    erewrite bind_Ok; cycle 1.
    { apply fix_resolution_run.
      rewrite lookup_insert_ne, lookup_empty by done. reflexivity. }
    rewrite (bind_Ok _ _ _ _ _ (emit_run _ _ _)).
    rewrite (bool_decide_eq_false_2 (dst = EmptyString))
      by (intros ->; discriminate).
    rewrite (bind_Ok _ _ _ _ _ (emit_run _ _ _)).
    rewrite (bool_decide_eq_true_2 _ Hdst).
    erewrite bind_Ok; cycle 1.
    { apply (list2png_run dst scaled _ Y' X' Z'); [done..|].
      apply lookup_insert_eq. }
    apply emit_run.
  - cbn [trace]. rewrite <- !app_assoc. reflexivity.
  - rewrite !derived_info_other by not_a_derived_key.
    repeat split; by simplify_map_eq.
Qed.

Lemma FileNx_pnm_to_png_witness :
  exists kwargs rows w1,
    ScaleNxGUI.FileNx failing_reader sample_pnm
      (sample_scaler 2) (sample_scaler 3) (sample_scaler 2) (sample_scaler 3)
      3 true "art/mask.pbm" "out/mask.png" (World ∅ []) = (Ok tt, w1) /\
    trace w1 = trace (World ∅ [])
               ++ [UIWaiting; UIBusy; UIWaiting; UIBusy;
                   Open_wb "out/mask.png";
                   Writer_write "out/mask.png" 6 6 kwargs rows;
                   UINormal] /\
    kwargs !! "bitdepth" = Some (if 1 >? 255 then VInt 16 else VInt 8) /\
    kwargs !! "physical"
    = Some (VList [VInt (3 * 3780); VInt (3 * 3780); VBool true]) /\
    kwargs !! "compression" = Some (VInt 9).
Proof.
  apply (FileNx_pnm_to_png failing_reader sample_pnm
           (sample_scaler 2) (sample_scaler 3) (sample_scaler 2)
           (sample_scaler 3) "art/mask.pbm" "out/mask.png" 3 true 2 2 1 1
           [ [ [0]; [1] ]; [ [1]; [0] ] ]
           sample_bitmap_scaled 6 6 1).
  - right. reflexivity.
  - vm_compute. do 2 right. left.
  - reflexivity.
  - reflexivity.
  - intros scaler H. injection H as <-. vm_compute. reflexivity.
  - split; [reflexivity | repeat constructor].
  - lia.
  - lia.
Defined.

(** X23. A PNG file saved as PNM loses its metadata: the PNM writer is
    handed the scaled image and the [maxcolors] that [png2list] derived
    from the bit depth, and nothing of the record. *)
Theorem FileNx_png_to_pnm
    (Reader_asDirect : string -> result (Z * Z * list (list Z) * dict))
    (pnm2list : string -> result (Z * Z * Z * Z * image))
    (scale2x scale3x scale2xsfx scale3xsfx : image -> result image)
    (src dst : string) (N : Z) (sfx : bool)
    (X Y Z_ bitdepth maxcolors : Z) (pixels : list (list Z)) (chunks : dict)
    (scaled : image) (record : value) (w : world) :
  N = 2 \/ N = 3 ->
  ScaleNxGUI.suffix src = ".png" ->
  ScaleNxGUI.suffix dst ∈ [".ppm"; ".pgm"] ->
  Reader_asDirect src = Ok (X, Y, pixels, chunks) ->
  chunks !! "planes" = Some (VInt Z_) ->
  chunks !! "bitdepth" = Some (VInt bitdepth) ->
  maxcolors_of bitdepth = Some maxcolors ->
  scanlines pixels Y X Z_ ->
  (forall scaler,
     ScaleNxGUI.chosen_scaler scale2x scale3x scale2xsfx scale3xsfx N sfx
     = Some scaler ->
     scaler (partition X Y Z_ pixels) = Ok scaled) ->
  resolution_law N (chunks !! "physical") = Some record ->
  exists w1,
    ScaleNxGUI.FileNx Reader_asDirect pnm2list
      scale2x scale3x scale2xsfx scale3xsfx N sfx src dst w = (Ok tt, w1) /\
    trace w1 = trace w ++ [UIWaiting; UIBusy; UIWaiting; UIBusy;
                           List2pnm dst scaled maxcolors; UINormal].
Proof.
  intros HN Hsrc Hdst Hread Hplanes Hbits Hmax Hscan Hscaler Hlaw.
  destruct w as [h t].
  pose proof (fun t' =>
      png2list_run _ _ _ _ _ _ _ _ h t' Hread Hplanes Hbits Hscan) as Hdecode.
  rewrite Hmax in Hdecode.
  assert (ScaleNxGUI.suffix dst <> ".png") as Hpng.
  { intros E. rewrite E in Hdst.
    repeat (apply elem_of_cons in Hdst as [Hdst|Hdst]; [discriminate|]).
    by apply elem_of_nil in Hdst. }
  assert (dst <> EmptyString) as Hname.
  { intros ->. cbn in Hdst.
    repeat (apply elem_of_cons in Hdst as [Hdst|Hdst]; [discriminate|]).
    by apply elem_of_nil in Hdst. }
  FileNx_read_png Hsrc Hdecode HN Hscaler Hlaw.
  rewrite (bool_decide_eq_false_2 _ Hname).
  rewrite (bind_Ok _ _ _ _ _ (emit_run _ _ _)).
  rewrite (bool_decide_eq_false_2 _ Hpng), (bool_decide_eq_true_2 _ Hdst).
  rewrite (bind_Ok _ _ _ _ _ (emit_run _ _ _)). rewrite emit_run.
  eexists. split; [reflexivity|]. cbn [trace].
  by rewrite <- !app_assoc.
Qed.

Lemma FileNx_png_to_pnm_witness :
  exists w1,
    ScaleNxGUI.FileNx sample_reader_physical no_pnm
      (sample_scaler 2) (sample_scaler 3) (sample_scaler 2) (sample_scaler 3)
      2 false "a.png" "out/a.ppm" (World ∅ []) = (Ok tt, w1) /\
    trace w1 = trace (World ∅ [])
               ++ [UIWaiting; UIBusy; UIWaiting; UIBusy;
                   List2pnm "out/a.ppm" sample_scaled 255; UINormal].
Proof.
  apply (FileNx_png_to_pnm sample_reader_physical no_pnm
           (sample_scaler 2) (sample_scaler 3) (sample_scaler 2)
           (sample_scaler 3) "a.png" "out/a.ppm" 2 false 2 2 3 8 255
           (flat_rows sample_image)
           (<["physical" := VTuple [VInt 2835; VInt 2835; VBool true]]>
              (<["compression" := VInt 1]>
                 (<["planes" := VInt 3]> {["bitdepth" := VInt 8]})))
           sample_scaled
           (VList [VInt 5670; VInt 5670; VBool true]) (World ∅ [])).
  - left. reflexivity.
  - reflexivity.
  - vm_compute. left.
  - reflexivity.
  - vm_compute. reflexivity.
  - vm_compute. reflexivity.
  - reflexivity.
  - split; [reflexivity | repeat constructor].
  - intros scaler H. injection H as <-. vm_compute. reflexivity.
  - vm_compute. reflexivity.
Defined.

(** X24. Every button of the window that starts a rescale passes the size
    2 or 3, so the drivers never reach the unbound scaler from the window:
    for each of these buttons one of the four scalers is chosen, the SFX
    one exactly for the buttons of the right frame. *)
Theorem buttons_choose_a_scaler
    (scale2x scale3x scale2xsfx scale3xsfx : image -> result image)
    (b : MainBody.button) (size : Z) (sfx : bool) :
  MainBody.command_of b = MainBody.Call_FileNx size sfx \/
  MainBody.command_of b = MainBody.Call_FolderNx size sfx ->
  (size = 2 \/ size = 3) /\
  (sfx = true <->
   b ∈ [MainBody.butt11; MainBody.butt12; MainBody.butt13; MainBody.butt14]) /\
  ScaleNxGUI.chosen_scaler scale2x scale3x scale2xsfx scale3xsfx size sfx
  = Some (match sfx, size with
          | false, 2 => scale2x
          | false, _ => scale3x
          | true, 2 => scale2xsfx
          | true, _ => scale3xsfx
          end).
Proof.
  intros Hcommand.
  destruct b; cbn in Hcommand;
    destruct Hcommand as [Hc|Hc]; try discriminate;
    injection Hc as <- <-;
    (split; [auto|]); (split; [|reflexivity]);
    (split; [try discriminate; intros _; repeat constructor|]);
    intros Hb; try reflexivity;
    repeat (apply elem_of_cons in Hb as [Hb|Hb]; [discriminate|]);
    by apply elem_of_nil in Hb.
Qed.

Lemma buttons_choose_a_scaler_witness :
  (3 = 2 \/ 3 = 3) /\
  (true = true <->
   MainBody.butt12
     ∈ [MainBody.butt11; MainBody.butt12; MainBody.butt13; MainBody.butt14]) /\
  ScaleNxGUI.chosen_scaler
    (sample_scaler 2) (sample_scaler 3) (sample_scaler 2) (sample_scaler 3)
    3 true
  = Some (sample_scaler 3).
Proof.
  apply (buttons_choose_a_scaler
           (sample_scaler 2) (sample_scaler 3) (sample_scaler 2)
           (sample_scaler 3) MainBody.butt12 3 true).
  left. reflexivity.
Defined.

(** ** The window *)

Lemma config_state_twice s1 s2 w :
  Window.config_state s2 (Window.config_state s1 w) = Window.config_state s2 w.
Proof.
  unfold Window.config_state.
  destruct (bool_decide (Window.w_class w ∈ ["Label"; "Button"])) eqn:E;
    cbn; by rewrite E.
Qed.

Lemma config_state_all s1 s2 (ws : list Window.widget) :
  Window.config_state s2 <$> (Window.config_state s1 <$> ws)
  = Window.config_state s2 <$> ws.
Proof.
  rewrite <- list_fmap_compose. apply list_fmap_ext.
  intros i w _. apply config_state_twice.
Qed.

Lemma config_state_id state (ws : list Window.widget) :
  all_in_state state ws -> Window.config_state state <$> ws = ws.
Proof.
  intros Hall. induction ws as [|w ws IH]; [reflexivity|].
  cbn. rewrite IH by (intros w' Hw'; apply Hall; by right). f_equal.
  unfold Window.config_state. case_bool_decide as Hclass; [|reflexivity].
  pose proof (Hall _ (list_elem_of_here _ _) Hclass) as Hstate.
  destruct w as [name class state']. cbn in *. by subst.
Qed.

Lemma config_state_in_state state (ws : list Window.widget) :
  all_in_state state (Window.config_state state <$> ws).
Proof.
  intros w' (w & -> & _)%list_elem_of_fmap. unfold Window.config_state.
  case_bool_decide as Hclass; [reflexivity|]. by intros ?.
Qed.

Lemma config_state_other state (w : Window.widget) :
  Window.w_class w ∉ ["Label"; "Button"] -> Window.config_state state w = w.
Proof.
  intros Hclass. unfold Window.config_state.
  by rewrite bool_decide_eq_false_2.
Qed.

(** The window after a trace that ends with one of the state functions. *)
Lemma window_after_app tr1 tr2 g :
  window_after (tr1 ++ tr2) g = window_after tr2 (window_after tr1 g).
Proof. apply foldl_app. Qed.

Lemma window_after_submit (ts : list WorkerPool.task) g :
  window_after (submit <$> ts) g = g.
Proof.
  revert g. induction ts as [|t ts IH]; intros g; [reflexivity|]. apply IH.
Qed.

(** X25. The state functions touch the state of the labels and buttons of
    the two frames and the information line, and nothing else; a window at
    rest that goes through the waiting and the busy state and is set back
    to normal is exactly as it was, and in the busy state every label and
    button of the two frames is disabled. *)
Theorem window_states (g : Window.window) :
  at_rest g ->
  Window.UINormal (Window.UIBusy (Window.UIWaiting g)) = g /\
  all_in_state "disabled" (Window.frame_left (Window.UIBusy g)) /\
  all_in_state "disabled" (Window.frame_right (Window.UIBusy g)) /\
  Window.info_string (Window.UIBusy g) = Window.info_busy /\
  (forall w, w ∈ Window.frame_left g ++ Window.frame_right g ->
     Window.w_class w ∉ ["Label"; "Button"] ->
     w ∈ Window.frame_left (Window.UIBusy g)
         ++ Window.frame_right (Window.UIBusy g)).
Proof.
  intros (Hleft & Hright & Hline). destruct g as [left right line].
  cbn in *. subst line. split; [|split; [|split; [|split]]].
  - unfold Window.UINormal, Window.UIBusy, Window.UIWaiting. cbn.
    rewrite !config_state_all.
    by rewrite (config_state_id _ _ Hleft), (config_state_id _ _ Hright).
  - apply config_state_in_state.
  - apply config_state_in_state.
  - reflexivity.
  - intros w Hw Hclass. rewrite <- fmap_app.
    apply list_elem_of_fmap. exists w. split; [|done].
    by rewrite config_state_other.
Qed.

Lemma main_window_at_rest : at_rest Window.main_window.
Proof.
  repeat split; intros w Hw _; cbn in Hw;
    repeat (apply elem_of_cons in Hw as [-> | Hw]; [reflexivity|]);
    by apply elem_of_nil in Hw.
Qed.

Lemma window_states_witness :
  Window.UINormal (Window.UIBusy (Window.UIWaiting Window.main_window))
  = Window.main_window /\
  all_in_state "disabled"
    (Window.frame_left (Window.UIBusy Window.main_window)) /\
  all_in_state "disabled"
    (Window.frame_right (Window.UIBusy Window.main_window)) /\
  Window.info_string (Window.UIBusy Window.main_window) = Window.info_busy /\
  (forall w,
     w ∈ Window.frame_left Window.main_window
         ++ Window.frame_right Window.main_window ->
     Window.w_class w ∉ ["Label"; "Button"] ->
     w ∈ Window.frame_left (Window.UIBusy Window.main_window)
         ++ Window.frame_right (Window.UIBusy Window.main_window)).
Proof.
  apply (window_states Window.main_window).
  repeat split; intros w Hw _; cbn in Hw;
    repeat (apply elem_of_cons in Hw as [-> | Hw]; [reflexivity|]);
    by apply elem_of_nil in Hw.
Defined.

(** X26. A batch run gives the window back: after [FolderNx] has returned,
    a window that was at rest is at rest again, exactly as it was. *)
Theorem FolderNx_restores_window
    (size : Z) (sfx : bool) (sourcedir : string) (tree : list string)
    (w : world) (g : Window.window) :
  at_rest g ->
  exists calls,
    ScaleNxGUI.FolderNx size sfx sourcedir tree w
    = (Ok tt, World (heap w) (trace w ++ calls)) /\
    window_after calls g = g.
Proof.
  intros (Hleft & Hright & Hline). destruct w as [h t], g as [left right line].
  cbn in *. subst line.
  assert (forall g', Window.UINormal g' = Window.Build left right Window.info_normal
            <-> Window.config_state "normal" <$> Window.frame_left g' = left /\
                Window.config_state "normal" <$> Window.frame_right g' = right)
    as Hnormal.
  { intros g'. unfold Window.UINormal. split; [by intros [= -> ->]|].
    by intros [-> ->]. }
  destruct (decide (sourcedir = EmptyString)) as [-> | Hdir].
  - eexists. split.
    + unfold ScaleNxGUI.FolderNx.
      rewrite (bind_Ok _ _ _ _ _ (emit_run _ _ _)).
      rewrite bool_decide_eq_true_2 by reflexivity.
      rewrite emit_run, <- app_assoc. reflexivity.
    + cbn. apply Hnormal. cbn. rewrite !config_state_all.
      by rewrite (config_state_id _ _ Hleft), (config_state_id _ _ Hright).
  - eexists. split; [by apply FolderNx_run|].
    rewrite !window_after_app, window_after_submit. cbn.
    apply Hnormal. cbn. rewrite !config_state_all.
    by rewrite (config_state_id _ _ Hleft), (config_state_id _ _ Hright).
Qed.

Lemma FolderNx_restores_window_witness :
  exists calls,
    ScaleNxGUI.FolderNx 2 true "art" sample_tree (World ∅ [])
    = (Ok tt, World (heap (World ∅ [])) (trace (World ∅ []) ++ calls)) /\
    window_after calls Window.main_window = Window.main_window.
Proof.
  apply (FolderNx_restores_window 2 true "art" sample_tree (World ∅ [])
           Window.main_window).
  repeat split; intros w Hw _; cbn in Hw;
    repeat (apply elem_of_cons in Hw as [-> | Hw]; [reflexivity|]);
    by apply elem_of_nil in Hw.
Defined.

(** X27. An exception in [FileNx] leaves the window busy: nothing sets it
    back to normal.  After a source file with an unknown suffix, every label
    and button of the two frames is disabled and the line reads busy. *)
Theorem FileNx_error_leaves_window_busy
    (Reader_asDirect : string -> result (Z * Z * list (list Z) * dict))
    (pnm2list : string -> result (Z * Z * Z * Z * image))
    (scale2x scale3x scale2xsfx scale3xsfx : image -> result image)
    (size : Z) (sfx : bool) (sourcefilename resultfilename : string)
    (w : world) (g : Window.window) :
  sourcefilename <> EmptyString ->
  ScaleNxGUI.suffix sourcefilename ∉ [".png"; ".ppm"; ".pgm"; ".pbm"] ->
  exists e calls,
    ScaleNxGUI.FileNx Reader_asDirect pnm2list
      scale2x scale3x scale2xsfx scale3xsfx size sfx
      sourcefilename resultfilename w
    = (Raise e, World (heap w) (trace w ++ calls)) /\
    all_in_state "disabled" (Window.frame_left (window_after calls g)) /\
    all_in_state "disabled" (Window.frame_right (window_after calls g)) /\
    Window.info_string (window_after calls g) = Window.info_busy.
Proof.
  intros Hsrc Hsuffix. eexists _, _.
  split; [by apply FileNx_extension_run|]. cbn.
  repeat split; apply config_state_in_state.
Qed.

Lemma FileNx_error_leaves_window_busy_witness :
  exists e calls,
    ScaleNxGUI.FileNx failing_reader no_pnm
      (sample_scaler 2) (sample_scaler 3) (sample_scaler 2) (sample_scaler 3)
      2 false "art/notes.txt" "out.png" (World ∅ [])
    = (Raise e, World (heap (World ∅ [])) (trace (World ∅ []) ++ calls)) /\
    all_in_state "disabled"
      (Window.frame_left (window_after calls Window.main_window)) /\
    all_in_state "disabled"
      (Window.frame_right (window_after calls Window.main_window)) /\
    Window.info_string (window_after calls Window.main_window)
    = Window.info_busy.
Proof.
  apply (FileNx_error_leaves_window_busy failing_reader no_pnm
           (sample_scaler 2) (sample_scaler 3) (sample_scaler 2)
           (sample_scaler 3) 2 false "art/notes.txt" "out.png").
  - discriminate.
  - vm_compute. intros H.
    repeat (apply elem_of_cons in H as [H|H]; [discriminate|]).
    by apply elem_of_nil in H.
Defined.
